(** * Reflector Ride Maps: the map view controller, embedded and verified

    The repository is a browser front-end: [app.js] wires DOM controls to a
    Mapbox GL map.  Three revisions of [app.js] are present in the sources:

    - [src/app.js]                          (module [AppJs]),
    - the PMTiles revision                  (module [PmtilesApp], colour
      tables only: its handlers are those of [src/app.js]),
    - the revision with click-to-highlight and trip statistics, which
      follows the generator script in [src/generate-config.js]
      (module [BikeApp]).

    JavaScript numbers are IEEE-754 doubles and are modelled by Rocq's
    primitive binary64 floats; the handlers run in a state-and-exception
    monad over a [World] that holds the map style, the DOM, the console
    and the script's global variables. *)

From Stdlib Require Import ZArith Floats DecimalString DecimalN.
From stdpp Require Import gmap strings list.

Set Warnings "-inexact-float".

(* ===================================================================== *)
(** * JavaScript numbers and the number formatting the handlers use      *)
(* ===================================================================== *)

Module JS.

Abbreviation number := float.

(** The double nearest to an integer (exact below 2^53). *)
Definition of_Z (z : Z) : number :=
  SF2Prim (binary_normalize prec emax z 0 false).

Definition signed (s : bool) (m : positive) : Z :=
  if s then Z.neg m else Z.pos m.

(** [Math.floor]: the value [m * 2^e] is split exactly; doubles with a
    non-negative exponent are already integers. *)
Definition Math_floor (x : number) : number :=
  match Prim2SF x with
  | S754_finite s m e =>
      if (0 <=? e)%Z then x else of_Z (signed s m / 2 ^ (- e))
  | _ => x
  end.

(** [Math.round]: nearest integer, ties towards +∞; a negative argument
    that rounds to zero gives -0. *)
Definition Math_round (x : number) : number :=
  match Prim2SF x with
  | S754_finite s m e =>
      if (0 <=? e)%Z then x
      else
        let n := ((2 * signed s m + 2 ^ (- e)) / 2 ^ (1 - e))%Z in
        if (n =? 0)%Z && s then neg_zero else of_Z n
  | _ => x
  end.

(** The remainder operator [x % y] (C's fmod): exact, sign of the
    dividend. *)
Definition rem (x y : number) : number :=
  match Prim2SF x, Prim2SF y with
  | S754_nan, _ | _, S754_nan => nan
  | S754_infinity _, _ => nan
  | _, S754_zero _ => nan
  | _, S754_infinity _ => x
  | S754_zero _, _ => x
  | S754_finite sx mx ex, S754_finite _ my ey =>
      let e0 := Z.min ex ey in
      let X := (Z.pos mx * 2 ^ (ex - e0))%Z in
      let Y := (Z.pos my * 2 ^ (ey - e0))%Z in
      let R := (X mod Y)%Z in
      if (R =? 0)%Z then (if sx then neg_zero else zero)
      else SF2Prim (binary_normalize prec emax (if sx then - R else R) e0 false)
  end.

(** Decimal digits of a natural number. *)
Definition digits (n : N) : string :=
  NilZero.string_of_uint (N.to_uint n).

Fixpoint zeros (k : nat) : string :=
  match k with O => "" | S k' => "0" +:+ zeros k' end.

(** [s.padStart(len, '0')]. *)
Definition padStart0 (len : nat) (s : string) : string :=
  zeros (len - String.length s) +:+ s.

(** [Number::toString] on the integral doubles below 2^53 (what the
    handlers print for counts, minutes and hours: there the shortest
    digits that read back are the integer's own) and on the special
    values; other finite doubles need the shortest round-trip digits and
    are outside the modelled fragment ([None]). *)
Definition toString (x : number) : option string :=
  match Prim2SF x with
  | S754_nan => Some "NaN"
  | S754_infinity s => Some (if s then "-Infinity" else "Infinity")
  | S754_zero _ => Some "0"
  | S754_finite s m e =>
      if (0 <=? e)%Z then
        if (2 ^ 53 <=? Z.pos m * 2 ^ e)%Z then None
        else Some ((if s then "-" else "") +:+ digits (Z.to_N (Z.pos m * 2 ^ e)))
      else if (Z.pos m mod 2 ^ (- e) =? 0)%Z then
        Some ((if s then "-" else "") +:+ digits (Z.to_N (Z.pos m / 2 ^ (- e))))
      else None
  end.

(** Text built by the handlers.  A number converted to a string is kept
    as [OfNumber] and printed by [render], so that the handlers are total
    although [toString] is modelled on a fragment only. *)
Inductive text :=
| Str (s : string)
| OfNumber (x : number)
| PadStart0 (len : nat) (t : text)
| Cat (a b : text).

Fixpoint render (t : text) : option string :=
  match t with
  | Str s => Some s
  | OfNumber x => toString x
  | PadStart0 len t' => padStart0 len <$> render t'
  | Cat a b => sa ← render a; sb ← render b; Some (sa +:+ sb)
  end.

(** The digits of [n] with a decimal point before the last [f] of them,
    as [Number.prototype.toFixed] lays them out. *)
Definition fixed_string (n : N) (f : nat) : string :=
  let m := padStart0 (S f) (digits n) in
  let k := (String.length m - f)%nat in
  match f with
  | O => m
  | _ => String.substring 0 k m +:+ "." +:+ String.substring k f m
  end.

(** [x.toFixed(f)].  Let [n] be the integer for which [n / 10^f - x] is
    closest to zero, the larger one on a tie; the arithmetic is exact on
    the double's value [m * 2^e].  NaN, the infinities and values of
    magnitude 10^21 and above are printed by [Number::toString]. *)
Definition toFixed (x : number) (f : nat) : text :=
  match Prim2SF x with
  | S754_zero _ => Str (fixed_string 0 f)
  | S754_finite s m e =>
      let big :=
        if (0 <=? e)%Z then (10 ^ 21 <=? Z.pos m * 2 ^ e)%Z
        else (10 ^ 21 * 2 ^ (- e) <=? Z.pos m)%Z in
      if big then OfNumber x
      else
        let p := (10 ^ Z.of_nat f)%Z in
        let n :=
          if (0 <=? e)%Z then (Z.pos m * 2 ^ e * p)%Z
          else ((2 * Z.pos m * p + 2 ^ (- e)) / 2 ^ (1 - e))%Z in
        Str ((if s then "-" else "") +:+ fixed_string (Z.to_N n) f)
  | _ => OfNumber x
  end.

(** ** Strings *)

Definition is_space (c : Ascii.ascii) : bool :=
  let n := Ascii.N_of_ascii c in ((9 <=? n) && (n <=? 13) || (n =? 32))%N.

Definition lower (c : Ascii.ascii) : Ascii.ascii :=
  let n := Ascii.N_of_ascii c in
  if ((65 <=? n) && (n <=? 90))%N then Ascii.ascii_of_N (n + 32) else c.

Fixpoint drop_chars (k : nat) (s : string) : string :=
  match k, s with
  | S k', String _ s' => drop_chars k' s'
  | _, _ => s
  end.

(** [s.replace(pat, rep)] with a string pattern: the first occurrence. *)
Fixpoint replace_first (pat rep s : string) : string :=
  if String.prefix pat s then rep +:+ drop_chars (String.length pat) s
  else match s with
       | EmptyString => EmptyString
       | String c s' => String c (replace_first pat rep s')
       end.

(** [s.replace(/_/g, ' ')]. *)
Fixpoint underscores_to_spaces (s : string) : string :=
  match s with
  | EmptyString => EmptyString
  | String c s' =>
      String (if Ascii.eqb c (Ascii.ascii_of_nat 95) then Ascii.ascii_of_nat 32 else c)
             (underscores_to_spaces s')
  end.

Fixpoint prefix_ci (pat s : string) : bool :=
  match pat, s with
  | EmptyString, _ => true
  | String a pat', String b s' => Ascii.eqb a (lower b) && prefix_ci pat' s'
  | _, _ => false
  end.

(** [s.replace(/pat/gi, '')] for a lower-case literal pattern: every
    occurrence, left to right, letter case ignored. *)
Fixpoint remove_all_ci (fuel : nat) (pat s : string) : string :=
  match fuel with
  | O => s
  | S fuel' =>
      match s with
      | EmptyString => EmptyString
      | String c s' =>
          if prefix_ci pat s
          then remove_all_ci fuel' pat (drop_chars (String.length pat) s)
          else String c (remove_all_ci fuel' pat s')
      end
  end.

Fixpoint trim_start (s : string) : string :=
  match s with
  | String c s' => if is_space c then trim_start s' else s
  | EmptyString => EmptyString
  end.

Fixpoint trim_end (s : string) : string :=
  match s with
  | EmptyString => EmptyString
  | String c s' =>
      match trim_end s' with
      | EmptyString => if is_space c then EmptyString else String c EmptyString
      | t => String c t
      end
  end.

(** [s.trim()] (ASCII white space). *)
Definition trim (s : string) : string := trim_end (trim_start s).

(** The decimal string of an integer, as a control's [value] holds it. *)
Definition decimal (k : Z) : string :=
  if (k <? 0)%Z then "-" +:+ digits (Z.to_N (- k)) else digits (Z.to_N k).

Definition hex_digit (c : Ascii.ascii) : option N :=
  let n := Ascii.N_of_ascii c in
  if ((48 <=? n) && (n <=? 57))%N then Some (n - 48)%N
  else if ((65 <=? n) && (n <=? 70))%N then Some (n - 55)%N
  else if ((97 <=? n) && (n <=? 102))%N then Some (n - 87)%N
  else None.

Definition digit_in (radix : N) (c : Ascii.ascii) : option N :=
  match hex_digit c with
  | Some d => if (d <? radix)%N then Some d else None
  | None => None
  end.

(** The value of the longest prefix of digits, [None] when there is no
    digit at all. *)
Fixpoint parse_digits (radix : N) (acc : option N) (s : string) : option N :=
  match s with
  | EmptyString => acc
  | String c s' =>
      match digit_in radix c with
      | Some d => parse_digits radix (Some (default 0 acc * radix + d))%N s'
      | None => acc
      end
  end.

Definition strip_sign (s : string) : bool * string :=
  match s with
  | String c s' =>
      if Ascii.eqb c (Ascii.ascii_of_nat 45) then (true, s')
      else if Ascii.eqb c (Ascii.ascii_of_nat 43) then (false, s')
      else (false, s)
  | EmptyString => (false, s)
  end.

(** [parseInt(s)] without a radix: leading white space, a sign, an
    optional [0x] prefix, then the longest run of digits; [NaN] when
    there is none. *)
Definition parseInt (s : string) : number :=
  let '(neg, body) := strip_sign (trim_start s) in
  let parsed :=
    if prefix_ci "0x" body then parse_digits 16 None (drop_chars 2 body)
    else parse_digits 10 None body in
  match parsed with
  | Some n => of_Z (if neg then - Z.of_N n else Z.of_N n)
  | None => nan
  end.

(** Truthiness of a number: [0], [-0] and [NaN] are falsy. *)
Definition truthy (x : number) : bool :=
  negb (is_nan x || is_zero x).

End JS.

Open Scope float_scope.

(* ===================================================================== *)
(** * Mapbox GL: style expressions and their evaluation                  *)
(* ===================================================================== *)

(** The scripts only build style expressions (JSON arrays); the colours
    and filters they denote are given by the Mapbox style specification,
    whose evaluation rules ([get], [coalesce], [to-number], [interpolate],
    [step], [>=]) are transcribed here for the shapes the scripts build. *)

Module Mapbox.

(** A feature property as decoded from a vector tile or GeoJSON: absent
    properties read as [VNull].  String-valued properties are not part
    of the model (the speed and count properties are numeric). *)
Inductive value := VNull | VBool (b : bool) | VNum (x : float).

Abbreviation properties := (gmap string value).

Record color := RGBA { red : float; green : float; blue : float; alpha : float }.

(** A list of stops [l1, out1, l2, out2, ...] with colour-string outputs. *)
Definition stops := list (float * string).

Inductive expr :=
| ENum (x : float)                                  (* a number literal    *)
| EGet (key : string)                               (* ['get', key]        *)
| ECoalesce (a b : expr)                            (* ['coalesce', a, b]  *)
| EToNumber (e : expr)                              (* ['to-number', e]    *)
| EInterpolateLinear (input : expr) (st : stops)    (* ['interpolate', ['linear'], input, ...] *)
| EStep (input : expr) (base : string) (st : stops) (* ['step', input, base, ...]  *)
| EGe (a b : expr).                                 (* ['>=', a, b]        *)

Inductive result := RVal (v : value) | RColor (c : color).

Definition channel (hi lo : Ascii.ascii) : option float :=
  h ← JS.hex_digit hi; l ← JS.hex_digit lo;
  Some (JS.of_Z (Z.of_N (16 * h + l)) / 255).

(** Colour strings of the form [#RRGGBB], the only form in the tables. *)
Definition parse_color (s : string) : option color :=
  match s with
  | String (Ascii.Ascii true true false false false true false false) (String r1 (String r0 (String g1 (String g0
      (String b1 (String b0 EmptyString)))))) =>
      r ← channel r1 r0; g ← channel g1 g0; b ← channel b1 b0;
      Some (RGBA r g b 1)
  | _ => None
  end.

Definition lerp (a b t : float) : float := a * (1 - t) + b * t.

Definition interpolate_color (c1 c2 : color) (t : float) : color :=
  RGBA (lerp (red c1) (red c2) t) (lerp (green c1) (green c2) t)
       (lerp (blue c1) (blue c2) t) (lerp (alpha c1) (alpha c2) t).

(** Between two stops the colour is interpolated linearly; at and
    beyond the last stop it is the last output. *)
Fixpoint interpolate_from (v l0 : float) (c0 : string) (rest : stops)
  : option color :=
  match rest with
  | [] => parse_color c0
  | (l1, c1) :: rest' =>
      if v <? l1 then
        k0 ← parse_color c0; k1 ← parse_color c1;
        Some (interpolate_color k0 k1 ((v - l0) / (l1 - l0)))
      else interpolate_from v l1 c1 rest'
  end.

(** [interpolate]: at or below the first stop the first output. *)
Definition interpolate_linear (v : float) (st : stops) : option color :=
  match st with
  | [] => None
  | (l0, c0) :: rest =>
      if v <=? l0 then parse_color c0 else interpolate_from v l0 c0 rest
  end.

(** [step]: the output of the last stop that is [<=] the input, the
    base output when the input is below the first stop. *)
Fixpoint step_from (v : float) (cur : string) (st : stops) : string :=
  match st with
  | [] => cur
  | (l, out) :: rest => if l <=? v then step_from v out rest else cur
  end.

Definition to_number (v : value) : float :=
  match v with
  | VNull => 0
  | VBool b => if b then 1 else 0
  | VNum x => x
  end.

(** Evaluation on one feature; [None] is an evaluation error. *)
Fixpoint evaluate (props : properties) (e : expr) : option result :=
  match e with
  | ENum x => Some (RVal (VNum x))
  | EGet key => Some (RVal (default VNull (props !! key)))
  | ECoalesce a b =>
      match evaluate props a with
      | Some (RVal VNull) => evaluate props b
      | r => r
      end
  | EToNumber e' =>
      match evaluate props e' with
      | Some (RVal v) => Some (RVal (VNum (to_number v)))
      | _ => None
      end
  | EInterpolateLinear input st =>
      match evaluate props input with
      | Some (RVal (VNum v)) => RColor <$> interpolate_linear v st
      | _ => None
      end
  | EStep input base st =>
      match evaluate props input with
      | Some (RVal (VNum v)) => RColor <$> parse_color (step_from v base st)
      | _ => None
      end
  | EGe a b =>
      match evaluate props a, evaluate props b with
      | Some (RVal (VNum x)), Some (RVal (VNum y)) => Some (RVal (VBool (y <=? x)))
      | _, _ => None
      end
  end.

(** A layer filter admits a feature when it evaluates to [true]; an
    evaluation error filters the feature out. *)
Definition admits (filter : expr) (props : properties) : bool :=
  match evaluate props filter with
  | Some (RVal (VBool true)) => true
  | _ => false
  end.

(** ** The style: sources and layers *)

Inductive paint_value :=
| PNum (x : float)
| PStr (s : string)
| PExpr (e : expr).

Inductive source :=
| VectorSource (url : string)
| GeoJSONSource (data : list properties).

Record layer := Layer {
  layer_type : string;
  layer_source : string;
  source_layer : option string;
  paint : gmap string paint_value;
  layout : gmap string string;
  filter : option expr
}.

Definition set_paint (k : string) (v : paint_value) (l : layer) : layer :=
  Layer (layer_type l) (layer_source l) (source_layer l)
        (<[k := v]> (paint l)) (layout l) (filter l).

Definition set_layout (k v : string) (l : layer) : layer :=
  Layer (layer_type l) (layer_source l) (source_layer l)
        (paint l) (<[k := v]> (layout l)) (filter l).

Definition set_filter (f : expr) (l : layer) : layer :=
  Layer (layer_type l) (layer_source l) (source_layer l)
        (paint l) (layout l) (Some f).

End Mapbox.
Import Mapbox.


(* ===================================================================== *)
(** * The browser and the map as a state, and the handlers' monad        *)
(* ===================================================================== *)

Module Runtime.

Inductive exn :=
| TypeError (msg : string)      (* property access on null/undefined *)
| NetworkError (msg : string)   (* a rejected fetch or JSON parse    *)
| Error (msg : string).

Inductive log_entry :=
| ConsoleLog (msg : string)
| ConsoleError (msg : string).

(** The calls on the map that change the style or the camera. *)
Inductive map_call :=
| CallSetAccessToken (token : option string)
| CallNewMap (style : string) (center : float * float) (zoom : float)
| CallAddSource (id : string)
| CallAddLayer (id : string)
| CallSetPaintProperty (id prop : string) (v : paint_value)
| CallSetLayoutProperty (id prop v : string)
| CallSetFilter (id : string) (f : expr)
| CallJumpTo (center : float * float) (zoom : float)
| CallSetCenter (center : float * float)
| CallSetZoom (zoom : float).

Record popup := Popup { lngLat : float * float; html : list JS.text }.

(** What a handler is attached to. *)
Inductive listener :=
| OnChange (element : string)
| OnInput (element : string)
| OnRadioChange (group : string)
| OnLayerClick (layerId : string)
| OnLayerMouseEnter (layerId : string)
| OnLayerMouseLeave (layerId : string)
| OnMapClick
| OnMapError
| OnMapLoad (n : nat)                  (* the n-th 'load' listener *)
| OnTimeout (center : float * float) (zoom : float).

#[projections(primitive)]
Record MapState := mkMap {
  layers : gmap string layer;
  sources : gmap string source;
  popups : list popup;
  cursor : string;
  center : float * float;
  zoom : float;
  calls : list map_call
}.

#[projections(primitive)]
Record Dom := mkDom {
  elements : gset string;                (* ids present in the page      *)
  checked : gmap string bool;            (* checkbox id -> checked       *)
  values : gmap string string;           (* select / slider id -> value  *)
  textContent : gmap string JS.text;
  display : gmap string string;          (* style.display                *)
  options : list (string * string);      (* options appended to tripFilter *)
  radio : gmap string string             (* group -> value of the checked input *)
}.

#[projections(primitive)]
Record Globals := mkGlobals {
  tripLayers : list string;
  speedMode : string;
  showSpeedColors : bool;
  selectedTrip : option string;
  tripStatsCalculated : bool;
  allTripData : gmap string (float * float)   (* distance, time *)
}.

#[projections(primitive)]
Record World := mkWorld {
  map : MapState;
  document : Dom;
  globals : Globals;
  console : list log_entry;
  alerts : list string;
  listeners : list listener;
  defaultPrevented : bool      (* of the map event being dispatched *)
}.

Definition with_map (f : MapState -> MapState) (w : World) : World :=
  mkWorld (f (map w)) (document w) (globals w) (console w) (alerts w) (listeners w)
          (defaultPrevented w).
Definition with_dom (f : Dom -> Dom) (w : World) : World :=
  mkWorld (map w) (f (document w)) (globals w) (console w) (alerts w) (listeners w)
          (defaultPrevented w).
Definition with_globals (f : Globals -> Globals) (w : World) : World :=
  mkWorld (map w) (document w) (f (globals w)) (console w) (alerts w) (listeners w)
          (defaultPrevented w).
Definition with_console (f : list log_entry -> list log_entry) (w : World) : World :=
  mkWorld (map w) (document w) (globals w) (f (console w)) (alerts w) (listeners w)
          (defaultPrevented w).
Definition with_alerts (f : list string -> list string) (w : World) : World :=
  mkWorld (map w) (document w) (globals w) (console w) (f (alerts w)) (listeners w)
          (defaultPrevented w).
Definition with_listeners (f : list listener -> list listener) (w : World) : World :=
  mkWorld (map w) (document w) (globals w) (console w) (alerts w) (f (listeners w))
          (defaultPrevented w).

Definition set_defaultPrevented (b : bool) (w : World) : World :=
  mkWorld (map w) (document w) (globals w) (console w) (alerts w) (listeners w) b.

Definition map_layers (f : gmap string layer -> gmap string layer) (m : MapState) :=
  mkMap (f (layers m)) (sources m) (popups m) (cursor m) (center m) (zoom m) (calls m).
Definition map_sources (f : gmap string source -> gmap string source) (m : MapState) :=
  mkMap (layers m) (f (sources m)) (popups m) (cursor m) (center m) (zoom m) (calls m).
Definition map_popups (f : list popup -> list popup) (m : MapState) :=
  mkMap (layers m) (sources m) (f (popups m)) (cursor m) (center m) (zoom m) (calls m).
Definition map_cursor (c : string) (m : MapState) :=
  mkMap (layers m) (sources m) (popups m) c (center m) (zoom m) (calls m).
Definition map_center (c : float * float) (m : MapState) :=
  mkMap (layers m) (sources m) (popups m) (cursor m) c (zoom m) (calls m).
Definition map_zoom (z : float) (m : MapState) :=
  mkMap (layers m) (sources m) (popups m) (cursor m) (center m) z (calls m).
Definition map_called (c : map_call) (m : MapState) :=
  mkMap (layers m) (sources m) (popups m) (cursor m) (center m) (zoom m) (calls m ++ [c]).

Definition dom_checked (f : gmap string bool -> gmap string bool) (d : Dom) :=
  mkDom (elements d) (f (checked d)) (values d) (textContent d) (display d) (options d) (radio d).
Definition dom_value (f : gmap string string -> gmap string string) (d : Dom) :=
  mkDom (elements d) (checked d) (f (values d)) (textContent d) (display d) (options d) (radio d).
Definition dom_textContent (f : gmap string JS.text -> gmap string JS.text) (d : Dom) :=
  mkDom (elements d) (checked d) (values d) (f (textContent d)) (display d) (options d) (radio d).
Definition dom_display (f : gmap string string -> gmap string string) (d : Dom) :=
  mkDom (elements d) (checked d) (values d) (textContent d) (f (display d)) (options d) (radio d).
Definition dom_options (f : list (string * string) -> list (string * string)) (d : Dom) :=
  mkDom (elements d) (checked d) (values d) (textContent d) (display d) (f (options d)) (radio d).
Definition dom_radio (f : gmap string string -> gmap string string) (d : Dom) :=
  mkDom (elements d) (checked d) (values d) (textContent d) (display d) (options d) (f (radio d)).

Definition set_tripLayers (l : list string) (g : Globals) :=
  mkGlobals l (speedMode g) (showSpeedColors g) (selectedTrip g)
            (tripStatsCalculated g) (allTripData g).
Definition set_speedMode (m : string) (g : Globals) :=
  mkGlobals (tripLayers g) m (showSpeedColors g) (selectedTrip g)
            (tripStatsCalculated g) (allTripData g).
Definition set_showSpeedColors (b : bool) (g : Globals) :=
  mkGlobals (tripLayers g) (speedMode g) b (selectedTrip g)
            (tripStatsCalculated g) (allTripData g).
Definition set_selectedTrip (t : option string) (g : Globals) :=
  mkGlobals (tripLayers g) (speedMode g) (showSpeedColors g) t
            (tripStatsCalculated g) (allTripData g).
Definition set_tripStatsCalculated (b : bool) (g : Globals) :=
  mkGlobals (tripLayers g) (speedMode g) (showSpeedColors g) (selectedTrip g)
            b (allTripData g).
Definition set_allTripData (k : string) (v : float * float) (g : Globals) :=
  mkGlobals (tripLayers g) (speedMode g) (showSpeedColors g) (selectedTrip g)
            (tripStatsCalculated g) (<[k := v]> (allTripData g)).

(** ** The monad: state, and exceptions that [try]/[catch] can handle *)

Inductive outcome (A : Type) :=
| Ok (a : A)
| Thrown (e : exn).
Arguments Ok {A} a.
Arguments Thrown {A} e.

Definition M (A : Type) : Type := World -> outcome A * World.

Definition ret {A} (a : A) : M A := fun w => (Ok a, w).

Definition bind {A B} (m : M A) (k : A -> M B) : M B :=
  fun w =>
    match m w with
    | (Ok a, w') => k a w'
    | (Thrown e, w') => (Thrown e, w')
    end.

Definition throw {A} (e : exn) : M A := fun w => (Thrown e, w).

Definition try_catch {A} (body : M A) (handler : exn -> M A) : M A :=
  fun w =>
    match body w with
    | (Ok a, w') => (Ok a, w')
    | (Thrown e, w') => handler e w'
    end.

Definition gets {A} (f : World -> A) : M A := fun w => (Ok (f w), w).

Definition modify (f : World -> World) : M unit := fun w => (Ok tt, f w).

Definition run {A} (m : M A) (w : World) : World := snd (m w).

(** ** What the outside world delivers *)

(** The tile source's metadata (a TileJSON document or the metadata of
    a PMTiles archive); [vector_layers] may be missing. *)
Record VectorLayer := { vl_id : string }.
Record Metadata := { vector_layers : option (list VectorLayer) }.
Record Header := { minLon : float; maxLon : float; minLat : float; maxLat : float }.
Record FeatureCollection := { features : option (list properties) }.

(** How the requests made by the load handler settle. *)
Record Network := {
  trips_metadata : outcome Metadata;
  trips_header : outcome Header;
  aggregated_routes : outcome FeatureCollection
}.

Inductive event :=
| MapLoaded (net : Network)
| CheckboxChange (id : string) (now_checked : bool)
| SelectChange (id : string) (new_value : string)
| RadioChange (group : string) (new_value : string)
| SliderInput (id : string) (new_value : string)
  (* a click at a point: [hit] gives, for every layer that has a
     rendered feature at the point, the properties of its topmost
     feature there (an empty [hit] is a click on the background);
     [rendered] is what [queryRenderedFeatures] returns for a layer at
     that moment *)
| MapClick (point : float * float) (hit : gmap string properties)
           (rendered : string -> list properties)
| MouseEnter (layerId : string)
| MouseLeave (layerId : string)
  (* a pending [setTimeout] callback runs; [rendered] as above *)
| TimerFired (rendered : string -> list properties).

End Runtime.
Import Runtime.

#[global] Instance M_ret : MRet M := @ret.
#[global] Instance M_bind : MBind M := fun A B k m => bind m k.

(** [list.forEach(f)]: an exception thrown by [f] ends the iteration. *)
Fixpoint forEach {A} (l : list A) (f : A -> M unit) : M unit :=
  match l with
  | [] => ret tt
  | x :: l' => f x;; forEach l' f
  end.

(** [await] on a promise whose settlement is given. *)
Definition await {A} (r : outcome A) : M A :=
  match r with
  | Ok a => ret a
  | Thrown e => throw e
  end.

Definition when (b : bool) (m : M unit) : M unit := if b then m else ret tt.

(** ** Console, alert and the DOM *)

Module Browser.

Definition console_log (msg : string) : M unit :=
  modify (with_console (fun c => c ++ [ConsoleLog msg])).

Definition console_error (msg : string) : M unit :=
  modify (with_console (fun c => c ++ [ConsoleError msg])).

Definition alert (msg : string) : M unit :=
  modify (with_alerts (fun a => a ++ [msg])).

(** [document.getElementById(id)] followed by a property access: a
    [TypeError] when the page has no such element. *)
Definition element (id : string) : M unit :=
  fun w =>
    if decide (id ∈ elements (document w)) then (Ok tt, w)
    else (Thrown (TypeError ("Cannot read properties of null: " +:+ id)), w).

Definition get_checked (id : string) : M bool :=
  element id;; gets (fun w => default false (checked (document w) !! id)).

Definition get_value (id : string) : M string :=
  element id;; gets (fun w => default "" (values (document w) !! id)).

Definition set_display (id v : string) : M unit :=
  element id;; modify (with_dom (dom_display <[id := v]>)).

Definition set_textContent (id : string) (t : JS.text) : M unit :=
  element id;; modify (with_dom (dom_textContent <[id := t]>)).

(** [document.querySelector('input[name=group]:checked').value]. *)
Definition checked_radio_value (group : string) : M string :=
  fun w =>
    match radio (document w) !! group with
    | Some v => (Ok v, w)
    | None => (Thrown (TypeError "Cannot read properties of null (reading 'value')"), w)
    end.

Definition addEventListener (id : string) (l : listener) : M unit :=
  element id;; modify (with_listeners (fun ls => ls ++ [l])).

End Browser.
Import Browser.

(** ** The map object *)

Module MapAPI.

Definition called (c : map_call) : M unit := modify (with_map (map_called c)).

(** [map.on(type, ...)]. *)
Definition on (l : listener) : M unit :=
  modify (with_listeners (fun ls => ls ++ [l])).

Definition is_error_listener (l : listener) : bool :=
  match l with OnMapError => true | _ => false end.

(** Both revisions register
    [map.on('error', e => console.error('Map error:', e))]; the map
    reports a bad style call by firing that event, not by throwing. *)
Definition fire_error (msg : string) : M unit :=
  ls ← gets listeners;
  when (existsb is_error_listener ls) (console_error ("Map error: " +:+ msg)).

(** [map.addSource]: throws when the id is taken. *)
Definition addSource (id : string) (src : source) : M unit :=
  called (CallAddSource id);;
  ss ← gets (fun w => sources (map w));
  match ss !! id with
  | Some _ => throw (Error "There is already a source with this ID")
  | None => modify (with_map (map_sources <[id := src]>))
  end.

(** [map.addLayer]: an error event when the id is taken or the source
    is unknown. *)
Definition addLayer (id : string) (l : layer) : M unit :=
  called (CallAddLayer id);;
  m ← gets map;
  match layers m !! id, sources m !! layer_source l with
  | None, Some _ => modify (with_map (map_layers <[id := l]>))
  | Some _, _ => fire_error ("Layer already exists: " +:+ id)
  | None, None => fire_error ("Source not found: " +:+ layer_source l)
  end.

Definition update_layer (id : string) (f : layer -> layer) : M unit :=
  ls ← gets (fun w => layers (map w));
  match ls !! id with
  | Some l => modify (with_map (map_layers <[id := f l]>))
  | None => fire_error ("The layer does not exist in the map's style: " +:+ id)
  end.

Definition setPaintProperty (id prop : string) (v : paint_value) : M unit :=
  called (CallSetPaintProperty id prop v);; update_layer id (set_paint prop v).

Definition setLayoutProperty (id prop v : string) : M unit :=
  called (CallSetLayoutProperty id prop v);; update_layer id (set_layout prop v).

Definition setFilter (id : string) (f : expr) : M unit :=
  called (CallSetFilter id f);; update_layer id (set_filter f).

Definition addPopup (p : popup) : M unit :=
  modify (with_map (map_popups (fun ps => ps ++ [p]))).

(** [map.getCanvas().style.cursor = c]. *)
Definition setCursor (c : string) : M unit := modify (with_map (map_cursor c)).

Definition jumpTo (c : float * float) (z : float) : M unit :=
  called (CallJumpTo c z);; modify (with_map (fun m => map_zoom z (map_center c m))).

Definition setCenter (c : float * float) : M unit :=
  called (CallSetCenter c);; modify (with_map (map_center c)).

Definition setZoom (z : float) : M unit :=
  called (CallSetZoom z);; modify (with_map (map_zoom z)).

End MapAPI.
Import MapAPI.

(** Reading the style back. *)
Definition paint_of (w : World) (id prop : string) : option paint_value :=
  l ← layers (map w) !! id; paint l !! prop.

Definition layout_of (w : World) (id prop : string) : option string :=
  l ← layers (map w) !! id; layout l !! prop.

Definition filter_of (w : World) (id : string) : option expr :=
  l ← layers (map w) !! id; filter l.

(** ** Feature properties in template strings *)

Definition prop (props : properties) (key : string) : value :=
  default VNull (props !! key).

Definition truthy_value (v : value) : bool :=
  match v with
  | VNull => false
  | VBool b => b
  | VNum x => JS.truthy x
  end.

(** [`${v}`]; an absent property prints as [undefined]. *)
Definition value_text (v : value) : JS.text :=
  match v with
  | VNull => JS.Str "undefined"
  | VBool b => JS.Str (if b then "true" else "false")
  | VNum x => JS.OfNumber x
  end.

(** [`${v || alt}`]. *)
Definition or_text (v : value) (alt : JS.text) : JS.text :=
  if truthy_value v then value_text v else alt.

(** [total += v || 0] on a number accumulator. *)
Definition or_zero (v : value) : float :=
  match v with
  | VNull => 0
  | VBool b => if b then 1 else 0
  | VNum x => if JS.truthy x then x else 0
  end.

Definition line (label : string) (t : JS.text) (unit_ : string) : JS.text :=
  JS.Cat (JS.Str label) (JS.Cat t (JS.Str unit_)).

(** ** Delivering an event to the registered listeners *)

(** A click reaches the delegated click listener of every layer that
    has a feature at the point, and every listener registered for the
    map as a whole; the listeners run in the order of registration. *)
Definition matches (ev : event) (l : listener) : bool :=
  match ev, l with
  | MapLoaded _, OnMapLoad _ => true
  | CheckboxChange id _, OnChange id' => String.eqb id id'
  | SelectChange id _, OnChange id' => String.eqb id id'
  | RadioChange g _, OnRadioChange g' => String.eqb g g'
  | SliderInput id _, OnInput id' => String.eqb id id'
  | MapClick _ hit _, OnLayerClick id => bool_decide (is_Some (hit !! id))
  | MapClick _ _ _, OnMapClick => true
  | MouseEnter id, OnLayerMouseEnter id' => String.eqb id id'
  | MouseLeave id, OnLayerMouseLeave id' => String.eqb id id'
  | TimerFired _, OnTimeout _ _ => true
  | _, _ => false
  end.

(** What the browser does itself before the listeners run: the control
    takes its new state, a fresh event object is not yet prevented. *)
Definition browser_default (ev : event) : M unit :=
  modify (set_defaultPrevented false);;
  match ev with
  | CheckboxChange id b => modify (with_dom (dom_checked <[id := b]>))
  | SelectChange id v => modify (with_dom (dom_value <[id := v]>))
  | SliderInput id v => modify (with_dom (dom_value <[id := v]>))
  | RadioChange g v => modify (with_dom (dom_radio <[g := v]>))
  | _ => ret tt
  end.

Definition is_timeout (l : listener) : bool :=
  match l with OnTimeout _ _ => true | _ => false end.

(** A timer fires once. *)
Definition browser_after (ev : event) : M unit :=
  match ev with
  | TimerFired _ =>
      modify (with_listeners (List.filter (fun l => negb (is_timeout l))))
  | _ => ret tt
  end.

(** An exception that leaves a listener is reported on the console and
    the remaining listeners still run. *)
Definition uncaught (m : M unit) : M unit :=
  try_catch m (fun _ => console_error "Uncaught exception in event listener").

Definition dispatch (handler : listener -> event -> M unit) (ev : event) : M unit :=
  browser_default ev;;
  ls ← gets listeners;
  forEach (List.filter (matches ev) ls) (fun l => uncaught (handler l ev));;
  browser_after ev.

(** The world after an event, and after a sequence of events. *)
Definition step (handler : listener -> event -> M unit) (w : World) (ev : event) : World :=
  run (dispatch handler ev) w.

Definition steps (handler : listener -> event -> M unit) (w : World) (evs : list event) : World :=
  fold_left (step handler) evs w.

(** The configuration object of [config.js]; the token comes from the
    environment and may be undefined. *)
Record Config := {
  MAPBOX_TOKEN : option string;
  PMTILES_URL : string;
  AGGREGATED_ROUTES_URL : string;
  MAP_CENTER : float * float;
  MAP_ZOOM : float;
  MAP_STYLE : string
}.

(** The page before any script has run: the given elements and control
    states, a map that is not yet constructed. *)
Definition page (d : Dom) : World :=
  mkWorld (mkMap ∅ ∅ [] "" (0, 0) 0 []) d
          (mkGlobals [] "gradient" false None false ∅) [] [] [] false.

Definition line_layer (source_ : string) (source_layer_ : option string)
    (color_ : paint_value) (width_ opacity_ : float) (visibility : option string) : layer :=
  Layer "line" source_ source_layer_
        (<["line-color" := color_]> (<["line-width" := PNum width_]>
           (<["line-opacity" := PNum opacity_]> ∅)))
        (match visibility with Some v => <["visibility" := v]> ∅ | None => ∅ end)
        None.

(* ===================================================================== *)
(** * [src/app.js]                                                       *)
(* ===================================================================== *)

Module AppJs.

(** ** Speed color functions *)

Definition getSpeedColorExpression (mode : string) : expr :=
  if String.eqb mode "gradient" then
    EInterpolateLinear (EToNumber (ECoalesce (EGet "Speed") (ENum 0)))
      [(0, "#DC2626"); (5, "#F97316"); (8, "#FB923C"); (12, "#FACC15");
       (16, "#BEF264"); (20, "#4ADE80"); (25, "#22C55E"); (30, "#059669")]
  else
    EStep (EToNumber (ECoalesce (EGet "Speed") (ENum 0))) "#DC2626"
      [(5, "#F97316"); (10, "#FACC15"); (15, "#BEF264"); (20, "#4ADE80");
       (25, "#22C55E"); (30, "#059669")].

Definition getAggregatedSpeedColorExpression (mode : string) : expr :=
  if String.eqb mode "gradient" then
    EInterpolateLinear (EToNumber (ECoalesce (EGet "avg_speed") (ENum 0)))
      [(0, "#DC2626"); (5, "#F97316"); (8, "#FB923C"); (12, "#FACC15");
       (16, "#BEF264"); (20, "#4ADE80"); (25, "#22C55E"); (30, "#059669")]
  else
    EStep (EToNumber (ECoalesce (EGet "avg_speed") (ENum 0))) "#DC2626"
      [(5, "#F97316"); (10, "#FACC15"); (15, "#BEF264"); (20, "#4ADE80");
       (25, "#22C55E"); (30, "#059669")].

(** ** The script's top level (lines 1-31) *)

(** [!CONFIG.MAPBOX_TOKEN || CONFIG.MAPBOX_TOKEN === 'YOUR_MAPBOX_TOKEN_HERE']. *)
Definition token_not_configured (token : option string) : bool :=
  match token with
  | None => true
  | Some t => String.eqb t "" || String.eqb t "YOUR_MAPBOX_TOKEN_HERE"
  end.

(** [new mapboxgl.Map({container: 'map', style, center, zoom})] as the
    script sees it: the call is made and the map has the configured
    centre and zoom.  What the library does with the container and with
    the token is not in [src]; the constructor is taken on a page and
    with a token on which it returns. *)
Definition newMap (CONFIG : Config) : M unit :=
  called (CallNewMap (MAP_STYLE CONFIG) (MAP_CENTER CONFIG) (MAP_ZOOM CONFIG));;
  modify (with_map (fun m => map_zoom (MAP_ZOOM CONFIG) (map_center (MAP_CENTER CONFIG) m))).

Definition startup (CONFIG : Config) : M unit :=
  console_log "Starting bike sensor visualization...";;
  console_log "Config:";;
  when (token_not_configured (MAPBOX_TOKEN CONFIG))
    (alert "Please set your Mapbox token in config.js!";;
     console_error "Mapbox token not configured");;
  called (CallSetAccessToken (MAPBOX_TOKEN CONFIG));;
  newMap CONFIG;;
  on OnMapError;;
  on (OnMapLoad 0);;
  on (OnMapLoad 1).

(** ** [updateStats] *)

Definition updateStats : M unit :=
  selectedTrip ← get_value "tripFilter";
  n ← gets (fun w => length (tripLayers (globals w)));
  let activeTrips := if String.eqb selectedTrip "all" then Z.of_nat n else 1%Z in
  set_textContent "statTrips" (JS.OfNumber (JS.of_Z activeTrips));;
  set_textContent "statAvgSpeed" (JS.Str "—").

(** ** The listeners of [setupTripControls] *)

Definition onTripFilterChange (selectedTrip : string) : M unit :=
  tl ← gets (fun w => tripLayers (globals w));
  forEach tl (fun layerId =>
    if String.eqb selectedTrip "all" then
      setLayoutProperty layerId "visibility" "visible";;
      setPaintProperty layerId "line-opacity" (PNum 0.4)
    else if String.eqb layerId selectedTrip then
      setLayoutProperty layerId "visibility" "visible";;
      setPaintProperty layerId "line-opacity" (PNum 0.9)
    else
      setLayoutProperty layerId "visibility" "none");;
  updateStats.

Definition onTripsCheckboxChange (checked_ : bool) : M unit :=
  let visibility := if checked_ then "visible" else "none" in
  selectedTrip ← get_value "tripFilter";
  tl ← gets (fun w => tripLayers (globals w));
  forEach tl (fun layerId =>
    when (String.eqb selectedTrip "all" || String.eqb layerId selectedTrip)
      (setLayoutProperty layerId "visibility" visibility)).

Definition onSpeedSegmentsChange (checked_ : bool) : M unit :=
  tl ← gets (fun w => tripLayers (globals w));
  if checked_ then
    mode ← gets (fun w => speedMode (globals w));
    forEach tl (fun layerId =>
      setPaintProperty layerId "line-color" (PExpr (getSpeedColorExpression mode));;
      setPaintProperty layerId "line-width" (PNum 3));;
    set_display "speedLegend" "block"
  else
    forEach tl (fun layerId =>
      setPaintProperty layerId "line-color" (PStr "#FF6600");;
      setPaintProperty layerId "line-width" (PNum 2));;
    set_display "speedLegend" "none".

Definition onSpeedModeChange (value_ : string) : M unit :=
  modify (with_globals (set_speedMode value_));;
  segments ← get_checked "speedSegmentsCheckbox";
  when segments
    (tl ← gets (fun w => tripLayers (globals w));
     forEach tl (fun layerId =>
       setPaintProperty layerId "line-color" (PExpr (getSpeedColorExpression value_))));;
  aggregated ← get_checked "aggregatedCheckbox";
  when aggregated
    (setPaintProperty "aggregated-routes-layer" "line-color"
       (PExpr (getAggregatedSpeedColorExpression value_))).

Definition onTripClick (point : float * float) (props : properties) : M unit :=
  let speed := or_text (prop props "Speed") (JS.OfNumber 0) in
  addPopup (Popup point
    [ JS.Str "Trip Segment";
      line "Speed: " speed " km/h";
      line "Distance: "
           (or_text (prop props "distance_m")
              (or_text (prop props "gps_distance_m") (JS.Str "N/A"))) " m";
      line "Time diff: " (or_text (prop props "time_diff_s") (JS.Str "N/A")) " s";
      line "HRot diff: " (or_text (prop props "hrot_diff") (JS.Str "N/A")) "";
      line "Sample diff: " (or_text (prop props "sample_diff") (JS.Str "N/A")) "" ]).

Definition setupTripControls : M unit :=
  addEventListener "tripFilter" (OnChange "tripFilter");;
  addEventListener "tripsCheckbox" (OnChange "tripsCheckbox");;
  addEventListener "speedSegmentsCheckbox" (OnChange "speedSegmentsCheckbox");;
  on (OnRadioChange "speedMode");;
  tl ← gets (fun w => tripLayers (globals w));
  forEach tl (fun layerId =>
    on (OnLayerClick layerId);;
    on (OnLayerMouseEnter layerId);;
    on (OnLayerMouseLeave layerId)).

(** ** The listeners of [setupAggregatedControls] *)

Definition onAggregatedCheckboxChange (checked_ : bool) : M unit :=
  let visibility := if checked_ then "visible" else "none" in
  setLayoutProperty "aggregated-routes-layer" "visibility" visibility;;
  when checked_
    (currentMode ← checked_radio_value "speedMode";
     setPaintProperty "aggregated-routes-layer" "line-color"
       (PExpr (getAggregatedSpeedColorExpression currentMode));;
     set_display "speedLegend" "block").

Definition onMinSamplesInput (value_ : string) : M unit :=
  let minSamples := JS.parseInt value_ in
  set_textContent "minSamplesValue" (JS.OfNumber minSamples);;
  let filter_ := EGe (EGet "sample_count") (ENum minSamples) in
  setFilter "aggregated-routes-layer" filter_.

Definition onAggregatedClick (point : float * float) (props : properties) : M unit :=
  addPopup (Popup point
    [ JS.Str "Aggregated Route Segment";
      line "Avg Speed: " (value_text (prop props "avg_speed")) " km/h";
      line "Samples: " (value_text (prop props "sample_count")) " trips";
      JS.Cat (line "Range: " (value_text (prop props "min_speed")) " - ")
             (JS.Cat (value_text (prop props "max_speed")) (JS.Str " km/h"));
      line "Median: " (value_text (prop props "median_speed")) " km/h";
      line "Variance: " (value_text (prop props "speed_variance")) " km/h" ]).

Definition setupAggregatedControls : M unit :=
  addEventListener "aggregatedCheckbox" (OnChange "aggregatedCheckbox");;
  addEventListener "minSamplesSlider" (OnInput "minSamplesSlider");;
  on (OnLayerClick "aggregated-routes-layer");;
  on (OnLayerMouseEnter "aggregated-routes-layer");;
  on (OnLayerMouseLeave "aggregated-routes-layer").

(** ** The 'load' listener (lines 94-181): two independent try blocks *)

Definition loadTrips (CONFIG : Config) (net : Network) : M unit :=
  try_catch
    (console_log ("Fetching PMTiles from: " +:+ PMTILES_URL CONFIG);;
     addSource "trips" (VectorSource (PMTILES_URL CONFIG));;
     tileJSON ← await (trips_metadata net);
     console_log "TileJSON response:";;
     declared ← match vector_layers tileJSON with
                 | Some ls => ret ls
                 | None => throw (TypeError "Cannot read properties of undefined (reading 'map')")
                 end;
     modify (with_globals (set_tripLayers (List.map vl_id declared)));;
     console_log "Found trip layers:";;
     tl ← gets (fun w => tripLayers (globals w));
     forEach tl (fun layerId =>
       addLayer layerId
         (line_layer "trips" (Some layerId) (PStr "#FF6600") 2 0.4 None));;
     console_log "Loaded trip layers";;
     forEach tl (fun layerId =>
       element "tripFilter";;
       modify (with_dom (dom_options (fun os =>
         os ++ [(layerId,
                 JS.underscores_to_spaces (JS.replace_first "_clean" "" layerId))]))));;
     setupTripControls;;
     updateStats)
    (fun _ => console_error "Error loading trips:").

Definition loadAggregated (CONFIG : Config) (net : Network) : M unit :=
  try_catch
    (console_log ("Fetching aggregated routes from: " +:+ AGGREGATED_ROUTES_URL CONFIG);;
     aggregatedData ← await (aggregated_routes net);
     fs ← match features aggregatedData with
           | Some fs => ret fs
           | None => throw (TypeError "Cannot read properties of undefined (reading 'length')")
           end;
     console_log "Aggregated data loaded:";;
     addSource "aggregated-routes" (GeoJSONSource fs);;
     addLayer "aggregated-routes-layer"
       (line_layer "aggregated-routes" None
          (PExpr (getAggregatedSpeedColorExpression "gradient")) 4 0.8 (Some "none"));;
     console_log "Aggregated routes layer added";;
     setupAggregatedControls)
    (fun _ => console_error "Error loading aggregated routes:").

Definition onLoad (CONFIG : Config) (net : Network) : M unit :=
  console_log "Base map loaded, now loading data...";;
  loadTrips CONFIG net;;
  loadAggregated CONFIG net.

(** ** Which code a registered listener runs *)

Definition handler (CONFIG : Config) (l : listener) (ev : event) : M unit :=
  match l, ev with
  | OnMapLoad 0, MapLoaded _ => console_log "Base map loaded successfully"
  | OnMapLoad 1, MapLoaded net => onLoad CONFIG net
  | OnChange id, SelectChange _ v =>
      when (String.eqb id "tripFilter") (onTripFilterChange v)
  | OnChange id, CheckboxChange _ b =>
      if String.eqb id "tripsCheckbox" then onTripsCheckboxChange b
      else if String.eqb id "speedSegmentsCheckbox" then onSpeedSegmentsChange b
      else if String.eqb id "aggregatedCheckbox" then onAggregatedCheckboxChange b
      else ret tt
  | OnRadioChange _, RadioChange _ v => onSpeedModeChange v
  | OnInput _, SliderInput _ v => onMinSamplesInput v
  | OnLayerClick id, MapClick point hit _ =>
      match hit !! id with
      | Some props =>
          if String.eqb id "aggregated-routes-layer" then onAggregatedClick point props
          else onTripClick point props
      | None => ret tt
      end
  | OnLayerMouseEnter _, MouseEnter _ => setCursor "pointer"
  | OnLayerMouseLeave _, MouseLeave _ => setCursor ""
  | _, _ => ret tt
  end.

End AppJs.

(* ===================================================================== *)
(** * The PMTiles revision of [app.js]: its colour tables                *)
(* ===================================================================== *)

(** This revision differs from [src/app.js] in how the trip source is
    opened and in the trip-level colour tables; its aggregated table and
    its listeners are those of [AppJs]. *)

Module PmtilesApp.

Definition getSpeedColorExpression (mode : string) : expr :=
  if String.eqb mode "gradient" then
    EInterpolateLinear (EToNumber (ECoalesce (EGet "Speed") (ENum 0)))
      [(0, "#808080"); (2, "#DC2626"); (5, "#F97316"); (8, "#FACC15");
       (12, "#BEF264"); (16, "#4ADE80"); (20, "#22C55E"); (25, "#059669")]
  else
    EStep (EToNumber (ECoalesce (EGet "Speed") (ENum 0))) "#808080"
      [(2, "#DC2626"); (5, "#F97316"); (10, "#FACC15"); (15, "#BEF264");
       (20, "#4ADE80"); (25, "#22C55E"); (30, "#059669")].

Definition getAggregatedSpeedColorExpression : string -> expr :=
  AppJs.getAggregatedSpeedColorExpression.

End PmtilesApp.

(* ===================================================================== *)
(** * The revision with highlighting and statistics                      *)
(* ===================================================================== *)

(** The copy of [app.js] that follows the generator in
    [src/generate-config.js]. *)

(** Arithmetic of the statistics blocks, with every division recorded
    as (dividend, divisor). *)
Definition traced (A : Type) : Type := A * list (float * float).

#[global] Instance traced_ret : MRet traced := fun A a => (a, []).
#[global] Instance traced_bind : MBind traced :=
  fun A B k m => let '(b, ds) := k (fst m) in (b, snd m ++ ds).

Definition divide (x y : float) : traced float := (x / y, [(x, y)]).

Definition divisions {A} (m : traced A) : list (float * float) := snd m.

Module BikeApp.

Definition DEFAULT_COLOR : string := "#FF6600".

Definition getSpeedColorExpression (mode : string) : expr :=
  if String.eqb mode "gradient" then
    EInterpolateLinear (EToNumber (ECoalesce (EGet "Speed") (ENum 0)))
      [(0, "#808080"); (2, "#DC2626"); (5, "#F97316"); (10, "#FACC15");
       (15, "#22C55E"); (20, "#3B82F6"); (25, "#6366F1")]
  else
    EStep (EToNumber (ECoalesce (EGet "Speed") (ENum 0))) "#808080"
      [(2, "#DC2626"); (5, "#F97316"); (10, "#FACC15"); (15, "#22C55E");
       (20, "#3B82F6"); (25, "#6366F1")].

Definition startup (CONFIG : Config) : M unit :=
  console_log "Starting bike visualization...";;
  called (CallSetAccessToken (MAPBOX_TOKEN CONFIG));;
  AppJs.newMap CONFIG;;
  on OnMapError;;
  on (OnMapLoad 0).

(** ** Statistics *)

(** [totalTime > 0 ? ((totalDistance / 1000) / (totalTime / 3600)).toFixed(1) : 0];
    the expression occurs verbatim in the click listener, in
    [loadAllTripData] and in [calculateAllTripStats]. *)
Definition avgSpeed (totalDistance totalTime : float) : traced JS.text :=
  if 0 <? totalTime then
    km ← divide totalDistance 1000;
    hours ← divide totalTime 3600;
    v ← divide km hours;
    mret (JS.toFixed v 1)
  else mret (JS.OfNumber 0).

(** The sums over the features of one layer. *)
Definition trip_totals (features_ : list properties) : float * float :=
  fold_left (fun acc feature =>
               (fst acc + or_zero (prop feature "gps_distance_m"),
                snd acc + or_zero (prop feature "time_diff_s")))
            features_ (0, 0).

Record PopupStats := {
  popup_distanceKm : JS.text;
  popup_avgSpeed : JS.text;
  popup_duration : JS.text
}.

(** The "Calculate stats" block of the click listener. *)
Definition popupStats (totalDistance totalTime : float) : traced PopupStats :=
  km ← divide totalDistance 1000;
  let distanceKm := JS.toFixed km 2 in
  avg ← avgSpeed totalDistance totalTime;
  minutes ← divide totalTime 60;
  let durationMinutes := JS.Math_floor minutes in
  let durationSeconds := JS.Math_round (JS.rem totalTime 60) in
  let durationFormatted :=
    JS.Cat (JS.OfNumber durationMinutes)
           (JS.Cat (JS.Str ":") (JS.PadStart0 2 (JS.OfNumber durationSeconds))) in
  mret (Build_PopupStats distanceKm avg durationFormatted).

Record SummaryStats := {
  summary_distanceKm : JS.text;
  summary_avgSpeed : JS.text;
  summary_totalTime : JS.text
}.

(** The "Update stats" block shared by [loadAllTripData] and
    [calculateAllTripStats]. *)
Definition summaryStats (totalDistance totalTime : float) : traced SummaryStats :=
  km ← divide totalDistance 1000;
  let totalDistanceKm := JS.toFixed km 1 in
  avg ← avgSpeed totalDistance totalTime;
  h ← divide totalTime 3600;
  let totalHours := JS.Math_floor h in
  m ← divide (JS.rem totalTime 3600) 60;
  let totalMinutes := JS.Math_floor m in
  let totalTimeFormatted :=
    if 0 <? totalHours
    then JS.Cat (JS.OfNumber totalHours)
                (JS.Cat (JS.Str "h ") (JS.Cat (JS.OfNumber totalMinutes) (JS.Str "m")))
    else JS.Cat (JS.OfNumber totalMinutes) (JS.Str "m") in
  mret (Build_SummaryStats totalDistanceKm avg totalTimeFormatted).

Definition show_summary (st : SummaryStats) : M unit :=
  set_textContent "statDistance" (JS.Cat (summary_distanceKm st) (JS.Str " km"));;
  set_textContent "statAvgSpeed" (JS.Cat (summary_avgSpeed st) (JS.Str " km/h"));;
  set_textContent "statTotalTime" (summary_totalTime st).

Definition trip_count : M JS.text :=
  gets (fun w => JS.OfNumber (JS.of_Z (Z.of_nat (length (tripLayers (globals w)))))).

(** ** [setupControls] *)

Definition restyle_all (prop_ : string) (v : paint_value) : M unit :=
  tl ← gets (fun w => tripLayers (globals w));
  forEach tl (fun layerId => setPaintProperty layerId prop_ v).

Definition onSpeedColorsChange (checked_ : bool) : M unit :=
  modify (with_globals (set_showSpeedColors checked_));;
  console_log "Speed colors toggled:";;
  if checked_ then
    mode ← gets (fun w => speedMode (globals w));
    let colorExpression := getSpeedColorExpression mode in
    console_log "Applying color expression:";;
    restyle_all "line-color" (PExpr colorExpression);;
    set_display "speedLegend" "block";;
    set_display "speedModeGroup" "block"
  else
    restyle_all "line-color" (PStr DEFAULT_COLOR);;
    set_display "speedLegend" "none";;
    set_display "speedModeGroup" "none".

Definition onSpeedModeChange (value_ : string) : M unit :=
  modify (with_globals (set_speedMode value_));;
  show ← gets (fun w => showSpeedColors (globals w));
  when show (restyle_all "line-color" (PExpr (getSpeedColorExpression value_))).

Definition setupControls : M unit :=
  present ← gets (fun w => bool_decide ("speedColorsCheckbox" ∈ elements (document w)));
  if (present : bool) then
    on (OnChange "speedColorsCheckbox");;
    on (OnRadioChange "speedMode")
  else console_error "Missing speedColorsCheckbox element".

(** ** [setupClickHandlers] *)

Definition trip_name (layerId : string) : string :=
  let s := JS.underscores_to_spaces layerId in
  JS.trim (JS.remove_all_ci (S (String.length s)) "processed" s).

(** The names of the properties that every plain object inherits from
    [Object.prototype]. *)
Definition Object_prototype_keys : list string :=
  ["constructor"; "__defineGetter__"; "__defineSetter__"; "hasOwnProperty";
   "__lookupGetter__"; "__lookupSetter__"; "isPrototypeOf"; "propertyIsEnumerable";
   "toString"; "valueOf"; "__proto__"; "toLocaleString"].

(** [allTripData[layerId]] as the click listener tests and reads it;
    [allTripData] is a plain object ([{}]).  An entry stored under the
    key gives its totals.  With nothing stored, a key that names a
    property of [Object.prototype] reads that property: it is truthy and
    its [distance] and [time] are undefined, which the statistics block
    treats in every operation as NaN.  An entry stored under "__proto__"
    is the object's prototype from then on, so that the keys "distance"
    and "time" read its two numbers: truthy when the number is, with
    [distance] and [time] undefined again. *)
Definition cached_totals (data : gmap string (float * float)) (layerId : string)
  : option (float * float) :=
  match data !! layerId with
  | Some totals => Some totals
  | None =>
      let inherited :=
        bool_decide (layerId ∈ Object_prototype_keys)
        || match data !! "__proto__" with
           | Some (distance, time) =>
               String.eqb layerId "distance" && JS.truthy distance
               || String.eqb layerId "time" && JS.truthy time
           | None => false
           end in
      if inherited then Some (nan, nan) else None
  end.

(** The click listener of trip layer [layerId].  [e.preventDefault()]
    sets the flag of the event; stopping the propagation of the original
    DOM event has no effect on the map's own listeners. *)
Definition onTripClick (layerId : string) (point : float * float)
    (props : properties) (rendered : list properties) : M unit :=
  console_log ("Layer clicked: " +:+ layerId);;
  modify (set_defaultPrevented true);;
  let speed := or_text (prop props "Speed") (JS.OfNumber 0) in
  (* Set selected trip and fade others *)
  modify (with_globals (set_selectedTrip (Some layerId)));;
  tl ← gets (fun w => tripLayers (globals w));
  forEach tl (fun id =>
    try_catch
      (if String.eqb id layerId then
         setPaintProperty id "line-opacity" (PNum 1.0);;
         setPaintProperty id "line-width" (PNum 4);;
         console_log ("Highlighted: " +:+ id)
       else
         setPaintProperty id "line-opacity" (PNum 0.15);;
         setPaintProperty id "line-width" (PNum 2);;
         console_log ("Faded: " +:+ id))
      (fun _ => console_error ("Error updating layer: " +:+ id)));;
  (* Update stats *)
  set_display "selectedTripRow" "flex";;
  set_textContent "selectedTrip" (JS.Str (trip_name layerId));;
  (* Use pre-calculated trip data if available *)
  cache ← gets (fun w => cached_totals (allTripData (globals w)) layerId);
  totals ← match cache with
            | Some cached => console_log ("Using cached data for " +:+ layerId);; ret cached
            | None => console_log ("Queried features for " +:+ layerId);;
                      ret (trip_totals rendered)
            end;
  let st := fst (popupStats (fst totals) (snd totals)) in
  addPopup (Popup point
    [ JS.Str (trip_name layerId);
      line "Speed at point: " speed " km/h";
      line "Average speed: " (popup_avgSpeed st) " km/h";
      line "Total distance: " (popup_distanceKm st) " km";
      line "Duration: " (popup_duration st) "" ]).

Definition truthy_string (s : option string) : bool :=
  match s with
  | Some t => negb (String.eqb t "")
  | None => false
  end.

(** Click map background to reset. *)
Definition onMapClick : M unit :=
  console_log "Map background clicked, defaultPrevented:";;
  prevented ← gets defaultPrevented;
  selected ← gets (fun w => selectedTrip (globals w));
  when (negb prevented && truthy_string selected)
    (console_log "Resetting from background click";;
     modify (with_globals (set_selectedTrip None));;
     tl ← gets (fun w => tripLayers (globals w));
     forEach tl (fun layerId =>
       try_catch
         (setPaintProperty layerId "line-opacity" (PNum 0.7);;
          setPaintProperty layerId "line-width" (PNum 3))
         (fun _ => console_error ("Error resetting layer: " +:+ layerId)));;
     set_display "selectedTripRow" "none").

Definition setupClickHandlers : M unit :=
  tl ← gets (fun w => tripLayers (globals w));
  forEach tl (fun layerId =>
    on (OnLayerClick layerId);;
    on (OnLayerMouseEnter layerId);;
    on (OnLayerMouseLeave layerId));;
  on OnMapClick.

(** ** [loadAllTripData] *)

(** The callback given to [setTimeout]. *)
Definition onStatsTimeout (originalCenter : float * float) (originalZoom : float)
    (rendered : string -> list properties) : M unit :=
  console_log "Calculating stats from zoomed out view...";;
  tl ← gets (fun w => tripLayers (globals w));
  forEach tl (fun layerId =>
    (* Store this trip's data *)
    modify (with_globals (set_allTripData layerId (trip_totals (rendered layerId))));;
    console_log ("Trip totals: " +:+ layerId));;
  let totalDistance :=
    fold_left (fun acc layerId => acc + fst (trip_totals (rendered layerId))) tl 0 in
  let totalTime :=
    fold_left (fun acc layerId => acc + snd (trip_totals (rendered layerId))) tl 0 in
  console_log "Total:";;
  show_summary (fst (summaryStats totalDistance totalTime));;
  (* Return to original view *)
  jumpTo originalCenter originalZoom.

Definition loadAllTripData (header_ : outcome Header) : M unit :=
  console_log "Loading all trip data from PMTiles...";;
  n ← trip_count;
  set_textContent "statTrips" n;;
  originalCenter ← gets (fun w => center (map w));
  originalZoom ← gets (fun w => zoom (map w));
  try_catch
    (header ← await header_;
     let center_ := ((minLon header + maxLon header) / 2,
                     (minLat header + maxLat header) / 2) in
     jumpTo center_ 10;;
     on (OnTimeout originalCenter originalZoom))
    (fun _ =>
       console_error "Error loading trip data:";;
       set_textContent "statTrips" n).

(** ** [calculateAllTripStats] (defined, never called) *)

Definition calculateAllTripStats_callback (originalCenter : float * float)
    (originalZoom : float) (rendered : string -> list properties) : M unit :=
  tl ← gets (fun w => tripLayers (globals w));
  let counted layerId :=
    let tt_ := trip_totals (rendered layerId) in
    (0 <? fst tt_) || (0 <? snd tt_) in
  forEach tl (fun layerId =>
    when (counted layerId) (console_log ("Trip totals: " +:+ layerId)));;
  let totalDistance :=
    fold_left (fun acc layerId =>
                 if counted layerId then acc + fst (trip_totals (rendered layerId)) else acc)
              tl 0 in
  let totalTime :=
    fold_left (fun acc layerId =>
                 if counted layerId then acc + snd (trip_totals (rendered layerId)) else acc)
              tl 0 in
  console_log "Total:";;
  n ← trip_count;
  set_textContent "statTrips" n;;
  show_summary (fst (summaryStats totalDistance totalTime));;
  (* Restore original view *)
  setCenter originalCenter;;
  setZoom originalZoom;;
  modify (with_globals (set_tripStatsCalculated true)).

(** ** The 'load' listener *)

(** The registration of the [pmtiles] protocol is not part of the
    model, and the source URL is written without the page origin. *)
Definition onLoad (CONFIG : Config) (net : Network) : M unit :=
  console_log "Map loaded";;
  try_catch
    (console_log ("Loading bike trips from: " +:+ PMTILES_URL CONFIG);;
     metadata ← await (trips_metadata net);
     console_log "PMTiles loaded:";;
     (* Get layer names *)
     let declared := default [] (vector_layers metadata) in
     modify (with_globals (set_tripLayers (List.map vl_id declared)));;
     console_log "Found trips";;
     (* Add source *)
     addSource "trips" (VectorSource ("pmtiles://" +:+ PMTILES_URL CONFIG));;
     (* Add layer for each trip - all visible by default *)
     tl ← gets (fun w => tripLayers (globals w));
     forEach tl (fun layerId =>
       addLayer layerId
         (line_layer "trips" (Some layerId) (PStr DEFAULT_COLOR) 3 0.7 None));;
     console_log "All trips loaded and visible";;
     setCenter (4.9041, 52.3676);;
     setZoom 13;;
     setupControls;;
     setupClickHandlers;;
     (* an async call that is not awaited: its exceptions are not caught here *)
     uncaught (loadAllTripData (trips_header net)))
    (fun _ => console_error "Error loading trips:").

(** [updateStats]: "no longer needed", never called. *)
Definition updateStats : M unit :=
  n ← trip_count;
  set_textContent "statTrips" n.

(** ** Which code a registered listener runs *)

Definition handler (CONFIG : Config) (l : listener) (ev : event) : M unit :=
  match l, ev with
  | OnMapLoad _, MapLoaded net => onLoad CONFIG net
  | OnChange _, CheckboxChange _ b => onSpeedColorsChange b
  | OnRadioChange _, RadioChange _ v => onSpeedModeChange v
  | OnLayerClick id, MapClick point hit rendered =>
      match hit !! id with
      | Some props => onTripClick id point props (rendered id)
      | None => ret tt
      end
  | OnMapClick, MapClick _ _ _ => onMapClick
  | OnLayerMouseEnter _, MouseEnter _ => setCursor "pointer"
  | OnLayerMouseLeave _, MouseLeave _ => setCursor ""
  | OnTimeout c z, TimerFired rendered => onStatsTimeout c z rendered
  | _, _ => ret tt
  end.

End BikeApp.

(* ===================================================================== *)
(** * The PMTiles revision of [app.js]: loading and the trip popup       *)
(* ===================================================================== *)

(** [src/unnamed/part_000].  Its top level and its aggregated-routes
    block are those of [src/app.js]; its trip controls have the text of
    those of [src/app.js] but colour with this revision's own table
    ([PmtilesApp.getSpeedColorExpression]).  It opens the trip archive
    itself (header, then metadata) and registers the source only after
    both have arrived, under the URL of the page's origin followed by the
    configured path.  The registration of the [pmtiles] protocol is not
    part of the model. *)

Module PmtilesHandlers.

(** The 'load' listener, first try block (lines 101-164); [origin] is
    [window.location.origin]. *)
Definition loadTrips (origin : string) (CONFIG : Config) (net : Network) : M unit :=
  try_catch
    (console_log ("Loading PMTiles from: " +:+ PMTILES_URL CONFIG);;
     let pmtilesUrl := origin +:+ PMTILES_URL CONFIG in
     (* Get metadata to find layer names *)
     header ← await (trips_header net);
     metadata ← await (trips_metadata net);
     console_log "PMTiles metadata:";;
     let declared := default [] (vector_layers metadata) in
     modify (with_globals (set_tripLayers (List.map vl_id declared)));;
     console_log "Found trip layers:";;
     addSource "trips" (VectorSource ("pmtiles://" +:+ pmtilesUrl));;
     tl ← gets (fun w => tripLayers (globals w));
     forEach tl (fun layerId =>
       addLayer layerId
         (line_layer "trips" (Some layerId) (PStr "#FF6600") 2 0.4 None));;
     console_log "Loaded trip layers";;
     (* Populate trip filter dropdown *)
     forEach tl (fun layerId =>
       element "tripFilter";;
       modify (with_dom (dom_options (fun os =>
         os ++ [(layerId, JS.underscores_to_spaces layerId)]))));;
     AppJs.setupTripControls;;
     AppJs.updateStats)
    (fun _ =>
       console_error "Error loading trips:";;
       console_error "Full error:").

Definition onLoad (origin : string) (CONFIG : Config) (net : Network) : M unit :=
  console_log "Base map loaded, now loading data...";;
  loadTrips origin CONFIG net;;
  AppJs.loadAggregated CONFIG net.

(** The speed listeners of [setupTripControls] (lines 234-265). *)
Definition onSpeedSegmentsChange (checked_ : bool) : M unit :=
  tl ← gets (fun w => tripLayers (globals w));
  if checked_ then
    mode ← gets (fun w => speedMode (globals w));
    forEach tl (fun layerId =>
      setPaintProperty layerId "line-color"
        (PExpr (PmtilesApp.getSpeedColorExpression mode));;
      setPaintProperty layerId "line-width" (PNum 3));;
    set_display "speedLegend" "block"
  else
    forEach tl (fun layerId =>
      setPaintProperty layerId "line-color" (PStr "#FF6600");;
      setPaintProperty layerId "line-width" (PNum 2));;
    set_display "speedLegend" "none".

Definition onSpeedModeChange (value_ : string) : M unit :=
  modify (with_globals (set_speedMode value_));;
  segments ← get_checked "speedSegmentsCheckbox";
  when segments
    (tl ← gets (fun w => tripLayers (globals w));
     forEach tl (fun layerId =>
       setPaintProperty layerId "line-color"
         (PExpr (PmtilesApp.getSpeedColorExpression value_))));;
  aggregated ← get_checked "aggregatedCheckbox";
  when aggregated
    (setPaintProperty "aggregated-routes-layer" "line-color"
       (PExpr (PmtilesApp.getAggregatedSpeedColorExpression value_))).

(** The click listener of trip layer [layerId] (lines 269-284): the
    popup is headed by the layer's id. *)
Definition onTripClick (layerId : string) (point : float * float)
    (props : properties) : M unit :=
  let speed := or_text (prop props "Speed") (JS.OfNumber 0) in
  addPopup (Popup point
    [ JS.Str ("Trip: " +:+ layerId);
      line "Speed: " speed " km/h";
      line "Distance: "
           (or_text (prop props "distance_m")
              (or_text (prop props "gps_distance_m") (JS.Str "N/A"))) " m";
      line "Time diff: " (or_text (prop props "time_diff_s") (JS.Str "N/A")) " s";
      line "HRot diff: " (or_text (prop props "hrot_diff") (JS.Str "N/A")) "";
      line "Sample diff: " (or_text (prop props "sample_diff") (JS.Str "N/A")) "" ]).

Definition handler (origin : string) (CONFIG : Config) (l : listener) (ev : event)
  : M unit :=
  match l, ev with
  | OnMapLoad 1, MapLoaded net => onLoad origin CONFIG net
  | OnChange id, CheckboxChange _ b =>
      if String.eqb id "tripsCheckbox" then AppJs.onTripsCheckboxChange b
      else if String.eqb id "speedSegmentsCheckbox" then onSpeedSegmentsChange b
      else if String.eqb id "aggregatedCheckbox" then AppJs.onAggregatedCheckboxChange b
      else ret tt
  | OnRadioChange _, RadioChange _ v => onSpeedModeChange v
  | OnLayerClick id, MapClick point hit _ =>
      match hit !! id with
      | Some props =>
          if String.eqb id "aggregated-routes-layer" then AppJs.onAggregatedClick point props
          else onTripClick id point props
      | None => ret tt
      end
  | _, _ => AppJs.handler CONFIG l ev
  end.

End PmtilesHandlers.

(* ===================================================================== *)
(** * Reasoning about handlers                                           *)
(* ===================================================================== *)

Lemma bind_unfold {A B} (m : M A) (k : A -> M B) (w : World) :
  (m ≫= k) w = match m w with
               | (Ok a, w') => k a w'
               | (Thrown e, w') => (Thrown e, w')
               end.
Proof. reflexivity. Qed.

(** A computation that cannot throw. *)
Definition nothrow {A} (m : M A) : Prop :=
  forall w, exists a, fst (m w) = Ok a.

Lemma run_seq {A B} (m : M A) (k : M B) (w : World) :
  nothrow m -> run (m ≫= fun _ => k) w = run k (run m w).
Proof.
  intros Hm. unfold run. rewrite bind_unfold.
  destruct (Hm w) as [a Ha]. destruct (m w) as [[a'|e] w']; simpl in *; [done|discriminate].
Qed.

Lemma run_gets {A B} (f : World -> A) (k : A -> M B) (w : World) :
  run (gets f ≫= k) w = run (k (f w)) w.
Proof. reflexivity. Qed.

Lemma nothrow_modify f : nothrow (modify f).
Proof. intros w. by exists tt. Qed.

Lemma nothrow_ret {A} (a : A) : nothrow (mret a : M A).
Proof. intros w. by exists a. Qed.

Lemma nothrow_gets {A} (f : World -> A) : nothrow (gets f).
Proof. intros w. by exists (f w). Qed.

Lemma nothrow_bind {A B} (m : M A) (k : A -> M B) :
  nothrow m -> (forall a, nothrow (k a)) -> nothrow (m ≫= k).
Proof.
  intros Hm Hk w. rewrite bind_unfold.
  destruct (Hm w) as [a Ha]. destruct (m w) as [[a'|e] w']; simpl in *; [|discriminate].
  apply Hk.
Qed.

Lemma nothrow_try_catch {A} (m : M A) (h : exn -> M A) :
  (forall e, nothrow (h e)) -> nothrow (try_catch m h).
Proof.
  intros Hh w. unfold try_catch. destruct (m w) as [[a|e] w']; [by exists a|apply Hh].
Qed.

Lemma try_catch_nothrow {A} (m : M A) h w : nothrow m -> try_catch m h w = m w.
Proof.
  intros Hm. unfold try_catch. destruct (Hm w) as [a Ha].
  destruct (m w) as [[a'|e] w']; simpl in *; [done|discriminate].
Qed.

Lemma nothrow_when b (m : M unit) : nothrow m -> nothrow (when b m).
Proof. destruct b; [done|]. intros _. apply (nothrow_ret tt). Qed.

Lemma nothrow_forEach {A} (l : list A) (f : A -> M unit) :
  (forall x, nothrow (f x)) -> nothrow (forEach l f).
Proof.
  intros Hf. induction l as [|x l IH]; simpl; [apply (nothrow_ret tt)|].
  apply nothrow_bind; [apply Hf|done].
Qed.

Lemma nothrow_console_log msg : nothrow (console_log msg).
Proof. apply nothrow_modify. Qed.

Lemma nothrow_console_error msg : nothrow (console_error msg).
Proof. apply nothrow_modify. Qed.

Lemma nothrow_called c : nothrow (called c).
Proof. apply nothrow_modify. Qed.

Lemma nothrow_fire_error msg : nothrow (fire_error msg).
Proof.
  unfold fire_error. apply nothrow_bind; [apply nothrow_gets|intros ls].
  apply nothrow_when, nothrow_console_error.
Qed.

Lemma nothrow_update_layer id f : nothrow (update_layer id f).
Proof.
  unfold update_layer. apply nothrow_bind; [apply nothrow_gets|intros ls].
  destruct (ls !! id); [apply nothrow_modify|apply nothrow_fire_error].
Qed.

Lemma nothrow_uncaught m : nothrow (uncaught m).
Proof. apply nothrow_try_catch. intros _. apply nothrow_console_error. Qed.

(** Running straight-line handler code symbolically: the monad, the
    record updates and the projections are unfolded in the goal; the
    hypotheses get their projections in the same form, so that they still
    rewrite. *)
Ltac projections :=
  cbv delta
    [map document globals console alerts listeners defaultPrevented
     layers sources popups cursor center zoom calls
     elements checked values textContent display options radio
     tripLayers speedMode showSpeedColors selectedTrip tripStatsCalculated
     allTripData] in *.

Ltac exec :=
  cbv beta iota zeta delta
    [mbind M_bind bind mret M_ret ret modify gets throw try_catch when await uncaught
     run called on console_log console_error alert addPopup setCursor setCenter
     setZoom jumpTo with_map with_dom with_globals with_console with_alerts
     with_listeners set_defaultPrevented map_layers map_sources map_popups
     map_cursor map_center map_zoom map_called dom_checked dom_value
     dom_textContent dom_display dom_options dom_radio set_tripLayers
     set_speedMode set_showSpeedColors set_selectedTrip set_tripStatsCalculated
     set_allTripData
     map document globals console alerts listeners defaultPrevented
     layers sources popups cursor center zoom calls
     elements checked values textContent display options radio
     tripLayers speedMode showSpeedColors selectedTrip tripStatsCalculated
     allTripData];
  cbn [fst snd];
  projections.

(** ** Frame conditions *)

(** [preserves R m]: whatever [m] does, and whether or not it throws,
    the world it leaves is [R]-related to the one it started in. *)
Definition preserves {A} (R : relation World) (m : M A) : Prop :=
  forall w, R w (run m w).

Section Preserves.
Context (R : relation World) `{!PreOrder R}.

Lemma preserves_ret {A} (a : A) : preserves R (mret a : M A).
Proof. intros w. reflexivity. Qed.

Lemma preserves_throw {A} e : preserves R (throw e : M A).
Proof. intros w. reflexivity. Qed.

Lemma preserves_gets {A} (f : World -> A) : preserves R (gets f).
Proof. intros w. reflexivity. Qed.

Lemma preserves_await {A} (r : outcome A) : preserves R (await r).
Proof. destruct r; intros w; reflexivity. Qed.

Lemma preserves_modify f : (forall w, R w (f w)) -> preserves R (modify f).
Proof. intros H w. apply H. Qed.

Lemma preserves_bind {A B} (m : M A) (k : A -> M B) :
  preserves R m -> (forall a, preserves R (k a)) -> preserves R (m ≫= k).
Proof.
  intros Hm Hk w. specialize (Hm w). unfold run in *. rewrite bind_unfold.
  destruct (m w) as [[a|e] w']; simpl in *; [|done].
  etrans; [exact Hm|apply Hk].
Qed.

Lemma preserves_try_catch {A} (m : M A) (h : exn -> M A) :
  preserves R m -> (forall e, preserves R (h e)) -> preserves R (try_catch m h).
Proof.
  intros Hm Hh w. specialize (Hm w). unfold run, try_catch in *.
  destruct (m w) as [[a|e] w']; simpl in *; [done|].
  etrans; [exact Hm|apply Hh].
Qed.

Lemma preserves_when b (m : M unit) : preserves R m -> preserves R (when b m).
Proof. destruct b; [done|]. intros _. apply (preserves_ret tt). Qed.

Lemma preserves_forEach {A} (l : list A) (f : A -> M unit) :
  (forall x, preserves R (f x)) -> preserves R (forEach l f).
Proof.
  intros Hf. induction l as [|x l IH]; simpl; [apply (preserves_ret tt)|].
  apply preserves_bind; [apply Hf|done].
Qed.

Lemma preserves_element id : preserves R (element id).
Proof. intros w. unfold run, element. case_decide; reflexivity. Qed.

Lemma preserves_checked_radio_value g : preserves R (checked_radio_value g).
Proof. intros w. unfold run, checked_radio_value. destruct (_ !! _); reflexivity. Qed.

Lemma preserves_fold {A} (evs : list A) (f : World -> A -> World) (P : A -> Prop) w :
  (forall w' ev, P ev -> R w' (f w' ev)) -> Forall P evs -> R w (fold_left f evs w).
Proof.
  intros Hf Hevs. revert w. induction Hevs as [|ev evs Hev _ IH]; intros w; simpl.
  - reflexivity.
  - etrans; [apply Hf, Hev|apply IH].
Qed.
End Preserves.

(* ===================================================================== *)
(** * Statistics shown to the user                                       *)
(* ===================================================================== *)

Module StatsFacts.
Import BikeApp.

Definition rendered_popup (st : PopupStats) : option string * option string * option string :=
  (JS.render (popup_distanceKm st), JS.render (popup_avgSpeed st),
   JS.render (popup_duration st)).

Definition rendered_summary (st : SummaryStats) : option string * option string * option string :=
  (JS.render (summary_distanceKm st), JS.render (summary_avgSpeed st),
   JS.render (summary_totalTime st)).

(** A page with the statistics fields, one trip whose rendered features
    add up to 12345 m and 1830 s, loaded and summarised. *)
Definition stats_page : Dom :=
  mkDom (list_to_set ["map"; "speedColorsCheckbox"; "speedLegend"; "speedModeGroup";
                      "selectedTripRow"; "selectedTrip"; "statTrips";
                      "statDistance"; "statAvgSpeed"; "statTotalTime"])
        ∅ ∅ ∅ ∅ [] {["speedMode" := "gradient"]}.

Definition sample_config : Config :=
  Build_Config (Some "pk.token") "/trips.pmtiles" "/aggregated_routes.geojson"
               (4.9, 52.37) 11 "mapbox://styles/mapbox/dark-v11".

Definition one_ride : Network :=
  Build_Network (Ok (Build_Metadata (Some [Build_VectorLayer "ride_1"])))
                (Ok (Build_Header 4.8 5.0 52.3 52.4))
                (Thrown (NetworkError "not requested")).

Definition ride_features (layerId : string) : list properties :=
  if String.eqb layerId "ride_1" then
    [ {[ "gps_distance_m" := VNum 12000; "time_diff_s" := VNum 1800 ]};
      {[ "gps_distance_m" := VNum 345; "time_diff_s" := VNum 30 ]} ]
  else [].

Definition summarised : World :=
  steps (handler sample_config) (run (startup sample_config) (page stats_page))
        [MapLoaded one_ride; TimerFired ride_features].

Definition clicked : World :=
  step (handler sample_config) summarised (MapClick (4.9, 52.37) {["ride_1" := ∅]} (fun _ => [])).

Definition shown (w : World) (id : string) : option string :=
  t ← textContent (document w) !! id; JS.render t.

Definition popup_lines (w : World) : list (option string) :=
  match last (popups (map w)) with
  | Some p => JS.render <$> html p
  | None => []
  end.

Lemma trip_totals_ride : trip_totals (ride_features "ride_1") = (12345, 1830).
Proof. vm_compute. reflexivity. Qed.

(** C2.  Totals of 12345 m and 1830 s: the click popup shows the
    distance with two decimals ("12.35"), the duration as mm:ss
    ("30:30"); the summary panel shows one decimal ("12.3") and whole
    minutes ("30m", the hour count being 0); both show the average
    speed (12345/1000)/(1830/3600) with one decimal, "24.3". *)
Theorem stats_example_12345_1830 :
  rendered_popup (fst (popupStats 12345 1830))
    = (Some "12.35", Some "24.3", Some "30:30")
  /\ rendered_summary (fst (summaryStats 12345 1830))
    = (Some "12.3", Some "24.3", Some "30m")
  /\ popup_avgSpeed (fst (popupStats 12345 1830))
    = JS.toFixed ((12345 / 1000) / (1830 / 3600)) 1
  /\ summary_avgSpeed (fst (summaryStats 12345 1830))
    = JS.toFixed ((12345 / 1000) / (1830 / 3600)) 1
  /\ JS.toString (JS.Math_floor (1830 / 3600)) = Some "0"
  /\ (shown summarised "statDistance", shown summarised "statAvgSpeed",
      shown summarised "statTotalTime")
    = (Some "12.3 km", Some "24.3 km/h", Some "30m")
  /\ popup_lines clicked
    = [Some "ride 1"; Some "Speed at point: 0 km/h"; Some "Average speed: 24.3 km/h";
       Some "Total distance: 12.35 km"; Some "Duration: 30:30"].
Proof. vm_compute. repeat split. Qed.

(** ** The guard on the average speed *)

Definition nonzero_divisor (d : float * float) : Prop := is_zero (snd d) = false.

Lemma avgSpeed_unguarded d t :
  (0 <? t) = false -> avgSpeed d t = (JS.OfNumber 0, []).
Proof. intros H. unfold avgSpeed. rewrite H. reflexivity. Qed.

Lemma avgSpeed_divides d t :
  divisions (avgSpeed d t) <> [] -> (0 <? t) = true.
Proof.
  intros H. destruct (0 <? t) eqn:E; [done|].
  rewrite (avgSpeed_unguarded d t E) in H. by destruct H.
Qed.

(** A ride whose rendered features carry no time. *)
Definition idle_features (layerId : string) : list properties :=
  if String.eqb layerId "ride_1" then
    [ {[ "gps_distance_m" := VNum 250; "time_diff_s" := VNum 0 ]};
      {[ "gps_distance_m" := VNum 120 ]} ]
  else [].

Definition loaded_one_ride : World :=
  step (handler sample_config) (run (startup sample_config) (page stats_page))
       (MapLoaded one_ride).

Definition idle_summarised : World :=
  step (handler sample_config) loaded_one_ride (TimerFired idle_features).

Definition idle_clicked : World :=
  step (handler sample_config) idle_summarised
       (MapClick (4.9, 52.37) {["ride_1" := ∅]} (fun _ => [])).

Definition idle_recalculated : World :=
  run (calculateAllTripStats_callback (4.9, 52.37) 11 idle_features) loaded_one_ride.

(** C10.  In the popup block, the summary block of [loadAllTripData]
    and that of [calculateAllTripStats] (the latter two share
    [summaryStats]), the average speed divides by the total time only
    when [totalTime > 0] holds.  Otherwise, and so when the total time
    is 0, the average speed shown is the number 0, printed "0", the
    expression performs no division, and every division the block
    performs has a constant non-zero divisor.  On a ride without time
    the three paths show "0 km/h". *)
Theorem avg_speed_division_guarded (totalDistance totalTime : float) :
  (0 <? totalTime) = false ->
  avgSpeed totalDistance totalTime = (JS.OfNumber 0, [])
  /\ JS.render (JS.OfNumber 0) = Some "0"
  /\ (shown idle_summarised "statAvgSpeed", shown idle_recalculated "statAvgSpeed",
      popup_lines idle_clicked !! 2%nat)
     = (Some "0 km/h", Some "0 km/h", Some (Some "Average speed: 0 km/h"))
  /\ popup_avgSpeed (fst (popupStats totalDistance totalTime)) = JS.OfNumber 0
  /\ summary_avgSpeed (fst (summaryStats totalDistance totalTime)) = JS.OfNumber 0
  /\ divisions (popupStats totalDistance totalTime)
       = [(totalDistance, 1000); (totalTime, 60)]
  /\ divisions (summaryStats totalDistance totalTime)
       = [(totalDistance, 1000); (totalTime, 3600); (JS.rem totalTime 3600, 60)]
  /\ Forall nonzero_divisor (divisions (popupStats totalDistance totalTime))
  /\ Forall nonzero_divisor (divisions (summaryStats totalDistance totalTime)).
Proof.
  intros H.
  assert (Hp : divisions (popupStats totalDistance totalTime)
               = [(totalDistance, 1000); (totalTime, 60)]).
  { unfold popupStats, divisions. cbn. rewrite (avgSpeed_unguarded _ _ H). reflexivity. }
  assert (Hs : divisions (summaryStats totalDistance totalTime)
               = [(totalDistance, 1000); (totalTime, 3600); (JS.rem totalTime 3600, 60)]).
  { unfold summaryStats, divisions. cbn. rewrite (avgSpeed_unguarded _ _ H). reflexivity. }
  split; [by apply avgSpeed_unguarded|].
  split; [reflexivity|].
  split; [vm_compute; reflexivity|].
  split; [unfold popupStats; cbn; by rewrite (avgSpeed_unguarded _ _ H)|].
  split; [unfold summaryStats; cbn; by rewrite (avgSpeed_unguarded _ _ H)|].
  split; [exact Hp|]. split; [exact Hs|].
  rewrite Hp, Hs. split; repeat constructor.
Qed.

Lemma avg_speed_division_guarded_at_zero :
  (0 <? 0) = false /\
  avgSpeed 12345 0 = (JS.OfNumber 0, []).
Proof.
  split; [reflexivity|].
  exact (proj1 (avg_speed_division_guarded 12345 0 eq_refl)).
Defined.

End StatsFacts.

(* ===================================================================== *)
(** * The colouring policy                                               *)
(* ===================================================================== *)

Module ColorFacts.

(** Order facts on doubles, from the specification of the primitive
    comparisons. *)
Lemma below_zero_leb (x : float) : (x <? 0) = true -> (x <=? 0) = true.
Proof.
  rewrite ltb_spec, leb_spec.
  change (Prim2SF 0) with (S754_zero false).
  unfold SFltb, SFleb, SFcompare.
  destruct (Prim2SF x) as [s|s| |s m e]; try destruct s; simpl; congruence.
Qed.

Lemma below_zero_not_geb (x l : float) :
  (x <? 0) = true -> (0 <? l) = true -> (l <=? x) = false.
Proof.
  rewrite !ltb_spec, leb_spec.
  change (Prim2SF 0) with (S754_zero false).
  unfold SFltb, SFleb, SFcompare.
  destruct (Prim2SF x) as [s|s| |s m e]; try destruct s; simpl; try congruence;
    destruct (Prim2SF l) as [s'|s'| |s' m' e']; try destruct s'; simpl; congruence.
Qed.

(** The number the policies look up: [to-number(coalesce(get key, 0))]. *)
Definition speed_of (v : option value) : float :=
  match v with
  | None | Some VNull => 0
  | Some (VBool b) => if b then 1 else 0
  | Some (VNum x) => x
  end.

Lemma evaluate_speed_input (props : properties) (key : string) :
  evaluate props (EToNumber (ECoalesce (EGet key) (ENum 0)))
  = Some (RVal (VNum (speed_of (props !! key)))).
Proof.
  simpl. destruct (props !! key) as [[|b|x]|]; simpl; try reflexivity.
Qed.

(** A speed that is absent, null, or a negative number. *)
Definition absent_or_negative (v : option value) : Prop :=
  v = None \/ v = Some VNull \/ exists x, v = Some (VNum x) /\ (x <? 0) = true.

(** A table whose gradient starts at stop 0 and whose first step
    threshold is positive gives speeds below zero the colour of zero. *)
Lemma gradient_below_zero (x : float) (c : string) (rest : stops) :
  (x <? 0) = true ->
  interpolate_linear x ((0, c) :: rest) = interpolate_linear 0 ((0, c) :: rest).
Proof.
  intros H. simpl. rewrite (below_zero_leb x H). reflexivity.
Qed.

Lemma step_below_zero (x l : float) (base out : string) (rest : stops) :
  (x <? 0) = true -> (0 <? l) = true -> (l <=? 0) = false ->
  step_from x base ((l, out) :: rest) = step_from 0 base ((l, out) :: rest).
Proof.
  intros Hx Hl H0. simpl. rewrite (below_zero_not_geb x l Hx Hl), H0. reflexivity.
Qed.

(** The shape shared by all the tables of the three revisions. *)
Definition policy_shape (policy : string -> expr) (key : string) : Prop :=
  forall mode,
    (exists c rest,
        policy mode = EInterpolateLinear (EToNumber (ECoalesce (EGet key) (ENum 0)))
                                         ((0, c) :: rest))
    \/ (exists l base out rest,
        policy mode = EStep (EToNumber (ECoalesce (EGet key) (ENum 0))) base
                            ((l, out) :: rest)
        /\ (0 <? l) = true /\ (l <=? 0) = false).

Lemma evaluate_gradient (props : properties) key st :
  evaluate props (EInterpolateLinear (EToNumber (ECoalesce (EGet key) (ENum 0))) st)
  = RColor <$> interpolate_linear (speed_of (props !! key)) st.
Proof.
  change (evaluate props (EInterpolateLinear ?i st))
    with (match evaluate props i with
          | Some (RVal (VNum v)) => RColor <$> interpolate_linear v st
          | _ => None
          end).
  by rewrite evaluate_speed_input.
Qed.

Lemma evaluate_step (props : properties) key base st :
  evaluate props (EStep (EToNumber (ECoalesce (EGet key) (ENum 0))) base st)
  = RColor <$> parse_color (step_from (speed_of (props !! key)) base st).
Proof.
  change (evaluate props (EStep ?i base st))
    with (match evaluate props i with
          | Some (RVal (VNum v)) => RColor <$> parse_color (step_from v base st)
          | _ => None
          end).
  by rewrite evaluate_speed_input.
Qed.

Lemma shaped_policy_clamps policy key :
  policy_shape policy key ->
  forall mode (props : properties),
    absent_or_negative (props !! key) ->
    evaluate props (policy mode)
    = evaluate (<[key := VNum 0]> props) (policy mode).
Proof.
  intros Hshape mode props Hv.
  destruct (Hshape mode) as [(c & rest & ->)|(l & base & out & rest & -> & Hl & H0)].
  - rewrite !evaluate_gradient, lookup_insert_eq.
    destruct Hv as [->|[->|(x & -> & Hx)]]; try reflexivity.
    cbn [speed_of]. by rewrite (gradient_below_zero x c rest Hx).
  - rewrite !evaluate_step, lookup_insert_eq.
    destruct Hv as [->|[->|(x & -> & Hx)]]; try reflexivity.
    cbn [speed_of]. by rewrite (step_below_zero x l base out rest Hx Hl H0).
Qed.

Ltac shape :=
  intros mode; unfold AppJs.getSpeedColorExpression, AppJs.getAggregatedSpeedColorExpression,
    PmtilesApp.getSpeedColorExpression, PmtilesApp.getAggregatedSpeedColorExpression,
    BikeApp.getSpeedColorExpression;
  destruct (String.eqb mode "gradient");
  [left; eexists _, _; reflexivity
  |right; eexists _, _, _, _; split; [reflexivity|split; reflexivity]].

Lemma shape_app_trip : policy_shape AppJs.getSpeedColorExpression "Speed".
Proof. shape. Qed.
Lemma shape_app_aggregated : policy_shape AppJs.getAggregatedSpeedColorExpression "avg_speed".
Proof. shape. Qed.
Lemma shape_pmtiles_trip : policy_shape PmtilesApp.getSpeedColorExpression "Speed".
Proof. shape. Qed.
Lemma shape_bike_trip : policy_shape BikeApp.getSpeedColorExpression "Speed".
Proof. shape. Qed.

(** C3.  A speed that is absent, null or negative is coloured as the
    speed 0, by the trip-level and the aggregated-level policy of
    [src/app.js] in gradient and in step mode (every [mode] other than
    "gradient" is step mode), and by the trip-level tables of the two
    other revisions. *)
Theorem negative_or_absent_speed_is_zero (mode : string) (props : properties) :
  (absent_or_negative (props !! "Speed") ->
     evaluate props (AppJs.getSpeedColorExpression mode)
     = evaluate (<["Speed" := VNum 0]> props) (AppJs.getSpeedColorExpression mode))
  /\ (absent_or_negative (props !! "avg_speed") ->
     evaluate props (AppJs.getAggregatedSpeedColorExpression mode)
     = evaluate (<["avg_speed" := VNum 0]> props)
                (AppJs.getAggregatedSpeedColorExpression mode))
  /\ (absent_or_negative (props !! "Speed") ->
     evaluate props (PmtilesApp.getSpeedColorExpression mode)
     = evaluate (<["Speed" := VNum 0]> props) (PmtilesApp.getSpeedColorExpression mode))
  /\ (absent_or_negative (props !! "Speed") ->
     evaluate props (BikeApp.getSpeedColorExpression mode)
     = evaluate (<["Speed" := VNum 0]> props) (BikeApp.getSpeedColorExpression mode)).
Proof.
  repeat split; intros H.
  - by apply (shaped_policy_clamps _ _ shape_app_trip).
  - by apply (shaped_policy_clamps _ _ shape_app_aggregated).
  - by apply (shaped_policy_clamps _ _ shape_pmtiles_trip).
  - by apply (shaped_policy_clamps _ _ shape_bike_trip).
Qed.

Definition slow_feature : properties :=
  {[ "Speed" := VNum (-3.5); "avg_speed" := VNum (-1) ]}.

Lemma negative_or_absent_speed_is_zero_example :
  evaluate slow_feature (AppJs.getSpeedColorExpression "step")
  = evaluate (<["Speed" := VNum 0]> slow_feature) (AppJs.getSpeedColorExpression "step")
  /\ evaluate slow_feature (AppJs.getAggregatedSpeedColorExpression "gradient")
  = evaluate (<["avg_speed" := VNum 0]> slow_feature)
             (AppJs.getAggregatedSpeedColorExpression "gradient").
Proof.
  split.
  - apply (proj1 (negative_or_absent_speed_is_zero "step" slow_feature)).
    right; right. exists (-3.5). split; reflexivity.
  - apply (proj1 (proj2 (negative_or_absent_speed_is_zero "gradient" slow_feature))).
    right; right. exists (-1). split; reflexivity.
Defined.

End ColorFacts.

(* ===================================================================== *)
(** * [src/app.js]: start-up and loading                                 *)
(* ===================================================================== *)

Module LoadFacts.
Import AppJs.

(** ** Where the configuration comes from *)





(** ** The token check *)






Definition placeholder_config : Config :=
  Build_Config (Some "YOUR_MAPBOX_TOKEN_HERE") "http://localhost:8080/data/pmtiles.json"
               "http://localhost:8000/aggregated_routes.geojson"
               (4.9, 52.37) 11 "mapbox://styles/mapbox/dark-v11".

Definition app_page : Dom :=
  mkDom (list_to_set ["map"; "tripFilter"; "tripsCheckbox"; "speedSegmentsCheckbox";
                      "aggregatedCheckbox"; "minSamplesSlider"; "minSamplesValue";
                      "speedLegend"; "statTrips"; "statAvgSpeed"])
        ∅ {["tripFilter" := "all"]} ∅ ∅ [] {["speedMode" := "gradient"]}.




End LoadFacts.

(* ===================================================================== *)
(** * What no listener after the load changes                            *)
(* ===================================================================== *)

(** The trip list, the ids of the layers in the style, the sources, the
    registered listeners and the elements of the page. *)
Record same_frame (w w' : World) : Prop := {
  frame_tripLayers : tripLayers (globals w') = tripLayers (globals w);
  frame_layer_ids : dom (layers (map w')) = dom (layers (map w));
  frame_sources : sources (map w') = sources (map w);
  frame_listeners : listeners w' = listeners w;
  frame_elements : elements (document w') = elements (document w)
}.

#[global] Instance same_frame_preorder : PreOrder same_frame.
Proof.
  split.
  - intros w. by split.
  - intros w1 w2 w3 [] []. split; congruence.
Qed.

Lemma frame_update_layer id f : preserves same_frame (update_layer id f).
Proof.
  intros w. unfold update_layer. exec.
  destruct (layers (map w) !! id) as [l|] eqn:E.
  - split; try reflexivity. cbn. apply dom_insert_lookup_L. by rewrite E.
  - unfold fire_error. exec. destruct (existsb _ _); by split.
Qed.

Lemma frame_fire_error msg : preserves same_frame (fire_error msg).
Proof. intros w. unfold fire_error. exec. destruct (existsb _ _); by split. Qed.

(** Only the trip list. *)
Definition same_tripLayers (w w' : World) : Prop :=
  tripLayers (globals w') = tripLayers (globals w).

(** The trip list and the ids of the layers in the style. *)
Definition same_trips (w w' : World) : Prop :=
  tripLayers (globals w') = tripLayers (globals w)
  /\ dom (layers (map w')) = dom (layers (map w)).

#[global] Instance same_tripLayers_preorder : PreOrder same_tripLayers.
Proof. split; [by intros w|intros w1 w2 w3; unfold same_tripLayers; congruence]. Qed.

#[global] Instance same_trips_preorder : PreOrder same_trips.
Proof.
  split; [by intros w|]. intros w1 w2 w3 [] []. split; congruence.
Qed.

Lemma same_frame_trips w w' : same_frame w w' -> same_trips w w'.
Proof. intros []. by split. Qed.

Lemma same_trips_tripLayers w w' : same_trips w w' -> same_tripLayers w w'.
Proof. by intros []. Qed.

Lemma preserves_weaken {A} (R R' : relation World) (m : M A) :
  (forall w w', R w w' -> R' w w') -> preserves R m -> preserves R' m.
Proof. intros HR Hm w. apply HR, Hm. Qed.

Lemma trips_update_layer id f : preserves same_tripLayers (update_layer id f).
Proof.
  eapply preserves_weaken; [|apply frame_update_layer].
  intros w w' H. by apply same_trips_tripLayers, same_frame_trips.
Qed.

Lemma trips_fire_error msg : preserves same_tripLayers (fire_error msg).
Proof.
  eapply preserves_weaken; [|apply frame_fire_error].
  intros w w' H. by apply same_trips_tripLayers, same_frame_trips.
Qed.

Create HintDb handlers.
#[global] Hint Unfold
  setPaintProperty setLayoutProperty setFilter get_checked get_value set_display
  set_textContent console_log console_error alert called addPopup setCursor jumpTo
  setCenter setZoom uncaught addSource addLayer addEventListener on : handlers.

Ltac frame_modify :=
  apply preserves_modify; intros ?; first [split|red]; exec; reflexivity.

(** Decomposes a handler along its control structure, down to the calls
    that update the world. *)
Ltac frame :=
  autounfold with handlers;
  repeat first
    [ apply preserves_ret; apply _
    | apply preserves_gets; apply _
    | apply preserves_element; apply _
    | apply preserves_await; apply _
    | apply preserves_throw; apply _
    | apply preserves_checked_radio_value; apply _
    | apply frame_update_layer
    | apply frame_fire_error
    | apply trips_update_layer
    | apply trips_fire_error
    | frame_modify
    | apply preserves_bind; [apply _| |intros ?]
    | apply preserves_try_catch; [apply _| |intros ?]
    | apply preserves_forEach; [apply _|intros ?]
    | apply preserves_when; [apply _|]
    | match goal with
      | |- preserves _ (if ?b then _ else _) => destruct b
      | |- preserves _ (match ?x with _ => _ end) => destruct x
      end ].

Definition is_load (ev : event) : bool :=
  match ev with MapLoaded _ => true | _ => false end.

Definition is_timer (ev : event) : bool :=
  match ev with TimerFired _ => true | _ => false end.

Module FrameFacts.

Lemma app_handler_frame CONFIG l ev :
  is_load ev = false -> preserves same_frame (AppJs.handler CONFIG l ev).
Proof.
  intros Hev. unfold AppJs.handler.
  destruct l as [| | | | | | | |[|[|n]]|], ev; try discriminate Hev;
    unfold AppJs.onTripsCheckboxChange, AppJs.onSpeedSegmentsChange,
      AppJs.onAggregatedCheckboxChange, AppJs.onTripFilterChange, AppJs.updateStats,
      AppJs.onMinSamplesInput, AppJs.onSpeedModeChange, AppJs.onAggregatedClick,
      AppJs.onTripClick;
    frame.
Qed.

Lemma bike_handler_frame CONFIG l ev :
  is_load ev = false -> preserves same_frame (BikeApp.handler CONFIG l ev).
Proof.
  intros Hev. unfold BikeApp.handler.
  destruct l, ev; try discriminate Hev;
    unfold BikeApp.onSpeedColorsChange, BikeApp.onSpeedModeChange, BikeApp.restyle_all,
      BikeApp.onTripClick, BikeApp.onMapClick, BikeApp.onStatsTimeout,
      BikeApp.show_summary;
    frame.
Qed.

End FrameFacts.

(** ** Events *)

Lemma frame_browser_default ev : preserves same_frame (browser_default ev).
Proof. unfold browser_default. destruct ev; frame. Qed.

Lemma dispatch_preserves (R : relation World) `{!PreOrder R} handler ev :
  (forall msg, preserves R (console_error msg)) ->
  preserves R (browser_default ev) ->
  (forall l, preserves R (handler l ev)) ->
  preserves R (browser_after ev) ->
  preserves R (dispatch handler ev).
Proof.
  intros Hc Hd Hh Ha. unfold dispatch.
  apply preserves_bind; [apply _|done|intros _].
  apply preserves_bind; [apply _|apply preserves_gets; apply _|intros ls].
  apply preserves_bind; [apply _| |done].
  apply preserves_forEach; [apply _|intros l].
  apply preserves_try_catch; [apply _|apply Hh|intros e; apply Hc].
Qed.

Lemma frame_console_error msg : preserves same_frame (console_error msg).
Proof. frame. Qed.

Lemma trips_browser_after ev : preserves same_trips (browser_after ev).
Proof. unfold browser_after. destruct ev; frame. Qed.

Lemma frame_browser_after ev : is_timer ev = false -> preserves same_frame (browser_after ev).
Proof. intros H. unfold browser_after. destruct ev; try discriminate H; frame. Qed.

(** An event other than the load and a timer leaves the frame alone. *)
Lemma step_frame handler ev w :
  (forall l, preserves same_frame (handler l ev)) ->
  is_timer ev = false ->
  same_frame w (step handler w ev).
Proof.
  intros Hh Ht. apply (dispatch_preserves same_frame); auto using frame_console_error,
    frame_browser_default, frame_browser_after.
Qed.

(** Any event other than the load leaves the trips alone. *)
Lemma step_trips handler ev w :
  (forall l, preserves same_frame (handler l ev)) ->
  same_trips w (step handler w ev).
Proof.
  intros Hh. apply (dispatch_preserves same_trips).
  - intros msg. eapply preserves_weaken; [apply same_frame_trips|apply frame_console_error].
  - eapply preserves_weaken; [apply same_frame_trips|apply frame_browser_default].
  - intros l. eapply preserves_weaken; [apply same_frame_trips|apply Hh].
  - apply trips_browser_after.
Qed.

Lemma steps_trips handler evs w :
  (forall l ev, is_load ev = false -> preserves same_frame (handler l ev)) ->
  Forall (fun ev => is_load ev = false) evs ->
  same_trips w (steps handler w evs).
Proof.
  intros Hh Hevs. unfold steps.
  apply (preserves_fold same_trips evs (step handler) (fun ev => is_load ev = false)); [|done].
  intros w' ev Hev. apply step_trips. intros l. by apply Hh.
Qed.

Lemma nothrow_browser_default ev : nothrow (browser_default ev).
Proof.
  unfold browser_default. apply nothrow_bind; [apply nothrow_modify|intros _].
  destruct ev; first [apply nothrow_modify|apply (nothrow_ret tt)].
Qed.

Lemma listeners_browser_default ev w :
  listeners (run (browser_default ev) w) = listeners w.
Proof. apply (frame_browser_default ev w). Qed.

(** The world after an event, listener by listener. *)
Lemma step_unfold handler ev w :
  step handler w ev
  = run (browser_after ev)
      (run (forEach (List.filter (matches ev) (listeners w))
                    (fun l => uncaught (handler l ev)))
           (run (browser_default ev) w)).
Proof.
  unfold step, dispatch.
  rewrite run_seq by apply nothrow_browser_default.
  rewrite run_gets, listeners_browser_default.
  rewrite run_seq by (apply nothrow_forEach; intros l; apply nothrow_uncaught).
  reflexivity.
Qed.

Lemma run_uncaught_ok m w w' : m w = (Ok tt, w') -> run (uncaught m) w = w'.
Proof. intros H. unfold run, uncaught, try_catch. by rewrite H. Qed.

Lemma run_uncaught_nothrow m w : nothrow m -> run (uncaught m) w = run m w.
Proof. intros H. unfold run, uncaught. by rewrite try_catch_nothrow. Qed.

(** ** The trip list after the load *)

Lemma try_catch_bind_ok {A B} (m : M A) (k : A -> M B) h w a w1 :
  m w = (Ok a, w1) -> try_catch (m ≫= k) h w = try_catch (k a) h w1.
Proof. intros H. unfold try_catch. rewrite bind_unfold, H. reflexivity. Qed.

Lemma try_catch_bind_thrown {A B} (m : M A) (k : A -> M B) h w e w1 :
  m w = (Thrown e, w1) -> try_catch (m ≫= k) h w = h e w1.
Proof. intros H. unfold try_catch. rewrite bind_unfold, H. reflexivity. Qed.

Lemma preserved_tripLayers {A} (m : M A) w :
  preserves same_tripLayers m ->
  tripLayers (globals (run m w)) = tripLayers (globals w).
Proof. intros H. apply H. Qed.

Module TripListFacts.

Lemma app_setupTripControls_trips : preserves same_tripLayers AppJs.setupTripControls.
Proof. unfold AppJs.setupTripControls. frame. Qed.

Lemma app_setupAggregatedControls_trips :
  preserves same_tripLayers AppJs.setupAggregatedControls.
Proof. unfold AppJs.setupAggregatedControls. frame. Qed.

Lemma app_loadAggregated_trips CONFIG net :
  preserves same_tripLayers (AppJs.loadAggregated CONFIG net).
Proof.
  unfold AppJs.loadAggregated.
  apply preserves_try_catch; [apply _| |intros e; frame].
  apply preserves_bind; [apply _|frame|intros _].
  apply preserves_bind; [apply _|frame|intros data].
  apply preserves_bind; [apply _|frame|intros fs].
  apply preserves_bind; [apply _|frame|intros _].
  apply preserves_bind; [apply _|frame|intros _].
  apply preserves_bind; [apply _|frame|intros _].
  apply preserves_bind; [apply _|frame|intros _].
  apply app_setupAggregatedControls_trips.
Qed.

Lemma nothrow_app_loadTrips CONFIG net : nothrow (AppJs.loadTrips CONFIG net).
Proof. apply nothrow_try_catch. intros e. apply nothrow_console_error. Qed.

Lemma nothrow_app_loadAggregated CONFIG net : nothrow (AppJs.loadAggregated CONFIG net).
Proof. apply nothrow_try_catch. intros e. apply nothrow_console_error. Qed.

Lemma app_onLoad_run CONFIG net w :
  run (AppJs.onLoad CONFIG net) w
  = run (AppJs.loadAggregated CONFIG net)
      (run (AppJs.loadTrips CONFIG net)
         (run (console_log "Base map loaded, now loading data...") w)).
Proof.
  unfold AppJs.onLoad.
  rewrite run_seq by apply nothrow_console_log.
  rewrite run_seq by apply nothrow_app_loadTrips.
  reflexivity.
Qed.

Lemma app_loadTrips_tripLayers CONFIG net md w :
  trips_metadata net = Ok md ->
  sources (map w) !! "trips" = None ->
  tripLayers (globals w) = [] ->
  tripLayers (globals (run (AppJs.loadTrips CONFIG net) w))
  = vl_id <$> default [] (vector_layers md).
Proof.
  intros Hmd Hsrc Hnil. unfold AppJs.loadTrips, run.
  erewrite try_catch_bind_ok; [|reflexivity].
  erewrite try_catch_bind_ok; [|unfold addSource; exec; rewrite Hsrc; reflexivity].
  rewrite Hmd.
  erewrite try_catch_bind_ok; [|reflexivity].
  erewrite try_catch_bind_ok; [|reflexivity].
  destruct (vector_layers md) as [declared|] eqn:Hvl.
  - erewrite try_catch_bind_ok; [|reflexivity].
    erewrite try_catch_bind_ok; [|reflexivity].
    match goal with |- tripLayers (globals (snd (?m ?w0))) = _ =>
      change (tripLayers (globals (run m w0)) = vl_id <$> declared) end.
    rewrite preserved_tripLayers; [reflexivity|].
    apply preserves_try_catch; [apply _| |intros e; frame].
    apply preserves_bind; [apply _|frame|intros _].
    apply preserves_bind; [apply _|frame|intros tl].
    apply preserves_bind; [apply _|frame|intros _].
    apply preserves_bind; [apply _|frame|intros _].
    apply preserves_bind; [apply _|frame|intros _].
    apply preserves_bind; [apply _|apply app_setupTripControls_trips|intros _].
    unfold AppJs.updateStats. frame.
  - erewrite try_catch_bind_thrown; [|reflexivity].
    exec. exact Hnil.
Qed.

End TripListFacts.

Module LoadedFacts.

(** The world in which the map's load event has been delivered to the
    freshly started script of [src/app.js]. *)
Definition app_loaded (CONFIG : Config) (d : Dom) (net : Network) : World :=
  step (AppJs.handler CONFIG) (run (AppJs.startup CONFIG) (page d)) (MapLoaded net).

(** The same for the revision with highlighting. *)
Definition bike_loaded (CONFIG : Config) (d : Dom) (net : Network) : World :=
  step (BikeApp.handler CONFIG) (run (BikeApp.startup CONFIG) (page d)) (MapLoaded net).

Lemma nothrow_app_onLoad CONFIG net : nothrow (AppJs.onLoad CONFIG net).
Proof.
  unfold AppJs.onLoad.
  apply nothrow_bind; [apply nothrow_console_log|intros _].
  apply nothrow_bind; [apply TripListFacts.nothrow_app_loadTrips|intros _].
  apply TripListFacts.nothrow_app_loadAggregated.
Qed.

Definition app_started (CONFIG : Config) (d : Dom) : World :=
  run (AppJs.startup CONFIG) (page d).

Lemma app_started_facts CONFIG d :
  listeners (app_started CONFIG d) = [OnMapError; OnMapLoad 0; OnMapLoad 1]
  /\ sources (map (app_started CONFIG d)) = ∅
  /\ layers (map (app_started CONFIG d)) = ∅
  /\ tripLayers (globals (app_started CONFIG d)) = []
  /\ document (app_started CONFIG d) = d.
Proof.
  unfold app_started, AppJs.startup, AppJs.newMap, page.
  destruct (AppJs.token_not_configured (MAPBOX_TOKEN CONFIG)); exec; by repeat split.
Qed.

Lemma app_loaded_run CONFIG d net :
  app_loaded CONFIG d net
  = run (AppJs.onLoad CONFIG net)
      (run (console_log "Base map loaded successfully")
         (set_defaultPrevented false (app_started CONFIG d))).
Proof.
  unfold app_loaded. fold (app_started CONFIG d).
  destruct (app_started_facts CONFIG d) as (Hl & _).
  rewrite step_unfold, Hl.
  cbn [List.filter matches forEach AppJs.handler].
  rewrite run_seq by apply nothrow_uncaught.
  rewrite run_seq by apply nothrow_uncaught.
  rewrite !run_uncaught_nothrow
    by first [apply nothrow_console_log|apply nothrow_app_onLoad].
  reflexivity.
Qed.

Lemma nothrow_bike_onLoad CONFIG net : nothrow (BikeApp.onLoad CONFIG net).
Proof.
  unfold BikeApp.onLoad.
  apply nothrow_bind; [apply nothrow_console_log|intros _].
  apply nothrow_try_catch. intros e. apply nothrow_console_error.
Qed.

Definition bike_started (CONFIG : Config) (d : Dom) : World :=
  run (BikeApp.startup CONFIG) (page d).

Lemma bike_started_listeners CONFIG d :
  listeners (bike_started CONFIG d) = [OnMapError; OnMapLoad 0].
Proof. reflexivity. Qed.

Lemma bike_loaded_run CONFIG d net :
  bike_loaded CONFIG d net
  = run (BikeApp.onLoad CONFIG net) (set_defaultPrevented false (bike_started CONFIG d)).
Proof.
  unfold bike_loaded. fold (bike_started CONFIG d).
  rewrite step_unfold, bike_started_listeners.
  cbn [List.filter matches forEach BikeApp.handler].
  rewrite run_seq by apply nothrow_uncaught.
  rewrite run_uncaught_nothrow by apply nothrow_bike_onLoad.
  reflexivity.
Qed.

Lemma bike_onLoad_tripLayers CONFIG net md w :
  trips_metadata net = Ok md ->
  tripLayers (globals (run (BikeApp.onLoad CONFIG net) w))
  = vl_id <$> default [] (vector_layers md).
Proof.
  intros Hmd. unfold BikeApp.onLoad.
  rewrite run_seq by apply nothrow_console_log.
  unfold run at 1.
  erewrite try_catch_bind_ok; [|reflexivity].
  rewrite Hmd.
  erewrite try_catch_bind_ok; [|reflexivity].
  erewrite try_catch_bind_ok; [|reflexivity].
  erewrite try_catch_bind_ok; [|reflexivity].
  match goal with |- tripLayers (globals (snd (?m ?w0))) = _ =>
    change (tripLayers (globals (run m w0))
            = vl_id <$> default [] (vector_layers md)) end.
  rewrite preserved_tripLayers; [reflexivity|].
  apply preserves_try_catch; [apply _| |intros e; frame].
  apply preserves_bind; [apply _|frame|intros _].
  apply preserves_bind; [apply _|frame|intros _].
  apply preserves_bind; [apply _|frame|intros tl].
  apply preserves_bind; [apply _|frame|intros _].
  apply preserves_bind; [apply _|frame|intros _].
  apply preserves_bind; [apply _|frame|intros _].
  apply preserves_bind; [apply _|frame|intros _].
  apply preserves_bind; [apply _|unfold BikeApp.setupControls; frame|intros _].
  apply preserves_bind; [apply _|unfold BikeApp.setupClickHandlers; frame|intros _].
  unfold BikeApp.loadAllTripData, BikeApp.trip_count. frame.
Qed.

(** C8.  Once the load event has been handled and the tile source's
    metadata was obtained, the trip list is the list of layer ids the
    metadata declares under [vector_layers] (in that order; none when
    the entry is missing), in [src/app.js] and in the revision with
    highlighting.  No event delivered afterwards (selection, filtering,
    toggling, styling, the statistics timer) changes the trip list or
    the set of layer ids in the map's style. *)
Theorem trip_layers_are_the_declared_layers
    (CONFIG : Config) (d : Dom) (net : Network) (md : Metadata) (evs : list event) :
  trips_metadata net = Ok md ->
  Forall (fun ev => is_load ev = false) evs ->
  (tripLayers (globals (app_loaded CONFIG d net))
     = vl_id <$> default [] (vector_layers md)
   /\ same_trips (app_loaded CONFIG d net)
                 (steps (AppJs.handler CONFIG) (app_loaded CONFIG d net) evs))
  /\ (tripLayers (globals (bike_loaded CONFIG d net))
     = vl_id <$> default [] (vector_layers md)
   /\ same_trips (bike_loaded CONFIG d net)
                 (steps (BikeApp.handler CONFIG) (bike_loaded CONFIG d net) evs)).
Proof.
  intros Hmd Hevs. split; split.
  - rewrite app_loaded_run, TripListFacts.app_onLoad_run.
    rewrite preserved_tripLayers by apply TripListFacts.app_loadAggregated_trips.
    destruct (app_started_facts CONFIG d) as (_ & Hs & _ & Ht & _).
    apply TripListFacts.app_loadTrips_tripLayers; [done| |].
    + exec. rewrite Hs. apply lookup_empty.
    + exec. exact Ht.
  - apply steps_trips; [|done]. intros l ev. apply FrameFacts.app_handler_frame.
  - rewrite bike_loaded_run. by apply bike_onLoad_tripLayers.
  - apply steps_trips; [|done]. intros l ev. apply FrameFacts.bike_handler_frame.
Qed.

End LoadedFacts.

(* ===================================================================== *)
(** * Selection and highlight                                            *)
(* ===================================================================== *)

(** Everything but the console and the event flag. *)
Record only_console (w w' : World) : Prop := {
  oc_map : map w' = map w;
  oc_dom : document w' = document w;
  oc_globals : globals w' = globals w;
  oc_alerts : alerts w' = alerts w;
  oc_listeners : listeners w' = listeners w
}.

#[global] Instance only_console_preorder : PreOrder only_console.
Proof.
  split; [by intros w|]. intros w1 w2 w3 [] []. split; congruence.
Qed.

(** A frame condition that holds from the states satisfying [P]. *)
Definition preserves_from {A} (P : World -> Prop) (R : relation World) (m : M A) : Prop :=
  forall w, P w -> R w (run m w).

Lemma preserves_from_forEach {A} (P : World -> Prop) (R : relation World) `{!PreOrder R}
    (l : list A) (f : A -> M unit) :
  (forall w w', P w -> R w w' -> P w') ->
  (forall x, x ∈ l -> preserves_from P R (f x)) ->
  preserves_from P R (forEach l f).
Proof.
  intros Hclosed. induction l as [|x l IH]; intros Hf w HP; simpl.
  - reflexivity.
  - assert (Hx : R w (run (f x) w)) by (apply Hf; [left|done]).
    unfold run in *. rewrite bind_unfold.
    destruct (f x w) as [[[]|e] w1]; simpl in *; [|done].
    etrans; [exact Hx|]. apply IH; [|by eapply Hclosed].
    intros y Hy. apply Hf. by right.
  Qed.

Lemma nothrow_result (m : M unit) w : nothrow m -> m w = (Ok tt, run m w).
Proof.
  intros Hm. destruct (Hm w) as [[] Ha]. unfold run.
  destruct (m w) as [[[]|e] w']; simpl in *; [done|discriminate].
Qed.

Module SelectionFacts.
Import BikeApp.

Lemma background_matches point rendered l :
  matches (MapClick point ∅ rendered) l = true -> l = OnMapClick.
Proof.
  destruct l; simpl; try congruence.
  rewrite lookup_empty. intros H. apply bool_decide_eq_true in H. by destruct H.
Qed.

Lemma onMapClick_unselected w :
  selectedTrip (globals w) = None ->
  onMapClick w
  = (Ok tt, with_console (fun c => c ++ [ConsoleLog "Map background clicked, defaultPrevented:"]) w).
Proof.
  intros H. unfold onMapClick. exec. rewrite H.
  rewrite andb_false_r. reflexivity.
Qed.

(** C9.  A click on the map background while no trip is selected makes
    no call on the map and changes neither the style (opacity and width
    of every layer included), the popups and the camera, nor the page,
    the script's variables or the listeners: the listener only writes
    its line to the console. *)
Theorem background_click_without_selection
    (CONFIG : Config) (w : World) (point : float * float) (rendered : string -> list properties) :
  selectedTrip (globals w) = None ->
  calls (map (step (handler CONFIG) w (MapClick point ∅ rendered))) = calls (map w)
  /\ only_console w (step (handler CONFIG) w (MapClick point ∅ rendered)).
Proof.
  intros Hsel.
  assert (H : only_console w (step (handler CONFIG) w (MapClick point ∅ rendered))).
  { rewrite step_unfold.
    change (run (browser_after (MapClick point ∅ rendered)) ?x) with x.
    set (w0 := run (browser_default (MapClick point ∅ rendered)) w).
    assert (H0 : only_console w w0) by (by split).
    assert (Hsel0 : selectedTrip (globals w0) = None) by exact Hsel.
    etrans; [exact H0|]. clear H0.
    apply (preserves_from_forEach
             (fun w => selectedTrip (globals w) = None) only_console); [| |done].
    - intros w1 w2 Hw1 [_ _ Hg _ _]. by rewrite Hg.
    - intros l Hl w1 Hw1.
      apply list_elem_of_In, filter_In in Hl as [_ Hl].
      apply background_matches in Hl as ->.
      unfold run, uncaught, try_catch. cbn [handler].
      rewrite (onMapClick_unselected w1 Hw1). by split. }
  split; [|exact H]. by destruct H as [-> _ _ _ _].
Qed.

(** ** Clicking a trip *)

(** The body of the restyling loop in the click listener of [layerId]. *)
Definition highlight (layerId id : string) : M unit :=
  try_catch
    (if String.eqb id layerId then
       setPaintProperty id "line-opacity" (PNum 1.0);;
       setPaintProperty id "line-width" (PNum 4);;
       console_log ("Highlighted: " +:+ id)
     else
       setPaintProperty id "line-opacity" (PNum 0.15);;
       setPaintProperty id "line-width" (PNum 2);;
       console_log ("Faded: " +:+ id))
    (fun _ => console_error ("Error updating layer: " +:+ id)).

Definition opacity_for (layerId id : string) : float :=
  if String.eqb id layerId then 1.0 else 0.15.

Definition width_for (layerId id : string) : float :=
  if String.eqb id layerId then 4 else 2.

Definition styled (layerId id : string) (l : layer) : layer :=
  set_paint "line-width" (PNum (width_for layerId id))
    (set_paint "line-opacity" (PNum (opacity_for layerId id)) l).

Lemma nothrow_highlight layerId id : nothrow (highlight layerId id).
Proof. apply nothrow_try_catch. intros e. apply nothrow_console_error. Qed.

Lemma highlight_layers layerId id w l :
  layers (map w) !! id = Some l ->
  layers (map (run (highlight layerId id) w))
  = <[id := styled layerId id l]> (layers (map w)).
Proof.
  intros Hl. unfold highlight, styled, opacity_for, width_for, run, try_catch,
    setPaintProperty, update_layer.
  destruct (String.eqb id layerId); exec; rewrite Hl; exec;
    rewrite lookup_insert_eq; exec; by rewrite insert_insert_eq.
Qed.

Lemma styled_paint layerId id l :
  paint (styled layerId id l) !! "line-opacity" = Some (PNum (opacity_for layerId id))
  /\ paint (styled layerId id l) !! "line-width" = Some (PNum (width_for layerId id)).
Proof.
  unfold styled, set_paint. cbn [paint]. split.
  - rewrite lookup_insert_ne by done. apply lookup_insert_eq.
  - apply lookup_insert_eq.
Qed.

(** A layer with the given line-opacity and line-width. *)
Definition has_style (w : World) (id : string) (opacity width : float) : Prop :=
  paint_of w id "line-opacity" = Some (PNum opacity)
  /\ paint_of w id "line-width" = Some (PNum width).

Lemma has_style_styled w layerId id l :
  layers (map w) !! id = Some (styled layerId id l) ->
  has_style w id (opacity_for layerId id) (width_for layerId id).
Proof.
  intros H. unfold has_style, paint_of. rewrite H. cbn.
  apply styled_paint.
Qed.

Lemma highlight_loop layerId (tl : list string) :
  forall w,
    (forall id, id ∈ tl -> is_Some (layers (map w) !! id)) ->
    (forall id, id ∈ tl ->
       has_style (run (forEach tl (highlight layerId)) w) id
                 (opacity_for layerId id) (width_for layerId id))
    /\ (forall id, id ∉ tl ->
         layers (map (run (forEach tl (highlight layerId)) w)) !! id
         = layers (map w) !! id).
Proof.
  induction tl as [|x tl IH]; intros w Hex.
  - split; [intros id Hid; by apply elem_of_nil in Hid|done].
  - cbn [forEach]. rewrite run_seq by apply nothrow_highlight.
    destruct (Hex x) as [l Hl]; [by left|].
    pose proof (highlight_layers layerId x w l Hl) as Hw1.
    set (w1 := run (highlight layerId x) w) in *.
    destruct (IH w1) as [IH1 IH2].
    { intros id Hid. rewrite Hw1. destruct (decide (x = id)) as [->|Hne].
      - rewrite lookup_insert_eq. by eexists.
      - rewrite lookup_insert_ne by done. apply Hex. by right. }
    split.
    + intros id Hid. destruct (decide (id ∈ tl)) as [Hin|Hnin]; [by apply IH1|].
      apply elem_of_cons in Hid as [->|Hid]; [|done].
      apply (has_style_styled _ layerId x l).
      rewrite IH2 by done. rewrite Hw1. apply lookup_insert_eq.
    + intros id Hid. apply not_elem_of_cons in Hid as [Hne Hnin].
      rewrite IH2 by done. rewrite Hw1. by rewrite lookup_insert_ne.
Qed.

(** What the restyling loop and the rest of the click listener leave
    alone. *)
Record same_selection (w w' : World) : Prop := {
  ss_layers : layers (map w') = layers (map w);
  ss_globals : globals w' = globals w;
  ss_prevented : defaultPrevented w' = defaultPrevented w
}.

#[global] Instance same_selection_preorder : PreOrder same_selection.
Proof.
  split; [by intros w|]. intros w1 w2 w3 [] []. split; congruence.
Qed.

Record same_variables (w w' : World) : Prop := {
  sv_globals : globals w' = globals w;
  sv_prevented : defaultPrevented w' = defaultPrevented w
}.

#[global] Instance same_variables_preorder : PreOrder same_variables.
Proof.
  split; [by intros w|]. intros w1 w2 w3 [] []. split; congruence.
Qed.

Lemma variables_update_layer id f : preserves same_variables (update_layer id f).
Proof.
  intros w. unfold update_layer, fire_error. exec.
  destruct (layers (map w) !! id); [by split|].
  exec. destruct (existsb _ _); by split.
Qed.

Lemma highlight_variables layerId id : preserves same_variables (highlight layerId id).
Proof.
  unfold highlight, setPaintProperty.
  apply preserves_try_catch; [apply _| |intros e; frame].
  destruct (String.eqb id layerId);
    repeat first [ apply variables_update_layer
                 | apply preserves_bind; [apply _| |intros ?]
                 | frame_modify
                 | progress autounfold with handlers ].
Qed.

Lemma onMapClick_prevented w :
  defaultPrevented w = true ->
  onMapClick w
  = (Ok tt, with_console (fun c => c ++ [ConsoleLog "Map background clicked, defaultPrevented:"]) w).
Proof. intros H. unfold onMapClick. exec. rewrite H. reflexivity. Qed.

(** The click listener of a trip layer: the world after it. *)
Lemma onTripClick_effect layerId point props rendered w :
  (forall id, id ∈ tripLayers (globals w) -> is_Some (layers (map w) !! id)) ->
  let w' := run (uncaught (onTripClick layerId point props rendered)) w in
  selectedTrip (globals w') = Some layerId
  /\ tripLayers (globals w') = tripLayers (globals w)
  /\ defaultPrevented w' = true
  /\ (forall id, id ∈ tripLayers (globals w) ->
        has_style w' id (opacity_for layerId id) (width_for layerId id))
  /\ (forall id, id ∉ tripLayers (globals w) ->
        layers (map w') !! id = layers (map w) !! id).
Proof.
  intros Hex. cbv zeta. unfold uncaught, onTripClick, run.
  erewrite try_catch_bind_ok; [|reflexivity].
  erewrite try_catch_bind_ok; [|reflexivity].
  erewrite try_catch_bind_ok; [|reflexivity].
  erewrite try_catch_bind_ok; [|reflexivity].
  fold (highlight layerId).
  set (w0 := with_globals _ _).
  erewrite try_catch_bind_ok; [|apply nothrow_result, nothrow_forEach, nothrow_highlight].
  set (w1 := run (forEach _ _) w0).
  assert (Hv : same_variables w0 w1).
  { apply (preserves_forEach same_variables). intros id. apply highlight_variables. }
  destruct (highlight_loop layerId (tripLayers (globals w)) w0 Hex) as [Hst Hout].
  fold w1 in Hst, Hout.
  match goal with |- context [snd (try_catch ?m ?h w1)] =>
    assert (Ht : same_selection w1 (run (try_catch m h) w1)) end.
  { apply preserves_try_catch; [apply _| |intros e; frame]. frame. }
  unfold run in Ht. destruct Ht as [Hl Hg Hp]. destruct Hv as [Hg1 Hp1].
  rewrite Hg, Hp, Hg1, Hp1.
  split; [reflexivity|]. split; [reflexivity|]. split; [reflexivity|]. split.
  - intros id Hid. destruct (Hst id Hid) as [Ho Hw].
    unfold has_style, paint_of in *. by rewrite Hl.
  - intros id Hid. rewrite Hl. by apply Hout.
Qed.

Lemma opacity_width_selected layerId :
  opacity_for layerId layerId = 1.0 /\ width_for layerId layerId = 4.
Proof. unfold opacity_for, width_for. by rewrite String.eqb_refl. Qed.

Lemma opacity_width_other layerId id :
  id <> layerId -> opacity_for layerId id = 0.15 /\ width_for layerId id = 2.
Proof.
  intros H. unfold opacity_for, width_for.
  by rewrite (proj2 (String.eqb_neq id layerId) H).
Qed.

Lemma faded_is_not_highlighted w id : has_style w id 0.15 2 -> ~ has_style w id 1.0 4.
Proof.
  intros [Ho _] [Ho' _]. rewrite Ho in Ho'.
  apply (f_equal (fun v => match v with Some (PNum x) => PrimFloat.eqb x 1.0 | _ => true end))
    in Ho'.
  vm_compute in Ho'. discriminate.
Qed.

Lemma faded_is_not_default w id : has_style w id 0.15 2 -> ~ has_style w id 0.7 3.
Proof.
  intros [Ho _] [Ho' _]. rewrite Ho in Ho'.
  apply (f_equal (fun v => match v with Some (PNum x) => PrimFloat.eqb x 0.7 | _ => true end))
    in Ho'.
  vm_compute in Ho'. discriminate.
Qed.

Lemma run_forEach_app {A} (l1 l2 : list A) (f : A -> M unit) w :
  (forall x, nothrow (f x)) ->
  run (forEach (l1 ++ l2) f) w = run (forEach l2 f) (run (forEach l1 f) w).
Proof.
  intros Hf. revert w. induction l1 as [|x l1 IH]; intros w; [reflexivity|].
  cbn [app forEach]. rewrite !run_seq by apply Hf. apply IH.
Qed.

(** A click that reaches the click listeners of the trips [before], then
    that of trip [B], then the background listener. *)
Lemma click_effect CONFIG w B before point hit rendered :
  (forall id, id ∈ tripLayers (globals w) -> is_Some (layers (map w) !! id)) ->
  List.filter (matches (MapClick point hit rendered)) (listeners w)
    = (OnLayerClick <$> before) ++ [OnLayerClick B; OnMapClick] ->
  let w' := step (handler CONFIG) w (MapClick point hit rendered) in
  selectedTrip (globals w') = Some B
  /\ tripLayers (globals w') = tripLayers (globals w)
  /\ (forall id, id ∈ tripLayers (globals w) ->
        has_style w' id (opacity_for B id) (width_for B id)).
Proof.
  intros Hex Hls. cbv zeta.
  assert (Hhit : is_Some (hit !! B)).
  { assert (Hin : OnLayerClick B
                  ∈ List.filter (matches (MapClick point hit rendered)) (listeners w)).
    { rewrite Hls. apply elem_of_app. right. apply list_elem_of_here. }
    apply list_elem_of_In, filter_In in Hin as [_ Hin].
    by apply bool_decide_eq_true in Hin. }
  destruct Hhit as [props Hhit].
  rewrite step_unfold, Hls.
  rewrite run_forEach_app by (intros l; apply nothrow_uncaught).
  change (run (browser_after (MapClick point hit rendered)) ?x) with x.
  set (w0 := run (browser_default _) w).
  set (w0' := run (forEach (OnLayerClick <$> before) _) w0).
  assert (Hf : same_frame w0 w0').
  { apply (preserves_forEach same_frame). intros l.
    apply preserves_try_catch; [apply _| |intros e; apply frame_console_error].
    by apply FrameFacts.bike_handler_frame. }
  destruct Hf as [Htl Hdom _ _ _].
  assert (Hex' : forall id, id ∈ tripLayers (globals w0') -> is_Some (layers (map w0') !! id)).
  { intros id Hid. rewrite Htl in Hid. apply elem_of_dom. rewrite Hdom.
    apply elem_of_dom. by apply Hex. }
  cbn [forEach handler]. rewrite Hhit.
  rewrite run_seq by apply nothrow_uncaught.
  rewrite run_seq by apply nothrow_uncaught.
  change (run (mret tt) ?x) with x.
  destruct (onTripClick_effect B point props (rendered B) w0' Hex')
    as (Hsel & Htl' & Hp & Hst & _).
  set (w1 := run (uncaught (onTripClick B point props (rendered B))) w0') in *.
  rewrite (run_uncaught_ok _ _ _ (onMapClick_prevented w1 Hp)).
  split; [exact Hsel|]. split; [exact (eq_trans Htl' Htl)|].
  intros id Hid. apply (Hst id). rewrite Htl. exact Hid.
Qed.

(** C1 (as amended).  After a click on a feature of trip [A] and then a
    click on a feature of a different trip [B], at a point where [B] is
    the only trip with a feature or, of the trips with a feature there,
    the one whose click listener was registered last, the selected trip
    is [B]; [B] is the one trip in the highlighted style (opacity 1.0,
    width 4); every other trip, [A] included, is in the faded style
    (opacity 0.15, width 2), which is neither the highlighted nor the
    default style. *)
Theorem second_click_replaces_highlight
    (CONFIG : Config) (w : World) (A B : string) (before : list string)
    (pointA pointB : float * float) (hitA hitB : gmap string properties)
    (renderedA renderedB : string -> list properties) :
  A <> B ->
  A ∈ tripLayers (globals w) ->
  B ∈ tripLayers (globals w) ->
  (forall id, id ∈ tripLayers (globals w) -> is_Some (layers (map w) !! id)) ->
  is_Some (hitA !! A) ->
  List.filter (matches (MapClick pointB hitB renderedB)) (listeners w)
    = (OnLayerClick <$> before) ++ [OnLayerClick B; OnMapClick] ->
  let w' := steps (handler CONFIG) w
              [MapClick pointA hitA renderedA; MapClick pointB hitB renderedB] in
  selectedTrip (globals w') = Some B
  /\ has_style w' B 1.0 4
  /\ has_style w' A 0.15 2
  /\ (forall id, id ∈ tripLayers (globals w') ->
        (has_style w' id 1.0 4 <-> id = B)
        /\ (id <> B -> has_style w' id 0.15 2 /\ ~ has_style w' id 0.7 3)).
Proof.
  intros Hne HA HB Hex _ Hls. cbv zeta. unfold steps. cbn [fold_left].
  set (w1 := step (handler CONFIG) w (MapClick pointA hitA renderedA)).
  assert (Hf : same_frame w w1).
  { apply step_frame; [|done]. intros l. by apply FrameFacts.bike_handler_frame. }
  destruct Hf as [Htl Hdom _ Hlis _].
  assert (Hex1 : forall id, id ∈ tripLayers (globals w1) -> is_Some (layers (map w1) !! id)).
  { intros id Hid. rewrite Htl in Hid. apply elem_of_dom. rewrite Hdom.
    apply elem_of_dom. by apply Hex. }
  rewrite <- Hlis in Hls.
  destruct (click_effect CONFIG w1 B before pointB hitB renderedB Hex1 Hls)
    as (Hsel & Htl2 & Hst).
  set (w2 := step (handler CONFIG) w1 (MapClick pointB hitB renderedB)) in *.
  assert (Hstyle : forall id, id ∈ tripLayers (globals w) ->
            (id = B -> has_style w2 id 1.0 4) /\ (id <> B -> has_style w2 id 0.15 2)).
  { intros id Hid. rewrite <- Htl in Hid. specialize (Hst id Hid). split.
    - intros ->. by destruct (opacity_width_selected B) as [<- <-].
    - intros Hid'. by destruct (opacity_width_other B id Hid') as [<- <-]. }
  split; [exact Hsel|]. split; [by apply (Hstyle B HB)|].
  split; [by apply (Hstyle A HA)|].
  intros id Hid. rewrite Htl2, Htl in Hid. destruct (Hstyle id Hid) as [Hb Ho].
  split.
  - split; [|exact Hb]. intros Hh. destruct (decide (id = B)) as [|Hn]; [done|].
    by destruct (faded_is_not_highlighted w2 id (Ho Hn)).
  - intros Hn. split; [by apply Ho|]. by apply faded_is_not_default, Ho.
Qed.

(** ** Two rides, clicked one after the other *)

Definition two_rides : Network :=
  Build_Network
    (Ok (Build_Metadata (Some [Build_VectorLayer "ride_a"; Build_VectorLayer "ride_b"])))
    (Ok (Build_Header 4.8 5.0 52.3 52.4))
    (Thrown (NetworkError "not requested")).

Definition two_rides_loaded : World :=
  LoadedFacts.bike_loaded StatsFacts.sample_config StatsFacts.stats_page two_rides.

Definition clicked_a_then_b : World :=
  steps (handler StatsFacts.sample_config) two_rides_loaded
    [MapClick (4.9, 52.37) {["ride_a" := ∅]} (fun _ => []);
     MapClick (4.91, 52.38) {["ride_b" := ∅]} (fun _ => [])].

(** A click on a feature of ride_b, then a click on a feature of ride_a
    at a point where ride_b lies over it. *)
Definition clicked_b_then_both : World :=
  steps (handler StatsFacts.sample_config) two_rides_loaded
    [MapClick (4.9, 52.37) {["ride_b" := ∅]} (fun _ => []);
     MapClick (4.91, 52.38) {["ride_a" := ∅; "ride_b" := ∅]} (fun _ => [])].

(** The property as the specification words it: [B] highlighted and [A]
    back in the default style of the no-selection state. *)
Definition first_trip_back_to_default (w' : World) (A B : string) : Prop :=
  has_style w' B 1.0 4 /\ has_style w' A 0.7 3.

(** The first trip stays faded; and where two rides lie over each other
    the trip listed last is the one selected, whichever was meant. *)
Lemma first_trip_stays_faded :
  ~ first_trip_back_to_default clicked_a_then_b "ride_a" "ride_b"
  /\ ~ first_trip_back_to_default clicked_b_then_both "ride_b" "ride_a".
Proof.
  split.
  - intros [_ HA]. revert HA. apply faded_is_not_default.
    split; vm_compute; reflexivity.
  - intros [HB _]. revert HB. apply faded_is_not_highlighted.
    split; vm_compute; reflexivity.
Qed.

Lemma second_click_replaces_highlight_two_rides :
  selectedTrip (globals clicked_a_then_b) = Some "ride_b"
  /\ has_style clicked_a_then_b "ride_b" 1.0 4
  /\ has_style clicked_a_then_b "ride_a" 0.15 2.
Proof.
  assert (Htl : tripLayers (globals two_rides_loaded) = ["ride_a"; "ride_b"])
    by (vm_compute; reflexivity).
  destruct (second_click_replaces_highlight StatsFacts.sample_config two_rides_loaded
              "ride_a" "ride_b" [] (4.9, 52.37) (4.91, 52.38)
              {["ride_a" := ∅]} {["ride_b" := ∅]} (fun _ => []) (fun _ => []))
    as (H1 & H2 & H3 & _).
  - discriminate.
  - rewrite Htl. apply list_elem_of_here.
  - rewrite Htl. apply list_elem_of_further, list_elem_of_here.
  - intros id Hid. rewrite Htl in Hid.
    apply elem_of_cons in Hid as [->|Hid];
      [|apply elem_of_cons in Hid as [->|Hid]; [|by apply elem_of_nil in Hid]];
      vm_compute; eexists; reflexivity.
  - vm_compute. eexists. reflexivity.
  - vm_compute. reflexivity.
  - split; [exact H1|]. split; [exact H2|exact H3].
Defined.

End SelectionFacts.

(* ===================================================================== *)
(** * The aggregated-routes controls of [src/app.js]                     *)
(* ===================================================================== *)

Definition aggregated_layer : string := "aggregated-routes-layer".

Lemma steps_frame handler evs w :
  (forall l ev, is_load ev = false -> preserves same_frame (handler l ev)) ->
  Forall (fun ev => is_load ev = false /\ is_timer ev = false) evs ->
  same_frame w (steps handler w evs).
Proof.
  intros Hh Hevs. unfold steps.
  apply (preserves_fold same_frame evs (step handler)
           (fun ev => is_load ev = false /\ is_timer ev = false)); [|done].
  intros w' ev [Hl Ht]. apply step_frame; [|done]. intros l. by apply Hh.
Qed.

(** The radio group of the page. *)
Definition same_radio (w w' : World) : Prop :=
  radio (document w') = radio (document w).

#[global] Instance same_radio_preorder : PreOrder same_radio.
Proof. split; [by intros w|intros w1 w2 w3; unfold same_radio; congruence]. Qed.

Lemma radio_update_layer id f : preserves same_radio (update_layer id f).
Proof.
  intros w. unfold update_layer, fire_error. exec.
  destruct (_ !! id); [done|]. exec. by destruct (existsb _ _).
Qed.

Module AggregatedFacts.
Import AppJs.

Lemma app_handler_radio CONFIG l ev :
  is_load ev = false -> preserves same_radio (handler CONFIG l ev).
Proof.
  intros Hev. unfold handler.
  destruct l as [| | | | | | | |[|[|n]]|], ev; try discriminate Hev;
    unfold onTripsCheckboxChange, onSpeedSegmentsChange,
      onAggregatedCheckboxChange, onTripFilterChange, updateStats,
      onMinSamplesInput, onSpeedModeChange, onAggregatedClick, onTripClick;
    autounfold with handlers;
    repeat first
      [ apply radio_update_layer
      | apply preserves_ret; apply _
      | apply preserves_gets; apply _
      | apply preserves_element; apply _
      | apply preserves_checked_radio_value; apply _
      | frame_modify
      | apply preserves_bind; [apply _| |intros ?]
      | apply preserves_forEach; [apply _|intros ?]
      | apply preserves_when; [apply _|]
      | match goal with
        | |- preserves _ (if ?b then _ else _) => destruct b
        | |- preserves _ (match ?x with _ => _ end) => destruct x
        end ].
Qed.

(** Choosing a mode is what the page then shows as the checked radio. *)
Lemma mode_change_is_selected CONFIG w v :
  radio (document (step (handler CONFIG) w (RadioChange "speedMode" v))) !! "speedMode"
  = Some v.
Proof.
  rewrite step_unfold.
  change (run (browser_after (RadioChange "speedMode" v)) ?x) with x.
  set (w0 := run (browser_default (RadioChange "speedMode" v)) w).
  assert (H0 : radio (document w0) !! "speedMode" = Some v)
    by (unfold w0; exec; apply lookup_insert_eq).
  assert (H : same_radio w0
                (run (forEach (List.filter (matches (RadioChange "speedMode" v)) (listeners w))
                              (fun l => uncaught (handler CONFIG l (RadioChange "speedMode" v))))
                     w0)).
  { apply (preserves_forEach same_radio). intros l.
    apply preserves_try_catch; [apply _|by apply app_handler_radio|intros e].
    unfold console_error. frame_modify. }
  unfold same_radio in H. by rewrite H.
Qed.

(** The change listener of the aggregated checkbox, turned on. *)
Lemma toggle_on_colors w (l : layer) m :
  layers (map w) !! aggregated_layer = Some l ->
  radio (document w) !! "speedMode" = Some m ->
  paint_of (run (uncaught (onAggregatedCheckboxChange true)) w) aggregated_layer "line-color"
  = Some (PExpr (getAggregatedSpeedColorExpression m)).
Proof.
  intros Hl Hr.
  unfold paint_of, onAggregatedCheckboxChange, setLayoutProperty, setPaintProperty,
    update_layer, checked_radio_value, set_display, element, aggregated_layer in *.
  exec. rewrite Hl. exec. rewrite Hr. exec. rewrite lookup_insert_eq. exec.
  case_decide; exec; rewrite lookup_insert_eq; cbn; apply lookup_insert_eq.
Qed.

(** C4.  The aggregated checkbox is turned off, any events follow (the
    mode may be changed while the layer is hidden), and the checkbox is
    turned on again: the aggregated layer's line-color is then the
    aggregated colour expression of the mode that is selected at that
    moment, whatever it was before.  A mode change makes that mode the
    selected one. *)
Theorem aggregated_toggle_restores_current_mode
    (CONFIG : Config) (w : World) (evs : list event) (m : string) :
  List.filter (matches (CheckboxChange "aggregatedCheckbox" true)) (listeners w)
    = [OnChange "aggregatedCheckbox"] ->
  is_Some (layers (map w) !! aggregated_layer) ->
  Forall (fun ev => is_load ev = false /\ is_timer ev = false) evs ->
  radio (document (steps (handler CONFIG) w
                     (CheckboxChange "aggregatedCheckbox" false :: evs))) !! "speedMode"
    = Some m ->
  paint_of (steps (handler CONFIG) w
              (CheckboxChange "aggregatedCheckbox" false :: evs
                 ++ [CheckboxChange "aggregatedCheckbox" true]))
           aggregated_layer "line-color"
    = Some (PExpr (getAggregatedSpeedColorExpression m))
  /\ (forall w0 v,
        radio (document (step (handler CONFIG) w0 (RadioChange "speedMode" v))) !! "speedMode"
        = Some v).
Proof.
  intros Hls Hex Hevs Hm. split; [|intros w0 v; apply mode_change_is_selected].
  rewrite app_comm_cons. unfold steps in *. rewrite fold_left_app.
  set (hidden := fold_left (step (handler CONFIG))
                           (CheckboxChange "aggregatedCheckbox" false :: evs) w) in *.
  change (fold_left (step (handler CONFIG)) [CheckboxChange "aggregatedCheckbox" true] hidden)
    with (step (handler CONFIG) hidden (CheckboxChange "aggregatedCheckbox" true)).
  assert (Hf : same_frame w hidden).
  { apply (steps_frame (handler CONFIG)
             (CheckboxChange "aggregatedCheckbox" false :: evs) w);
      [intros l ev; apply FrameFacts.app_handler_frame|].
    constructor; [by split|done]. }
  destruct Hf as [_ Hdom _ Hlis _].
  assert (Hex' : is_Some (layers (map hidden) !! aggregated_layer)).
  { apply elem_of_dom. rewrite Hdom. by apply elem_of_dom. }
  destruct Hex' as [l Hl].
  rewrite step_unfold, Hlis, Hls.
  cbn [forEach handler String.eqb Ascii.eqb Bool.eqb].
  rewrite run_seq by apply nothrow_uncaught.
  change (run (mret tt) ?x) with x.
  change (run (browser_after (CheckboxChange "aggregatedCheckbox" true)) ?x) with x.
  apply (toggle_on_colors _ l m); [exact Hl|exact Hm].
Qed.

End AggregatedFacts.

(** ** The minimum-sample-count slider *)

Module SliderFacts.
Import AppJs.

(** The value of a digit string read from the left with accumulator [a]. *)
Fixpoint uint_value (d : Decimal.uint) (a : N) : N :=
  match d with
  | Decimal.Nil => a
  | Decimal.D0 l => uint_value l (a * 10 + 0)
  | Decimal.D1 l => uint_value l (a * 10 + 1)
  | Decimal.D2 l => uint_value l (a * 10 + 2)
  | Decimal.D3 l => uint_value l (a * 10 + 3)
  | Decimal.D4 l => uint_value l (a * 10 + 4)
  | Decimal.D5 l => uint_value l (a * 10 + 5)
  | Decimal.D6 l => uint_value l (a * 10 + 6)
  | Decimal.D7 l => uint_value l (a * 10 + 7)
  | Decimal.D8 l => uint_value l (a * 10 + 8)
  | Decimal.D9 l => uint_value l (a * 10 + 9)
  end%N.

Lemma uint_value_pos (d : Decimal.uint) (p : positive) :
  uint_value d (N.pos p) = N.pos (Pos.of_uint_acc d p).
Proof.
  revert p. induction d; intros p; cbn [uint_value Pos.of_uint_acc]; [done|..];
    match goal with
    | |- uint_value _ ?a = N.pos (Pos.of_uint_acc _ ?q) =>
        replace a with (N.pos q) by lia; apply IHd
    end.
Qed.

Lemma uint_value_zero (d : Decimal.uint) : uint_value d 0 = N.of_uint d.
Proof.
  unfold N.of_uint. induction d; cbn [uint_value Pos.of_uint]; [done|exact IHd|..];
    match goal with
    | |- uint_value _ ?a = N.pos (Pos.of_uint_acc _ ?q) =>
        replace a with (N.pos q) by lia; apply uint_value_pos
    end.
Qed.

Lemma parse_digits_uint (d : Decimal.uint) (acc : option N) :
  JS.parse_digits 10 acc (NilEmpty.string_of_uint d)
  = match d with
    | Decimal.Nil => acc
    | _ => Some (uint_value d (default 0%N acc))
    end.
Proof.
  revert acc. induction d; intros acc; [done|..];
    cbn [NilEmpty.string_of_uint JS.parse_digits];
    match goal with
    | |- context [JS.digit_in 10 ?c] =>
        let r := eval vm_compute in (JS.digit_in 10 c) in
        change (JS.digit_in 10 c) with r; cbv iota
    end;
    rewrite IHd; destruct d; reflexivity.
Qed.

Lemma to_uint_normal (n : N) : N.to_uint n = Decimal.unorm (N.to_uint n).
Proof. rewrite <- (DecimalN.Unsigned.of_to n) at 1. apply DecimalN.Unsigned.to_of. Qed.

Lemma to_uint_nonnil (n : N) : N.to_uint n <> Decimal.Nil.
Proof. rewrite to_uint_normal. apply DecimalFacts.unorm_nonnil. Qed.

Lemma digits_string (n : N) : JS.digits n = NilEmpty.string_of_uint (N.to_uint n).
Proof.
  unfold JS.digits, NilZero.string_of_uint.
  pose proof (to_uint_nonnil n). by destruct (N.to_uint n).
Qed.

Lemma parse_digits_digits (n : N) : JS.parse_digits 10 None (JS.digits n) = Some n.
Proof.
  rewrite digits_string, parse_digits_uint.
  pose proof (to_uint_nonnil n) as Hn.
  assert (H : uint_value (N.to_uint n) 0 = n)
    by (rewrite uint_value_zero; apply DecimalN.Unsigned.of_to).
  destruct (N.to_uint n); [done|..]; cbn [default]; by rewrite H.
Qed.

Lemma nzhead_no_zero (d u : Decimal.uint) : Decimal.nzhead d <> Decimal.D0 u.
Proof. induction d; cbn [Decimal.nzhead]; done. Qed.

(** The digit string of a number starts with a digit, and with [0]
    only when it is "0". *)
Lemma digits_head (n : N) :
  JS.trim_start (JS.digits n) = JS.digits n
  /\ JS.strip_sign (JS.digits n) = (false, JS.digits n)
  /\ JS.prefix_ci "0x" (JS.digits n) = false.
Proof.
  rewrite digits_string. pose proof (to_uint_nonnil n) as Hn.
  pose proof (to_uint_normal n) as Hnorm.
  destruct (N.to_uint n) as [|d|d|d|d|d|d|d|d|d|d]; try done.
  (* a leading 0: the number is 0 *)
  assert (d = Decimal.Nil) as ->.
  { unfold Decimal.unorm in Hnorm. cbn [Decimal.nzhead] in Hnorm.
    pose proof (nzhead_no_zero d) as Hz.
    destruct (Decimal.nzhead d) eqn:E; try discriminate Hnorm.
    - by injection Hnorm.
    - by destruct (Hz u). }
  done.
Qed.

(** [parseInt] reads back the decimal string of an integer. *)
Lemma parseInt_decimal (k : Z) : JS.parseInt (JS.decimal k) = JS.of_Z k.
Proof.
  unfold JS.decimal. destruct (Z.ltb_spec k 0) as [Hk|Hk].
  - unfold JS.parseInt.
    change (JS.trim_start ("-" +:+ ?s)) with ("-" +:+ s).
    change (JS.strip_sign ("-" +:+ ?s)) with (true, s).
    destruct (digits_head (Z.to_N (- k))) as (_ & _ & ->).
    rewrite parse_digits_digits. f_equal. lia.
  - unfold JS.parseInt.
    destruct (digits_head (Z.to_N k)) as (-> & -> & ->).
    rewrite parse_digits_digits. f_equal. lia.
Qed.

(** What the installed filter admits. *)
Lemma sample_count_filter (n : float) (props : properties) :
  admits (EGe (EGet "sample_count") (ENum n)) props = true
  <-> exists x, props !! "sample_count" = Some (VNum x) /\ (n <=? x) = true.
Proof.
  unfold admits. cbn [evaluate].
  destruct (props !! "sample_count") as [[|b|x]|] eqn:E; cbn.
  - split; [discriminate|]. by intros (x & Hx & _).
  - split; [discriminate|]. by intros (x & Hx & _).
  - destruct (n <=? x) eqn:Hle.
    + split; [|done]. intros _. by exists x.
    + split; [discriminate|]. intros (y & Hy & Hle'). injection Hy as <-. congruence.
  - split; [discriminate|]. by intros (x & Hx & _).
Qed.

Lemma onMinSamplesInput_filter w (l : layer) value_ :
  "minSamplesValue" ∈ elements (document w) ->
  layers (map w) !! aggregated_layer = Some l ->
  filter_of (run (uncaught (onMinSamplesInput value_)) w) aggregated_layer
  = Some (EGe (EGet "sample_count") (ENum (JS.parseInt value_))).
Proof.
  intros He Hl.
  unfold filter_of, onMinSamplesInput, set_textContent, element, setFilter,
    update_layer, aggregated_layer in *.
  exec. rewrite decide_True by done. exec. rewrite Hl. exec.
  by rewrite lookup_insert_eq.
Qed.

(** C5.  Moving the slider to [k]: the listener installs on the
    aggregated layer the filter [['>=', ['get', 'sample_count'], k]],
    and that filter admits a feature exactly when the feature has a
    numeric [sample_count] that is [>= k]. *)
Theorem slider_installs_min_sample_filter (CONFIG : Config) (w : World) (k : Z) :
  List.filter (matches (SliderInput "minSamplesSlider" (JS.decimal k))) (listeners w)
    = [OnInput "minSamplesSlider"] ->
  "minSamplesValue" ∈ elements (document w) ->
  is_Some (layers (map w) !! aggregated_layer) ->
  filter_of (step (handler CONFIG) w (SliderInput "minSamplesSlider" (JS.decimal k)))
            aggregated_layer
    = Some (EGe (EGet "sample_count") (ENum (JS.of_Z k)))
  /\ (forall props : properties,
        admits (EGe (EGet "sample_count") (ENum (JS.of_Z k))) props = true
        <-> exists x, props !! "sample_count" = Some (VNum x)
                      /\ (JS.of_Z k <=? x) = true).
Proof.
  intros Hls He [l Hl]. split; [|intros props; apply sample_count_filter].
  rewrite step_unfold, Hls. cbn [forEach handler].
  rewrite run_seq by apply nothrow_uncaught.
  change (run (mret tt) ?x) with x.
  change (run (browser_after (SliderInput "minSamplesSlider" (JS.decimal k))) ?x) with x.
  change (run (ret tt) ?x) with x.
  rewrite (onMinSamplesInput_filter _ l); [|exact He|exact Hl].
  by rewrite parseInt_decimal.
Qed.

End SliderFacts.

(* ===================================================================== *)
(** * Failures while loading, in [src/app.js]                            *)
(* ===================================================================== *)

Module IsolationFacts.
Import AppJs.

Definition aggregated_line_layer : layer :=
  line_layer "aggregated-routes" None
             (PExpr (getAggregatedSpeedColorExpression "gradient")) 4 0.8 (Some "none").

(** What loading the aggregated routes leaves alone: the trip list,
    the trip source and every layer but its own. *)
Record trips_untouched (w w' : World) : Prop := {
  tu_tripLayers : tripLayers (globals w') = tripLayers (globals w);
  tu_source : sources (map w') !! "trips" = sources (map w) !! "trips";
  tu_layers : forall id, id <> aggregated_layer ->
                         layers (map w') !! id = layers (map w) !! id
}.

#[global] Instance trips_untouched_preorder : PreOrder trips_untouched.
Proof.
  split; [by intros w|]. intros w1 w2 w3 [H1 H2 H3] [H1' H2' H3']. split.
  - congruence.
  - congruence.
  - intros id Hid. rewrite H3' by done. by apply H3.
Qed.

Lemma untouched_addSource src :
  preserves trips_untouched (addSource "aggregated-routes" src).
Proof.
  intros w. unfold addSource. exec.
  destruct (_ !! "aggregated-routes"); split; try done.
  exec. by rewrite lookup_insert_ne.
Qed.

Lemma untouched_addLayer l : preserves trips_untouched (addLayer aggregated_layer l).
Proof.
  intros w. unfold addLayer, fire_error. exec.
  destruct (_ !! aggregated_layer); [|destruct (_ !! layer_source l)]; exec;
    try (destruct (existsb _ _)); split; try done.
  intros id Hid. exec. by rewrite lookup_insert_ne.
Qed.

Lemma untouched_loadAggregated CONFIG net :
  preserves trips_untouched (loadAggregated CONFIG net).
Proof.
  unfold loadAggregated.
  apply preserves_try_catch; [apply _| |intros e; unfold console_error; frame_modify].
  apply preserves_bind; [apply _|unfold console_log; frame_modify|intros _].
  apply preserves_bind; [apply _|apply preserves_await; apply _|intros data].
  apply preserves_bind; [apply _| |intros fs].
  { destruct (features data); [apply preserves_ret|apply preserves_throw]; apply _. }
  apply preserves_bind; [apply _|unfold console_log; frame_modify|intros _].
  apply preserves_bind; [apply _|apply untouched_addSource|intros _].
  apply preserves_bind; [apply _|apply untouched_addLayer|intros _].
  apply preserves_bind; [apply _|unfold console_log; frame_modify|intros _].
  unfold setupAggregatedControls, addEventListener, on.
  repeat first
    [ apply preserves_element; apply _
    | frame_modify
    | apply preserves_bind; [apply _| |intros ?] ].
Qed.

(** A failed trip fetch: the world after [loadTrips]. *)
Definition after_failed_trips (CONFIG : Config) (w : World) : World :=
  with_console (fun c => c ++ [ConsoleError "Error loading trips:"])
    (with_map (map_sources <["trips" := VectorSource (PMTILES_URL CONFIG)]>)
       (with_map (map_called (CallAddSource "trips"))
          (with_console
             (fun c => c ++ [ConsoleLog ("Fetching PMTiles from: " +:+ PMTILES_URL CONFIG)])
             w))).

Lemma loadTrips_failed CONFIG net w e :
  trips_metadata net = Thrown e ->
  sources (map w) !! "trips" = None ->
  loadTrips CONFIG net w = (Ok tt, after_failed_trips CONFIG w).
Proof.
  intros Hmd Hsrc. unfold loadTrips.
  erewrite try_catch_bind_ok; [|reflexivity].
  erewrite try_catch_bind_ok; [|unfold addSource; exec; rewrite Hsrc; reflexivity].
  rewrite Hmd.
  erewrite try_catch_bind_thrown; [|reflexivity].
  reflexivity.
Qed.

(** A failed aggregated fetch: the world after [loadAggregated]. *)
Definition after_failed_aggregated (CONFIG : Config) (w : World) : World :=
  with_console
    (fun c => c ++ [ConsoleLog ("Fetching aggregated routes from: "
                                +:+ AGGREGATED_ROUTES_URL CONFIG);
                    ConsoleError "Error loading aggregated routes:"]) w.

Lemma loadAggregated_failed CONFIG net w e :
  aggregated_routes net = Thrown e ->
  loadAggregated CONFIG net w = (Ok tt, after_failed_aggregated CONFIG w).
Proof.
  intros Hagg. unfold loadAggregated.
  erewrite try_catch_bind_ok; [|reflexivity].
  rewrite Hagg.
  erewrite try_catch_bind_thrown; [|reflexivity].
  unfold after_failed_aggregated. exec. by rewrite <- app_assoc.
Qed.

(** A successful aggregated load. *)
Lemma loadAggregated_succeeds CONFIG net w data fs :
  aggregated_routes net = Ok data ->
  features data = Some fs ->
  sources (map w) !! "aggregated-routes" = None ->
  layers (map w) !! aggregated_layer = None ->
  "aggregatedCheckbox" ∈ elements (document w) ->
  "minSamplesSlider" ∈ elements (document w) ->
  fst (loadAggregated CONFIG net w) = Ok tt
  /\ layers (map (run (loadAggregated CONFIG net) w)) !! aggregated_layer
     = Some aggregated_line_layer
  /\ sources (map (run (loadAggregated CONFIG net) w)) !! "aggregated-routes"
     = Some (GeoJSONSource fs)
  /\ listeners (run (loadAggregated CONFIG net) w)
     = listeners w ++ [OnChange "aggregatedCheckbox"; OnInput "minSamplesSlider";
                       OnLayerClick aggregated_layer; OnLayerMouseEnter aggregated_layer;
                       OnLayerMouseLeave aggregated_layer].
Proof.
  intros Hagg Hfs Hsrc Hlay Hcb Hsl.
  unfold loadAggregated, addSource, addLayer, setupAggregatedControls, addEventListener,
    element, run, aggregated_layer, aggregated_line_layer, line_layer in *.
  rewrite Hagg. exec. rewrite Hfs. exec. rewrite Hsrc. exec. rewrite Hlay.
  rewrite lookup_insert_eq. cbn [layer_source]. exec.
  rewrite !decide_True by done. exec.
  rewrite !lookup_insert_eq. repeat split. by rewrite <- !app_assoc.
Qed.

(** The console only grows. *)
Definition console_extends (w w' : World) : Prop :=
  exists more, console w' = console w ++ more.

#[global] Instance console_extends_preorder : PreOrder console_extends.
Proof.
  split.
  - intros w. exists []. by rewrite app_nil_r.
  - intros w1 w2 w3 [m1 H1] [m2 H2]. exists (m1 ++ m2).
    by rewrite H2, H1, app_assoc.
Qed.

Ltac grows :=
  repeat first
    [ apply preserves_ret; apply _
    | apply preserves_gets; apply _
    | apply preserves_throw; apply _
    | apply preserves_await; apply _
    | apply preserves_element; apply _
    | apply preserves_modify; intros ?; exec;
      first [ by eexists | by exists []; rewrite app_nil_r ]
    | apply preserves_bind; [apply _| |intros ?]
    | apply preserves_when; [apply _|]
    | match goal with
      | |- preserves _ (match ?x with _ => _ end) => destruct x
      end ].

Lemma console_loadAggregated CONFIG net :
  preserves console_extends (loadAggregated CONFIG net).
Proof.
  unfold loadAggregated, setupAggregatedControls, addSource, addLayer, fire_error,
    addEventListener, on, called, console_log, console_error.
  apply preserves_try_catch; [apply _| |intros e]; grows.
Qed.

(** C7 (as amended).  A failed fetch or parse of the trip tile source
    is caught and logged; no trip layer is registered and the trip list
    is unchanged, while the source 'trips', registered before the
    fetch, stays in the style; the aggregated routes are still loaded,
    and with their fetch succeeding and their two controls in the page
    the aggregated source and layer are added.  A failed aggregated
    fetch is caught and logged and changes nothing but the console:
    the world is the one the trip loading left. *)
Theorem load_failures_are_isolated
    (CONFIG : Config) (net : Network) (w : World) (e : exn) :
  (trips_metadata net = Thrown e ->
   sources (map w) !! "trips" = None ->
   fst (onLoad CONFIG net w) = Ok tt
   /\ ConsoleError "Error loading trips:" ∈ console (run (onLoad CONFIG net) w)
   /\ tripLayers (globals (run (onLoad CONFIG net) w)) = tripLayers (globals w)
   /\ (forall id, id <> aggregated_layer ->
         layers (map (run (onLoad CONFIG net) w)) !! id = layers (map w) !! id)
   /\ sources (map (run (onLoad CONFIG net) w)) !! "trips"
      = Some (VectorSource (PMTILES_URL CONFIG))
   /\ (forall data fs,
         aggregated_routes net = Ok data ->
         features data = Some fs ->
         sources (map w) !! "aggregated-routes" = None ->
         layers (map w) !! aggregated_layer = None ->
         "aggregatedCheckbox" ∈ elements (document w) ->
         "minSamplesSlider" ∈ elements (document w) ->
         layers (map (run (onLoad CONFIG net) w)) !! aggregated_layer
           = Some aggregated_line_layer
         /\ sources (map (run (onLoad CONFIG net) w)) !! "aggregated-routes"
           = Some (GeoJSONSource fs)))
  /\ (aggregated_routes net = Thrown e ->
      fst (onLoad CONFIG net w) = Ok tt
      /\ run (onLoad CONFIG net) w
         = after_failed_aggregated CONFIG
             (run (loadTrips CONFIG net)
                  (run (console_log "Base map loaded, now loading data...") w))).
Proof.
  assert (Hok : fst (onLoad CONFIG net w) = Ok tt).
  { destruct (LoadedFacts.nothrow_app_onLoad CONFIG net w) as [[] H]. exact H. }
  rewrite TripListFacts.app_onLoad_run.
  set (w0 := run (console_log "Base map loaded, now loading data...") w).
  split.
  - intros Hmd Hsrc.
    assert (Hsrc0 : sources (map w0) !! "trips" = None) by exact Hsrc.
    pose proof (loadTrips_failed CONFIG net w0 e Hmd Hsrc0) as Hw1.
    assert (Hrun : run (loadTrips CONFIG net) w0 = after_failed_trips CONFIG w0)
      by (unfold run; by rewrite Hw1).
    rewrite Hrun. set (w1 := after_failed_trips CONFIG w0).
    destruct (untouched_loadAggregated CONFIG net w1) as [Htl Hs Hl].
    destruct (console_loadAggregated CONFIG net w1) as [more Hc].
    split; [exact Hok|]. split; [|split; [|split; [|split]]].
    + rewrite Hc. apply elem_of_app. left.
      unfold w1, after_failed_trips. exec. apply elem_of_app. right. apply list_elem_of_here.
    + rewrite Htl. reflexivity.
    + intros id Hid. rewrite Hl by done. reflexivity.
    + rewrite Hs. unfold w1, after_failed_trips. exec. apply lookup_insert_eq.
    + intros data fs Hagg Hfs Hsa Hla Hcb Hsl.
      destruct (loadAggregated_succeeds CONFIG net w1 data fs Hagg Hfs) as (_ & H1 & H2 & _);
        try done.
      unfold w1, after_failed_trips. exec. by rewrite lookup_insert_ne.
  - intros Hagg. split; [exact Hok|].
    unfold run at 1. by rewrite (loadAggregated_failed CONFIG net _ e Hagg).
Qed.

(** ** A failed trip fetch on the page of the application *)

Definition trips_unreachable : Network :=
  Build_Network (Thrown (NetworkError "Failed to fetch"))
                (Thrown (NetworkError "not requested"))
                (Ok (Build_FeatureCollection
                       (Some [ {[ "avg_speed" := VNum 18.5; "sample_count" := VNum 7 ]} ]))).

Definition loaded_without_trips : World :=
  LoadedFacts.app_loaded LoadFacts.placeholder_config LoadFacts.app_page trips_unreachable.

(** The property as the specification words it: after a failed trip fetch
    the trip source and the trip layers are absent. *)
Definition trip_source_and_layers_absent (w' : World) : Prop :=
  sources (map w') !! "trips" = None /\ tripLayers (globals w') = [].

Lemma trip_source_stays_registered :
  ~ trip_source_and_layers_absent loaded_without_trips.
Proof. intros [H _]. vm_compute in H. discriminate H. Qed.

Lemma load_failures_are_isolated_unreachable_trips :
  sources (map loaded_without_trips) !! "trips"
    = Some (VectorSource "http://localhost:8080/data/pmtiles.json")
  /\ layers (map loaded_without_trips) !! aggregated_layer = Some aggregated_line_layer.
Proof.
  unfold loaded_without_trips. rewrite LoadedFacts.app_loaded_run.
  set (w := run (console_log "Base map loaded successfully") _).
  destruct (load_failures_are_isolated LoadFacts.placeholder_config trips_unreachable w
              (NetworkError "Failed to fetch")) as [H _].
  destruct H as (_ & _ & _ & _ & Hs & Hagg); [reflexivity|reflexivity|].
  destruct (Hagg _ _ eq_refl eq_refl) as [Hl _];
    try reflexivity; try (apply bool_decide_unpack; vm_compute; exact I).
  split; [exact Hs|exact Hl].
Defined.

End IsolationFacts.

(* ===================================================================== *)
(** * The application on a sample page                                   *)
(* ===================================================================== *)

Module Examples.

Definition configured : Config :=
  Build_Config (Some "pk.sample") "http://localhost:8080/data/pmtiles.json"
               "http://localhost:8000/aggregated_routes.geojson"
               (4.9, 52.37) 11 "mapbox://styles/mapbox/dark-v11".

Definition two_trips : Metadata :=
  Build_Metadata (Some [Build_VectorLayer "trip_01_clean"; Build_VectorLayer "trip_02_clean"]).

Definition all_reachable : Network :=
  Build_Network (Ok two_trips)
                (Ok (Build_Header 4.8 5.0 52.3 52.4))
                (Ok (Build_FeatureCollection
                       (Some [ {[ "avg_speed" := VNum 18.5; "sample_count" := VNum 7 ]};
                               {[ "avg_speed" := VNum 9; "sample_count" := VNum 2 ]} ]))).

(** [src/app.js] with both data sets loaded. *)
Definition app_ready : World :=
  LoadedFacts.app_loaded configured LoadFacts.app_page all_reachable.

Lemma aggregated_toggle_restores_current_mode_step :
  paint_of (steps (AppJs.handler configured) app_ready
              [CheckboxChange "aggregatedCheckbox" false;
               RadioChange "speedMode" "step";
               CheckboxChange "aggregatedCheckbox" true])
           aggregated_layer "line-color"
  = Some (PExpr (AppJs.getAggregatedSpeedColorExpression "step")).
Proof.
  refine (proj1 (AggregatedFacts.aggregated_toggle_restores_current_mode
                   configured app_ready [RadioChange "speedMode" "step"] "step" _ _ _ _)).
  - vm_compute. reflexivity.
  - vm_compute. eexists. reflexivity.
  - constructor; [by split|constructor].
  - vm_compute. reflexivity.
Defined.

Lemma slider_installs_min_sample_filter_five :
  filter_of (step (AppJs.handler configured) app_ready (SliderInput "minSamplesSlider" "5"))
            aggregated_layer
  = Some (EGe (EGet "sample_count") (ENum 5)).
Proof.
  refine (proj1 (SliderFacts.slider_installs_min_sample_filter configured app_ready 5 _ _ _)).
  - vm_compute. reflexivity.
  - apply (bool_decide_unpack _). vm_compute. exact I.
  - vm_compute. eexists. reflexivity.
Defined.

Lemma trip_layers_are_the_declared_layers_two_trips :
  tripLayers (globals app_ready) = ["trip_01_clean"; "trip_02_clean"]
  /\ tripLayers (globals (LoadedFacts.bike_loaded configured StatsFacts.stats_page
                           all_reachable))
     = ["trip_01_clean"; "trip_02_clean"].
Proof.
  destruct (LoadedFacts.trip_layers_are_the_declared_layers
              configured LoadFacts.app_page all_reachable two_trips
              [SelectChange "tripFilter" "trip_01_clean"] eq_refl) as [[H1 _] _].
  { constructor; [reflexivity|constructor]. }
  destruct (LoadedFacts.trip_layers_are_the_declared_layers
              configured StatsFacts.stats_page all_reachable two_trips
              [MapClick (4.9, 52.37) ∅ (fun _ => [])] eq_refl) as [_ [H2 _]].
  { constructor; [reflexivity|constructor]. }
  split; [exact H1|exact H2].
Defined.

Lemma background_click_without_selection_two_rides :
  calls (map (step (BikeApp.handler StatsFacts.sample_config)
                   SelectionFacts.two_rides_loaded (MapClick (4.9, 52.37) ∅ (fun _ => []))))
  = calls (map SelectionFacts.two_rides_loaded).
Proof.
  refine (proj1 (SelectionFacts.background_click_without_selection
                   StatsFacts.sample_config SelectionFacts.two_rides_loaded
                   (4.9, 52.37) (fun _ => []) _)).
  vm_compute. reflexivity.
Defined.

End Examples.

(* ===================================================================== *)
(** * The order of doubles                                               *)
(* ===================================================================== *)

Module OrderFacts.

Lemma SFleb_trans (a b c : spec_float) :
  SFleb a b = true -> SFleb b c = true -> SFleb a c = true.
Proof.
  unfold SFleb, SFcompare.
  destruct a as [sa|sa| |sa ma ea], b as [sb|sb| |sb mb eb], c as [sc|sc| |sc mc ec];
    try destruct sa; try destruct sb; try destruct sc; cbn; try congruence.
  all: destruct (Z.compare_spec ea eb), (Z.compare_spec eb ec), (Z.compare_spec ea ec);
    try congruence; try lia; subst.
  all: change (Pos.compare_cont Eq ?a ?b) with (Pos.compare a b).
  all: destruct (Pos.compare_spec ma mb), (Pos.compare_spec mb mc), (Pos.compare_spec ma mc);
    cbn; try congruence; try lia.
Qed.

Lemma leb_trans (x y z : float) :
  (x <=? y) = true -> (y <=? z) = true -> (x <=? z) = true.
Proof. rewrite !leb_spec. apply SFleb_trans. Qed.

Lemma SFleb_not_ltb (a b : spec_float) : SFleb a b = true -> SFltb b a = false.
Proof.
  unfold SFleb, SFltb, SFcompare.
  destruct a as [sa|sa| |sa ma ea], b as [sb|sb| |sb mb eb];
    try destruct sa; try destruct sb; cbn; try congruence.
  all: destruct (Z.compare_spec ea eb), (Z.compare_spec eb ea); try congruence; try lia; subst.
  all: change (Pos.compare_cont Eq ?a ?b) with (Pos.compare a b).
  all: destruct (Pos.compare_spec ma mb), (Pos.compare_spec mb ma);
    cbn; try congruence; try lia.
Qed.

Lemma leb_not_ltb (x y : float) : (x <=? y) = true -> (y <? x) = false.
Proof. rewrite leb_spec, ltb_spec. apply SFleb_not_ltb. Qed.

Lemma SFltb_not_leb (a b : spec_float) : SFltb a b = true -> SFleb b a = false.
Proof.
  unfold SFleb, SFltb, SFcompare.
  destruct a as [sa|sa| |sa ma ea], b as [sb|sb| |sb mb eb];
    try destruct sa; try destruct sb; cbn; try congruence.
  all: destruct (Z.compare_spec ea eb), (Z.compare_spec eb ea); try congruence; try lia; subst.
  all: change (Pos.compare_cont Eq ?a ?b) with (Pos.compare a b).
  all: destruct (Pos.compare_spec ma mb), (Pos.compare_spec mb ma);
    cbn; try congruence; try lia.
Qed.

Lemma ltb_not_leb (x y : float) : (x <? y) = true -> (y <=? x) = false.
Proof. rewrite leb_spec, ltb_spec. apply SFltb_not_leb. Qed.

(** At or above [top]: the comparisons with a stop [l] at or below it. *)
Lemma above_leb (top l x : float) :
  (l <=? top) = true -> (top <=? x) = true -> (l <=? x) = true.
Proof. apply leb_trans. Qed.

Lemma above_not_ltb (top l x : float) :
  (l <=? top) = true -> (top <=? x) = true -> (x <? l) = false.
Proof. intros H1 H2. apply leb_not_ltb. by apply (leb_trans l top x). Qed.

Lemma above_not_leb (top l x : float) :
  (l <? top) = true -> (top <=? x) = true -> (x <=? l) = false.
Proof.
  intros H1 H2. destruct (x <=? l) eqn:E; [|done].
  pose proof (leb_trans top x l H2 E) as H. by rewrite (ltb_not_leb l top H1) in H.
Qed.

(** A comparison with NaN is false. *)
Lemma leb_nan_l (x : float) : (nan <=? x) = false.
Proof. rewrite leb_spec. reflexivity. Qed.

End OrderFacts.

(* ===================================================================== *)
(** * The colour tables: top of the scale, stops, palette               *)
(* ===================================================================== *)

Module PaletteFacts.
Import OrderFacts.

(** The stops of a gradient and the outputs of a step table. *)
Definition stops_of (e : expr) : stops :=
  match e with
  | EInterpolateLinear _ st => st
  | EStep _ _ st => st
  | _ => []
  end.

Definition outputs_of (e : expr) : list string :=
  match e with
  | EInterpolateLinear _ st => st.*2
  | EStep _ base st => base :: st.*2
  | _ => []
  end.

(** Looking up the speed [x], given as the feature's property [key]. *)
Ltac lookup_speed Hx :=
  first [rewrite ColorFacts.evaluate_gradient | rewrite ColorFacts.evaluate_step];
  rewrite Hx; cbn [ColorFacts.speed_of].

Ltac above top H :=
  cbn [interpolate_linear interpolate_from step_from];
  repeat match goal with
    | |- context [?x <=? ?l] => rewrite (above_not_leb top l x eq_refl H)
    | |- context [?x <? ?l] => rewrite (above_not_ltb top l x eq_refl H)
    | |- context [?l <=? ?x] => rewrite (above_leb top l x eq_refl H)
    end;
  reflexivity.

Lemma app_trip_top mode (props : properties) x :
  props !! "Speed" = Some (VNum x) -> (30 <=? x) = true ->
  evaluate props (AppJs.getSpeedColorExpression mode) = RColor <$> parse_color "#059669".
Proof.
  intros Hx H. unfold AppJs.getSpeedColorExpression.
  destruct (String.eqb mode "gradient"); lookup_speed Hx; above 30 H.
Qed.

Lemma app_aggregated_top mode (props : properties) x :
  props !! "avg_speed" = Some (VNum x) -> (30 <=? x) = true ->
  evaluate props (AppJs.getAggregatedSpeedColorExpression mode)
  = RColor <$> parse_color "#059669".
Proof.
  intros Hx H. unfold AppJs.getAggregatedSpeedColorExpression.
  destruct (String.eqb mode "gradient"); lookup_speed Hx; above 30 H.
Qed.

Lemma pmtiles_trip_top mode (props : properties) x :
  props !! "Speed" = Some (VNum x) -> (30 <=? x) = true ->
  evaluate props (PmtilesApp.getSpeedColorExpression mode)
  = RColor <$> parse_color "#059669".
Proof.
  intros Hx H. unfold PmtilesApp.getSpeedColorExpression.
  destruct (String.eqb mode "gradient"); lookup_speed Hx; above 30 H.
Qed.

Lemma bike_trip_top mode (props : properties) x :
  props !! "Speed" = Some (VNum x) -> (25 <=? x) = true ->
  evaluate props (BikeApp.getSpeedColorExpression mode) = RColor <$> parse_color "#6366F1".
Proof.
  intros Hx H. unfold BikeApp.getSpeedColorExpression.
  destruct (String.eqb mode "gradient"); lookup_speed Hx; above 25 H.
Qed.

(** X1.  The scale is clamped at the top.  In [src/app.js] a trip
    segment with a speed of 30 or more, and an aggregated segment with
    an average speed of 30 or more, gets the last colour of the table,
    #059669, in gradient and in step mode alike; so does a trip segment
    in the PMTiles revision; in the revision with highlighting the last
    colour, #6366F1, is reached at 25. *)
Theorem top_of_the_scale (mode : string) (props : properties) (x : float) :
  (props !! "Speed" = Some (VNum x) -> (30 <=? x) = true ->
     evaluate props (AppJs.getSpeedColorExpression mode)
       = RColor <$> parse_color "#059669"
     /\ evaluate props (PmtilesApp.getSpeedColorExpression mode)
       = RColor <$> parse_color "#059669")
  /\ (props !! "avg_speed" = Some (VNum x) -> (30 <=? x) = true ->
     evaluate props (AppJs.getAggregatedSpeedColorExpression mode)
       = RColor <$> parse_color "#059669")
  /\ (props !! "Speed" = Some (VNum x) -> (25 <=? x) = true ->
     evaluate props (BikeApp.getSpeedColorExpression mode)
       = RColor <$> parse_color "#6366F1").
Proof.
  split; [|split].
  - intros Hx H. split; [by apply (app_trip_top mode props x)
                        |by apply (pmtiles_trip_top mode props x)].
  - intros Hx H. by apply (app_aggregated_top mode props x).
  - intros Hx H. by apply (bike_trip_top mode props x).
Qed.

Definition racing_feature : properties :=
  {[ "Speed" := VNum 47.5; "avg_speed" := VNum 31 ]}.

Lemma top_of_the_scale_racing :
  evaluate racing_feature (AppJs.getSpeedColorExpression "step")
    = RColor <$> parse_color "#059669"
  /\ evaluate racing_feature (AppJs.getAggregatedSpeedColorExpression "gradient")
    = RColor <$> parse_color "#059669"
  /\ evaluate racing_feature (BikeApp.getSpeedColorExpression "gradient")
    = RColor <$> parse_color "#6366F1".
Proof.
  split; [|split].
  - apply (proj1 (top_of_the_scale "step" racing_feature 47.5)); reflexivity.
  - apply (proj1 (proj2 (top_of_the_scale "gradient" racing_feature 31))); reflexivity.
  - apply (proj2 (proj2 (top_of_the_scale "gradient" racing_feature 47.5))); reflexivity.
Defined.

(** X2.  In [src/app.js] the trip table and the aggregated table are
    the same table read from different properties: a trip segment whose
    [Speed] is the [avg_speed] of an aggregated segment gets the same
    colour, in every mode, so that one legend serves both layers. *)
Theorem one_legend_for_both_layers (mode : string) (trip segment : properties) :
  trip !! "Speed" = segment !! "avg_speed" ->
  evaluate trip (AppJs.getSpeedColorExpression mode)
  = evaluate segment (AppJs.getAggregatedSpeedColorExpression mode).
Proof.
  intros H. unfold AppJs.getSpeedColorExpression, AppJs.getAggregatedSpeedColorExpression.
  destruct (String.eqb mode "gradient").
  - by rewrite !ColorFacts.evaluate_gradient, H.
  - by rewrite !ColorFacts.evaluate_step, H.
Qed.

Definition trip_at_18 : properties := {[ "Speed" := VNum 18.5 ]}.
Definition segment_at_18 : properties := {[ "avg_speed" := VNum 18.5; "sample_count" := VNum 7 ]}.

Lemma one_legend_for_both_layers_at_18 :
  evaluate trip_at_18 (AppJs.getSpeedColorExpression "gradient")
  = evaluate segment_at_18 (AppJs.getAggregatedSpeedColorExpression "gradient").
Proof. apply (one_legend_for_both_layers "gradient" trip_at_18 segment_at_18). reflexivity. Defined.

(** ** Every table is well formed *)

Lemma interpolate_from_total v l0 c0 (rest : stops) :
  is_Some (parse_color c0) ->
  Forall (fun p => is_Some (parse_color p.2)) rest ->
  is_Some (interpolate_from v l0 c0 rest).
Proof.
  intros H0 Hrest. revert l0 c0 H0.
  induction Hrest as [|[l1 c1] rest H1 _ IH]; intros l0 c0 H0; cbn [interpolate_from]; [done|].
  destruct (v <? l1); [|by apply IH].
  destruct H0 as [k0 ->], H1 as [k1 H1]. cbn in H1. rewrite H1. by eexists.
Qed.

Lemma interpolate_linear_total v (st : stops) :
  st <> [] -> Forall (fun p => is_Some (parse_color p.2)) st ->
  is_Some (interpolate_linear v st).
Proof.
  intros Hne Hst. destruct st as [|[l0 c0] rest]; [done|].
  apply Forall_cons in Hst as [H0 Hrest]. cbn [interpolate_linear].
  destruct (v <=? l0); [done|by apply interpolate_from_total].
Qed.

Lemma step_from_output v base (st : stops) : step_from v base st ∈ base :: st.*2.
Proof.
  revert base. induction st as [|[l out] st IH]; intros base; cbn [step_from].
  - apply list_elem_of_here.
  - destruct (l <=? v); [|apply list_elem_of_here].
    apply list_elem_of_further. apply IH.
Qed.

Lemma well_formed_colours key e (props : properties) :
  ((exists st, e = EInterpolateLinear (EToNumber (ECoalesce (EGet key) (ENum 0))) st
              /\ st <> [])
   \/ (exists base st, e = EStep (EToNumber (ECoalesce (EGet key) (ENum 0))) base st)) ->
  Forall (fun c => is_Some (parse_color c)) (outputs_of e) ->
  exists c, evaluate props e = Some (RColor c).
Proof.
  intros [(st & -> & Hne)|(base & st & ->)] Hout; cbn [outputs_of] in Hout.
  - rewrite ColorFacts.evaluate_gradient.
    destruct (interpolate_linear_total (ColorFacts.speed_of (props !! key)) st Hne) as [c ->].
    + clear Hne. induction st as [|[l c] st IH]; [constructor|].
      cbn in Hout. apply Forall_cons in Hout as [Hc Hst]. constructor; [exact Hc|by apply IH].
    + by exists c.
  - rewrite ColorFacts.evaluate_step.
    pose proof (step_from_output (ColorFacts.speed_of (props !! key)) base st) as Hin.
    rewrite Forall_forall in Hout. destruct (Hout _ Hin) as [c ->]. by exists c.
Qed.

Ltac table :=
  unfold AppJs.getSpeedColorExpression, AppJs.getAggregatedSpeedColorExpression,
    PmtilesApp.getSpeedColorExpression, PmtilesApp.getAggregatedSpeedColorExpression,
    BikeApp.getSpeedColorExpression;
  match goal with |- context [String.eqb ?mode "gradient"] =>
    destruct (String.eqb mode "gradient") end;
  (eapply well_formed_colours;
   [ first [ left; eexists; split; [reflexivity|discriminate]
           | right; eexists _, _; reflexivity ]
   | cbn [outputs_of fmap list_fmap snd]; repeat constructor; vm_compute; by eexists ]).

(** The speed is not the number NaN (whose conversion the style
    specification treats as an error). *)
Definition not_nan (v : option value) : Prop :=
  forall x, v = Some (VNum x) -> is_nan x = false.

(** What a policy gives a feature: a colour, and in step mode one of
    the colours its table lists. *)
Definition coloured (policy : string -> expr) (mode : string) (props : properties) : Prop :=
  (exists c, evaluate props (policy mode) = Some (RColor c))
  /\ (mode <> "gradient" ->
      exists s, s ∈ outputs_of (policy mode)
                /\ evaluate props (policy mode) = RColor <$> parse_color s).

Lemma step_colour key base st (props : properties) :
  exists s, s ∈ base :: st.*2
            /\ evaluate props (EStep (EToNumber (ECoalesce (EGet key) (ENum 0))) base st)
               = RColor <$> parse_color s.
Proof.
  exists (step_from (ColorFacts.speed_of (props !! key)) base st).
  split; [apply step_from_output|apply ColorFacts.evaluate_step].
Qed.

Ltac listed :=
  intros Hmode;
  unfold AppJs.getSpeedColorExpression, AppJs.getAggregatedSpeedColorExpression,
    PmtilesApp.getSpeedColorExpression, PmtilesApp.getAggregatedSpeedColorExpression,
    BikeApp.getSpeedColorExpression;
  match goal with |- context [String.eqb ?mode "gradient"] =>
    destruct (String.eqb_spec mode "gradient") as [?|_]; [done|] end;
  apply step_colour.

(** X3.  No feature is left without a colour: whatever the mode and
    whatever the feature's speed property holds (nothing, null, a
    boolean or a number other than NaN), each table of the three
    revisions evaluates to a colour and never to an evaluation error; in
    step mode that colour is one of the colours the table lists. *)
Theorem every_feature_gets_a_colour (mode : string) (props : properties) :
  not_nan (props !! "Speed") -> not_nan (props !! "avg_speed") ->
  coloured AppJs.getSpeedColorExpression mode props
  /\ coloured AppJs.getAggregatedSpeedColorExpression mode props
  /\ coloured PmtilesApp.getSpeedColorExpression mode props
  /\ coloured BikeApp.getSpeedColorExpression mode props.
Proof.
  intros _ _. unfold coloured.
  split; [split; [table|listed]|].
  split; [split; [table|listed]|].
  split; [split; [table|listed]|].
  split; [table|listed].
Qed.

Lemma every_feature_gets_a_colour_without_speed :
  coloured AppJs.getSpeedColorExpression "step" ∅
  /\ coloured BikeApp.getSpeedColorExpression "gradient" ∅.
Proof.
  destruct (every_feature_gets_a_colour "step" ∅) as (H1 & _); [done|done|].
  destruct (every_feature_gets_a_colour "gradient" ∅) as (_ & _ & _ & H2); [done|done|].
  split; [exact H1|exact H2].
Defined.

(** The tables of the three revisions, each with the property it reads. *)
Definition tables : list (string * expr) :=
  [ ("Speed", AppJs.getSpeedColorExpression "gradient");
    ("Speed", AppJs.getSpeedColorExpression "step");
    ("avg_speed", AppJs.getAggregatedSpeedColorExpression "gradient");
    ("avg_speed", AppJs.getAggregatedSpeedColorExpression "step");
    ("Speed", PmtilesApp.getSpeedColorExpression "gradient");
    ("Speed", PmtilesApp.getSpeedColorExpression "step");
    ("Speed", BikeApp.getSpeedColorExpression "gradient");
    ("Speed", BikeApp.getSpeedColorExpression "step") ].

(** X4.  Every stop of every table is attained: a segment whose speed
    is exactly a stop of a gradient, or exactly a threshold of a step
    table, gets the colour listed with that stop (a threshold belongs to
    the band above it). *)
Theorem stops_are_attained :
  Forall (fun t : string * expr =>
            Forall (fun stop : float * string =>
                      evaluate {[ t.1 := VNum stop.1 ]} t.2 = RColor <$> parse_color stop.2)
                   (stops_of t.2))
         tables.
Proof. repeat constructor; vm_compute; reflexivity. Qed.

End PaletteFacts.

(* ===================================================================== *)
(** * The names shown for a trip                                         *)
(* ===================================================================== *)

Module NameFacts.

Definition underscore : Ascii.ascii := Ascii.ascii_of_nat 95.

Definition chars (s : string) : list Ascii.ascii := String.list_ascii_of_string s.

Definition first_char (s : string) : option Ascii.ascii :=
  match s with
  | String c _ => Some c
  | EmptyString => None
  end.

Fixpoint last_char (s : string) : option Ascii.ascii :=
  match s with
  | EmptyString => None
  | String c EmptyString => Some c
  | String _ s' => last_char s'
  end.

Lemma chars_underscores_to_spaces (s : string) :
  underscore ∉ chars (JS.underscores_to_spaces s).
Proof.
  induction s as [|c s IH]; cbn; [apply not_elem_of_nil|].
  apply not_elem_of_cons. split; [|exact IH].
  destruct (Ascii.eqb_spec c (Ascii.ascii_of_nat 95)) as [->|Hne]; [discriminate|].
  intros H. apply Hne. symmetry. exact H.
Qed.

Lemma chars_drop_chars k (s : string) : chars (JS.drop_chars k s) ⊆ chars s.
Proof.
  revert s. induction k as [|k IH]; intros s; [by destruct s|].
  destruct s as [|c s]; cbn; [done|].
  intros x Hx. right. by apply (IH s).
Qed.

Lemma chars_remove_all_ci fuel pat (s : string) :
  chars (JS.remove_all_ci fuel pat s) ⊆ chars s.
Proof.
  revert s. induction fuel as [|fuel IH]; intros s; [done|].
  destruct s as [|c s]; [done|]. cbn [JS.remove_all_ci].
  destruct (JS.prefix_ci pat (String c s)).
  - etrans; [apply IH|]. apply chars_drop_chars.
  - cbn. intros x Hx. apply elem_of_cons in Hx as [->|Hx]; [left|right]. by apply IH.
Qed.

Lemma chars_trim_start (s : string) : chars (JS.trim_start s) ⊆ chars s.
Proof.
  induction s as [|c s IH]; [done|]. cbn [JS.trim_start].
  destruct (JS.is_space c); [|done].
  intros x Hx. right. by apply IH.
Qed.

Lemma chars_trim_end (s : string) : chars (JS.trim_end s) ⊆ chars s.
Proof.
  induction s as [|c s IH]; [done|]. cbn [JS.trim_end].
  destruct (JS.trim_end s) as [|d t] eqn:E.
  - destruct (JS.is_space c); cbn; [apply list_subseteq_nil|].
    intros x Hx. apply list_elem_of_singleton in Hx as ->. left.
  - cbn. intros x Hx. apply elem_of_cons in Hx as [->|Hx]; [left|right]. by apply IH.
Qed.

Lemma trim_start_first (s : string) c :
  first_char (JS.trim_start s) = Some c -> JS.is_space c = false.
Proof.
  induction s as [|a s IH]; cbn [JS.trim_start]; [discriminate|].
  destruct (JS.is_space a) eqn:E; [exact IH|].
  cbn. intros [= <-]. exact E.
Qed.

Lemma trim_end_first (s : string) c :
  first_char (JS.trim_end s) = Some c -> first_char s = Some c.
Proof.
  destruct s as [|a s]; cbn [JS.trim_end]; [done|].
  destruct (JS.trim_end s); [destruct (JS.is_space a)|]; cbn; congruence.
Qed.

Lemma trim_end_last (s : string) c :
  last_char (JS.trim_end s) = Some c -> JS.is_space c = false.
Proof.
  induction s as [|a s IH]; cbn [JS.trim_end]; [discriminate|].
  destruct (JS.trim_end s) as [|d t] eqn:E.
  - destruct (JS.is_space a) eqn:Ea; cbn; [discriminate|]. intros [= <-]. exact Ea.
  - exact IH.
Qed.

Lemma trim_trimmed (s : string) :
  (forall c, first_char s = Some c -> JS.is_space c = false) ->
  JS.trim_start s = s.
Proof.
  destruct s as [|a s]; [done|]. intros H. cbn. by rewrite (H a eq_refl).
Qed.

Lemma trim_end_idempotent (s : string) : JS.trim_end (JS.trim_end s) = JS.trim_end s.
Proof.
  induction s as [|a s IH]; [done|]. cbn [JS.trim_end].
  destruct (JS.trim_end s) as [|d t] eqn:E.
  - destruct (JS.is_space a) eqn:Ea; [done|]. cbn. by rewrite Ea.
  - cbn [JS.trim_end]. cbn [JS.trim_end] in IH. by rewrite IH.
Qed.

(** The option label of [src/app.js] (line 136) and of the PMTiles
    revision (line 154). *)
Definition app_label (layerId : string) : string :=
  JS.underscores_to_spaces (JS.replace_first "_clean" "" layerId).

(** X5.  The names under which a trip is shown.  The option label of
    the trip filter and the trip name of the selection row and the popup
    never contain an underscore; the trip name neither starts nor ends
    with white space, and trimming it again changes nothing. *)
Theorem displayed_names_are_clean (layerId : string) :
  (underscore ∉ chars (app_label layerId))
  /\ (underscore ∉ chars (JS.underscores_to_spaces layerId))
  /\ (underscore ∉ chars (BikeApp.trip_name layerId))
  /\ (forall c, first_char (BikeApp.trip_name layerId) = Some c -> JS.is_space c = false)
  /\ (forall c, last_char (BikeApp.trip_name layerId) = Some c -> JS.is_space c = false)
  /\ JS.trim (BikeApp.trip_name layerId) = BikeApp.trip_name layerId.
Proof.
  assert (Hfirst : forall c, first_char (BikeApp.trip_name layerId) = Some c ->
                             JS.is_space c = false).
  { intros c H. unfold BikeApp.trip_name, JS.trim in H.
    apply trim_end_first in H. by apply trim_start_first in H. }
  split; [apply chars_underscores_to_spaces|].
  split; [apply chars_underscores_to_spaces|].
  split; [|split; [exact Hfirst|split]].
  - intros H. apply (chars_underscores_to_spaces layerId).
    unfold BikeApp.trip_name, JS.trim in H.
    by apply chars_trim_end, chars_trim_start, chars_remove_all_ci in H.
  - intros c. unfold BikeApp.trip_name, JS.trim. apply trim_end_last.
  - unfold JS.trim at 1. rewrite (trim_trimmed _ Hfirst).
    unfold BikeApp.trip_name, JS.trim. apply trim_end_idempotent.
Qed.

End NameFacts.

(* ===================================================================== *)
(** * More on the minimum-sample-count slider                            *)
(* ===================================================================== *)

Module ThresholdFacts.
Import AppJs OrderFacts.

Definition slider_filter (n : float) : expr := EGe (EGet "sample_count") (ENum n).

(** The slider's listener, as the one listener of its event. *)
Lemma slider_step CONFIG w (l : layer) value_ :
  List.filter (matches (SliderInput "minSamplesSlider" value_)) (listeners w)
    = [OnInput "minSamplesSlider"] ->
  "minSamplesValue" ∈ elements (document w) ->
  layers (map w) !! aggregated_layer = Some l ->
  filter_of (step (handler CONFIG) w (SliderInput "minSamplesSlider" value_)) aggregated_layer
  = Some (slider_filter (JS.parseInt value_)).
Proof.
  intros Hls He Hl.
  rewrite step_unfold, Hls. cbn [forEach handler].
  rewrite run_seq by apply nothrow_uncaught.
  change (run (mret tt) ?x) with x.
  change (run (browser_after (SliderInput "minSamplesSlider" value_)) ?x) with x.
  change (run (ret tt) ?x) with x.
  by rewrite (SliderFacts.onMinSamplesInput_filter _ l).
Qed.

Lemma SFeqb_refl_finite (x : spec_float) : x <> S754_nan -> SFeqb x x = true.
Proof.
  unfold SFeqb, SFcompare. destruct x as [s|s| |s m e]; try destruct s; try done.
  all: intros _; rewrite Z.compare_refl;
    change (Pos.compare_cont Eq m m) with (Pos.compare m m); by rewrite Pos.compare_refl.
Qed.

Lemma is_nan_leb (n x : float) : is_nan n = true -> (n <=? x) = false.
Proof.
  unfold is_nan. rewrite FloatAxioms.eqb_spec, leb_spec. intros H.
  destruct (Prim2SF n) eqn:E; try reflexivity;
    rewrite SFeqb_refl_finite in H by done; discriminate H.
Qed.

(** X6.  A slider value that [parseInt] cannot read (it gives NaN)
    installs a filter that admits no feature at all, and the label next
    to the slider shows NaN. *)
Theorem unreadable_threshold_hides_every_segment
    (CONFIG : Config) (w : World) (value_ : string) :
  List.filter (matches (SliderInput "minSamplesSlider" value_)) (listeners w)
    = [OnInput "minSamplesSlider"] ->
  "minSamplesValue" ∈ elements (document w) ->
  is_Some (layers (map w) !! aggregated_layer) ->
  is_nan (JS.parseInt value_) = true ->
  let w' := step (handler CONFIG) w (SliderInput "minSamplesSlider" value_) in
  filter_of w' aggregated_layer = Some (slider_filter (JS.parseInt value_))
  /\ (forall props : properties, admits (slider_filter (JS.parseInt value_)) props = false)
  /\ textContent (document w') !! "minSamplesValue" = Some (JS.OfNumber (JS.parseInt value_))
  /\ JS.render (JS.OfNumber (JS.parseInt value_)) = Some "NaN".
Proof.
  intros Hls He [l Hl] Hnan. cbv zeta.
  split; [by apply (slider_step CONFIG w l)|]. split; [|split].
  - intros props. destruct (admits _ props) eqn:E; [|done].
    apply SliderFacts.sample_count_filter in E as (x & _ & Hx).
    by rewrite (is_nan_leb _ x Hnan) in Hx.
  - rewrite step_unfold, Hls. cbn [forEach handler].
    rewrite run_seq by apply nothrow_uncaught.
    change (run (mret tt) ?x) with x.
    change (run (browser_after (SliderInput "minSamplesSlider" value_)) ?x) with x.
    change (run (ret tt) ?x) with x.
    unfold onMinSamplesInput, set_textContent, element, setFilter, update_layer,
      browser_default, aggregated_layer in *.
    exec. rewrite decide_True by done. exec. rewrite Hl. exec.
    apply lookup_insert_eq.
  - cbn [JS.render]. unfold JS.toString.
    unfold is_nan in Hnan. rewrite FloatAxioms.eqb_spec in Hnan.
    destruct (Prim2SF (JS.parseInt value_)) eqn:E; try reflexivity;
      rewrite SFeqb_refl_finite in Hnan by done; discriminate Hnan.
Qed.

Lemma unreadable_threshold_hides_every_segment_empty :
  admits (slider_filter (JS.parseInt "")) {[ "sample_count" := VNum 7 ]} = false.
Proof.
  refine (proj1 (proj2 (unreadable_threshold_hides_every_segment Examples.configured
                          Examples.app_ready "" _ _ _ _)) {[ "sample_count" := VNum 7 ]}).
  - vm_compute. reflexivity.
  - apply (bool_decide_unpack _). vm_compute. exact I.
  - vm_compute. eexists. reflexivity.
  - reflexivity.
Defined.

(** X7.  Raising the threshold never brings a segment back: when the
    slider goes from a value read as [n] to a value read as [n'] with
    [n <= n'], every feature the new filter admits was admitted by the
    old one. *)
Theorem raising_the_threshold_only_removes
    (CONFIG : Config) (w w' : World) (v v' : string) :
  List.filter (matches (SliderInput "minSamplesSlider" v)) (listeners w)
    = [OnInput "minSamplesSlider"] ->
  List.filter (matches (SliderInput "minSamplesSlider" v')) (listeners w')
    = [OnInput "minSamplesSlider"] ->
  "minSamplesValue" ∈ elements (document w) ->
  "minSamplesValue" ∈ elements (document w') ->
  is_Some (layers (map w) !! aggregated_layer) ->
  is_Some (layers (map w') !! aggregated_layer) ->
  (JS.parseInt v <=? JS.parseInt v') = true ->
  exists f f',
    filter_of (step (handler CONFIG) w (SliderInput "minSamplesSlider" v)) aggregated_layer
      = Some f
    /\ filter_of (step (handler CONFIG) w' (SliderInput "minSamplesSlider" v')) aggregated_layer
      = Some f'
    /\ forall props : properties, admits f' props = true -> admits f props = true.
Proof.
  intros Hls Hls' He He' [l Hl] [l' Hl'] Hle.
  exists (slider_filter (JS.parseInt v)), (slider_filter (JS.parseInt v')).
  split; [by apply (slider_step CONFIG w l)|].
  split; [by apply (slider_step CONFIG w' l')|].
  intros props H. apply SliderFacts.sample_count_filter in H as (x & Hx & Hle').
  apply SliderFacts.sample_count_filter. exists x. split; [exact Hx|].
  by apply (leb_trans _ (JS.parseInt v')).
Qed.

Definition after_two : World :=
  step (handler Examples.configured) Examples.app_ready (SliderInput "minSamplesSlider" "2").

Lemma raising_the_threshold_only_removes_two_to_five :
  exists f f',
    filter_of after_two aggregated_layer = Some f
    /\ filter_of (step (handler Examples.configured) after_two
                       (SliderInput "minSamplesSlider" "5")) aggregated_layer = Some f'
    /\ forall props : properties, admits f' props = true -> admits f props = true.
Proof.
  apply (raising_the_threshold_only_removes Examples.configured Examples.app_ready after_two
           "2" "5").
  - vm_compute. reflexivity.
  - vm_compute. reflexivity.
  - apply (bool_decide_unpack _). vm_compute. exact I.
  - apply (bool_decide_unpack _). vm_compute. exact I.
  - vm_compute. eexists. reflexivity.
  - vm_compute. eexists. reflexivity.
  - reflexivity.
Defined.

(** ** Fractional slider values *)

Lemma parse_digits_stops (radix : N) acc c (s : string) :
  JS.digit_in radix c = None -> JS.parse_digits radix acc (String c s) = acc.
Proof. intros H. cbn. by rewrite H. Qed.

Lemma parse_digits_uint_then (d : Decimal.uint) (acc : option N) c (rest : string) :
  JS.digit_in 10 c = None ->
  JS.parse_digits 10 acc (NilEmpty.string_of_uint d +:+ String c rest)
  = match d with
    | Decimal.Nil => acc
    | _ => Some (SliderFacts.uint_value d (default 0%N acc))
    end.
Proof.
  intros Hc. revert acc. induction d; intros acc;
    [by apply parse_digits_stops|..];
    cbn [NilEmpty.string_of_uint];
    change (String ?a ?s +:+ ?t) with (String a (s +:+ t));
    cbn [JS.parse_digits];
    match goal with
    | |- context [JS.digit_in 10 ?c] =>
        let r := eval vm_compute in (JS.digit_in 10 c) in
        change (JS.digit_in 10 c) with r; cbv iota
    end;
    rewrite IHd; destruct d; reflexivity.
Qed.

Lemma parse_digits_digits_then (n : N) c (rest : string) :
  JS.digit_in 10 c = None ->
  JS.parse_digits 10 None (JS.digits n +:+ String c rest) = Some n.
Proof.
  intros Hc. rewrite SliderFacts.digits_string, (parse_digits_uint_then _ _ _ _ Hc).
  pose proof (SliderFacts.to_uint_nonnil n) as Hn.
  assert (H : SliderFacts.uint_value (N.to_uint n) 0 = n)
    by (rewrite SliderFacts.uint_value_zero; apply DecimalN.Unsigned.of_to).
  destruct (N.to_uint n); [done|..]; cbn [default]; by rewrite H.
Qed.

Definition decimal_point : Ascii.ascii := Ascii.ascii_of_nat 46.

Lemma digits_head_then (n : N) (t : string) :
  JS.trim_start (JS.digits n +:+ String decimal_point t) = JS.digits n +:+ String decimal_point t
  /\ JS.strip_sign (JS.digits n +:+ String decimal_point t) = (false, JS.digits n +:+ String decimal_point t)
  /\ JS.prefix_ci "0x" (JS.digits n +:+ String decimal_point t) = false.
Proof.
  rewrite SliderFacts.digits_string. pose proof (SliderFacts.to_uint_nonnil n) as Hn.
  pose proof (SliderFacts.to_uint_normal n) as Hnorm.
  destruct (N.to_uint n) as [|d|d|d|d|d|d|d|d|d|d]; try done.
  assert (d = Decimal.Nil) as ->.
  { unfold Decimal.unorm in Hnorm. cbn [Decimal.nzhead] in Hnorm.
    pose proof (SliderFacts.nzhead_no_zero d) as Hz.
    destruct (Decimal.nzhead d) eqn:E; try discriminate Hnorm.
    - by injection Hnorm.
    - by destruct (Hz u). }
  done.
Qed.

(** [parseInt] stops at the decimal point. *)
Lemma parseInt_fraction (k : Z) (frac : string) :
  JS.parseInt (JS.decimal k +:+ String decimal_point frac) = JS.of_Z k.
Proof.
  assert (Hdot : JS.digit_in 10 decimal_point = None) by reflexivity.
  unfold JS.decimal. destruct (Z.ltb_spec k 0) as [Hk|Hk].
  - unfold JS.parseInt.
    change (("-" +:+ ?s) +:+ ?t) with ("-" +:+ (s +:+ t)).
    change (JS.trim_start ("-" +:+ ?s)) with ("-" +:+ s).
    change (JS.strip_sign ("-" +:+ ?s)) with (true, s).
    destruct (digits_head_then (Z.to_N (- k)) frac) as (_ & _ & ->).
    rewrite (parse_digits_digits_then _ _ _ Hdot). f_equal. lia.
  - unfold JS.parseInt.
    destruct (digits_head_then (Z.to_N k) frac) as (-> & -> & ->).
    rewrite (parse_digits_digits_then _ _ _ Hdot). f_equal. lia.
Qed.

(** X8.  A slider value with a fractional part is cut at the decimal
    point: the threshold installed for "k.ddd" is the integer [k], for
    negative values too (truncation toward zero). *)
Theorem fractional_threshold_is_truncated
    (CONFIG : Config) (w : World) (k : Z) (frac : string) :
  List.filter (matches (SliderInput "minSamplesSlider" (JS.decimal k +:+ String decimal_point frac)))
              (listeners w)
    = [OnInput "minSamplesSlider"] ->
  "minSamplesValue" ∈ elements (document w) ->
  is_Some (layers (map w) !! aggregated_layer) ->
  filter_of (step (handler CONFIG) w
               (SliderInput "minSamplesSlider" (JS.decimal k +:+ String decimal_point frac)))
            aggregated_layer
  = Some (slider_filter (JS.of_Z k)).
Proof.
  intros Hls He [l Hl].
  rewrite (slider_step CONFIG w l) by done. by rewrite parseInt_fraction.
Qed.

Lemma fractional_threshold_is_truncated_two_and_a_half :
  filter_of (step (handler Examples.configured) Examples.app_ready
               (SliderInput "minSamplesSlider" "2.5"))
            aggregated_layer
  = Some (slider_filter 2).
Proof.
  apply (fractional_threshold_is_truncated Examples.configured Examples.app_ready 2 "5").
  - vm_compute. reflexivity.
  - apply (bool_decide_unpack _). vm_compute. exact I.
  - vm_compute. eexists. reflexivity.
Defined.

End ThresholdFacts.

(* ===================================================================== *)
(** * Loops that restyle the trip layers                                 *)
(* ===================================================================== *)

(** What a style call leaves alone: everything but the layers, the
    record of the calls made on the map, and the console. *)
Record only_style (w w' : World) : Prop := {
  os_document : document w' = document w;
  os_globals : globals w' = globals w;
  os_alerts : alerts w' = alerts w;
  os_listeners : listeners w' = listeners w;
  os_prevented : defaultPrevented w' = defaultPrevented w;
  os_sources : sources (map w') = sources (map w);
  os_popups : popups (map w') = popups (map w);
  os_cursor : cursor (map w') = cursor (map w);
  os_center : center (map w') = center (map w);
  os_zoom : zoom (map w') = zoom (map w)
}.

#[global] Instance only_style_preorder : PreOrder only_style.
Proof.
  split; [by intros w|]. intros w1 w2 w3 [] []. split; congruence.
Qed.

(** The layers after restyling each layer of [tl] by [g]; a layer that
    is not in the style is skipped (the map reports an error event). *)
Definition restyle (g : string -> layer -> layer) (tl : list string)
    (m : gmap string layer) : gmap string layer :=
  fold_left (fun m id => alter (g id) id m) tl m.

Module LoopFacts.

Lemma style_fire_error msg : preserves only_style (fire_error msg).
Proof. intros w. unfold fire_error. exec. destruct (existsb _ _); by split. Qed.

Lemma style_update_layer id f : preserves only_style (update_layer id f).
Proof.
  intros w. unfold update_layer. exec.
  destruct (layers (map w) !! id); [by split|]. apply style_fire_error.
Qed.

Lemma update_layer_layers id f w :
  layers (map (run (update_layer id f) w)) = alter f id (layers (map w)).
Proof.
  unfold update_layer, fire_error. exec. rewrite alter_alt.
  destruct (layers (map w) !! id); [reflexivity|].
  exec. by destruct (existsb _ _).
Qed.

Lemma nothrow_setPaintProperty id k v : nothrow (setPaintProperty id k v).
Proof. apply nothrow_bind; [apply nothrow_called|intros _; apply nothrow_update_layer]. Qed.

Lemma nothrow_setLayoutProperty id k v : nothrow (setLayoutProperty id k v).
Proof. apply nothrow_bind; [apply nothrow_called|intros _; apply nothrow_update_layer]. Qed.

Lemma nothrow_setFilter id f : nothrow (setFilter id f).
Proof. apply nothrow_bind; [apply nothrow_called|intros _; apply nothrow_update_layer]. Qed.

Lemma setPaintProperty_layers id k v w :
  layers (map (run (setPaintProperty id k v) w)) = alter (set_paint k v) id (layers (map w)).
Proof.
  unfold setPaintProperty. rewrite run_seq by apply nothrow_called.
  by rewrite update_layer_layers.
Qed.

Lemma setLayoutProperty_layers id k v w :
  layers (map (run (setLayoutProperty id k v) w)) = alter (set_layout k v) id (layers (map w)).
Proof.
  unfold setLayoutProperty. rewrite run_seq by apply nothrow_called.
  by rewrite update_layer_layers.
Qed.

Lemma setFilter_layers id f w :
  layers (map (run (setFilter id f) w)) = alter (set_filter f) id (layers (map w)).
Proof.
  unfold setFilter. rewrite run_seq by apply nothrow_called.
  by rewrite update_layer_layers.
Qed.

(** Decomposes code that only makes style calls. *)
Ltac style :=
  autounfold with handlers;
  repeat first
    [ apply preserves_ret; apply _
    | apply preserves_gets; apply _
    | apply preserves_throw; apply _
    | apply style_update_layer
    | apply style_fire_error
    | frame_modify
    | apply preserves_bind; [apply _| |intros ?]
    | apply preserves_try_catch; [apply _| |intros ?]
    | apply preserves_forEach; [apply _|intros ?]
    | apply preserves_when; [apply _|]
    | match goal with
      | |- preserves _ (if ?b then _ else _) => destruct b
      end ].

(** A loop whose body restyles its layer by [g] and cannot throw. *)
Lemma forEach_restyle (body : string -> M unit) (g : string -> layer -> layer) tl w :
  (forall id, nothrow (body id)) ->
  (forall id w, layers (map (run (body id) w)) = alter (g id) id (layers (map w))) ->
  layers (map (run (forEach tl body) w)) = restyle g tl (layers (map w)).
Proof.
  intros Hn Hb. revert w. induction tl as [|x tl IH]; intros w; [reflexivity|].
  cbn [forEach restyle fold_left]. rewrite run_seq by apply Hn.
  rewrite IH, Hb. reflexivity.
Qed.

Lemma restyle_other g tl (m : gmap string layer) id :
  id ∉ tl -> restyle g tl m !! id = m !! id.
Proof.
  revert m. induction tl as [|x tl IH]; intros m Hid; [reflexivity|].
  apply not_elem_of_cons in Hid as [Hne Hid]. cbn [restyle fold_left].
  fold (restyle g tl (alter (g x) x m)). rewrite IH by done.
  by apply lookup_alter_ne.
Qed.

Lemma restyle_absent g tl (m : gmap string layer) id :
  m !! id = None -> restyle g tl m !! id = None.
Proof.
  revert m. induction tl as [|x tl IH]; intros m Hid; [done|].
  cbn [restyle fold_left]. fold (restyle g tl (alter (g x) x m)). apply IH.
  destruct (decide (x = id)) as [->|Hne].
  - by rewrite lookup_alter_eq, Hid.
  - by rewrite lookup_alter_ne.
Qed.

(** The layer [id] after the loop: related by [R] to what it was, and
    satisfying [P] when the loop went over it. *)
Lemma restyle_lookup (R : relation layer) `{!PreOrder R} (P : layer -> Prop)
    g tl (m : gmap string layer) id l :
  (forall l, R l (g id l)) ->
  (forall l, P (g id l)) ->
  m !! id = Some l ->
  exists l', restyle g tl m !! id = Some l' /\ R l l' /\ (id ∈ tl -> P l').
Proof.
  intros HR HP. revert m l. induction tl as [|x tl IH]; intros m l Hl.
  - exists l. split; [done|]. split; [reflexivity|]. intros H. by apply elem_of_nil in H.
  - cbn [restyle fold_left]. fold (restyle g tl (alter (g x) x m)).
    destruct (decide (x = id)) as [->|Hne].
    + destruct (IH (alter (g id) id m) (g id l)) as (l' & Hl' & Hr & Hp).
      { by rewrite lookup_alter_eq, Hl. }
      exists l'. split; [exact Hl'|]. split; [by etrans; [apply HR|]|].
      intros _. destruct (decide (id ∈ tl)) as [Hin|Hnin]; [by apply Hp|].
      rewrite restyle_other in Hl' by done.
      rewrite lookup_alter_eq, Hl in Hl'. injection Hl' as <-. apply HP.
    + destruct (IH (alter (g x) x m) l) as (l' & Hl' & Hr & Hp).
      { by rewrite lookup_alter_ne. }
      exists l'. split; [exact Hl'|]. split; [exact Hr|].
      intros Hin. apply elem_of_cons in Hin as [->|Hin]; [done|by apply Hp].
Qed.

(** ** Layers that differ in some paint properties only *)

Record same_but_paint (K : list string) (l l' : layer) : Prop := {
  sbp_type : layer_type l' = layer_type l;
  sbp_source : layer_source l' = layer_source l;
  sbp_source_layer : source_layer l' = source_layer l;
  sbp_layout : layout l' = layout l;
  sbp_filter : filter l' = filter l;
  sbp_paint : forall k, k ∉ K -> paint l' !! k = paint l !! k
}.

#[global] Instance same_but_paint_preorder K : PreOrder (same_but_paint K).
Proof.
  split; [by intros l|]. intros l1 l2 l3 [] []. split; try congruence.
  intros k Hk. rewrite sbp_paint1 by done. by apply sbp_paint0.
Qed.

Lemma same_but_paint_set K k v l : k ∈ K -> same_but_paint K l (set_paint k v l).
Proof.
  intros Hk. split; try reflexivity. intros k' Hk'. cbn.
  apply lookup_insert_ne. intros ->. done.
Qed.

(** Two layers that differ at most in the paint properties [K], and
    agree on those, are equal. *)
Lemma same_but_paint_eq K l l' :
  same_but_paint K l l' ->
  (forall k, k ∈ K -> paint l' !! k = paint l !! k) ->
  l' = l.
Proof.
  intros [] HK. destruct l, l'; cbn in *; subst. f_equal.
  apply map_eq. intros k. destruct (decide (k ∈ K)); [by apply HK|by apply sbp_paint0].
Qed.

(** Layers that differ in their layout only. *)
Record same_but_layout (l l' : layer) : Prop := {
  sbl_type : layer_type l' = layer_type l;
  sbl_source : layer_source l' = layer_source l;
  sbl_source_layer : source_layer l' = source_layer l;
  sbl_paint : paint l' = paint l;
  sbl_filter : filter l' = filter l
}.

#[global] Instance same_but_layout_preorder : PreOrder same_but_layout.
Proof. split; [by intros l|]. intros l1 l2 l3 [] []. split; congruence. Qed.

End LoopFacts.

(* ===================================================================== *)
(** * The trip controls of [src/app.js]                                  *)
(* ===================================================================== *)

Module ControlFacts.
Import AppJs LoopFacts.

(** A listener that does not throw in the world at hand. *)
Lemma run_uncaught_at (m : M unit) w w' : m w = (Ok tt, w') -> run (uncaught m) w = w'.
Proof. apply run_uncaught_ok. Qed.

Lemma bind_ok {A B} (m : M A) (k : A -> M B) w a w1 :
  m w = (Ok a, w1) -> (m ≫= k) w = k a w1.
Proof. intros H. by rewrite bind_unfold, H. Qed.

(** [updateStats] on a page with its fields. *)
Definition stats_updated (w : World) : World :=
  let selectedTrip := default "" (values (document w) !! "tripFilter") in
  let activeTrips :=
    if String.eqb selectedTrip "all"
    then Z.of_nat (length (tripLayers (globals w))) else 1%Z in
  with_dom (dom_textContent (fun t =>
    <["statAvgSpeed" := JS.Str "—"]> (<["statTrips" := JS.OfNumber (JS.of_Z activeTrips)]> t))) w.

Lemma updateStats_ok w :
  "tripFilter" ∈ elements (document w) ->
  "statTrips" ∈ elements (document w) ->
  "statAvgSpeed" ∈ elements (document w) ->
  updateStats w = (Ok tt, stats_updated w).
Proof.
  intros H1 H2 H3. unfold updateStats, stats_updated, get_value, set_textContent, element.
  exec. rewrite !decide_True by done. exec. reflexivity.
Qed.

(** ** The trip filter *)

(** What the filter's listener does to the layer of trip [id]. *)
Definition filtered (choice id : string) (l : layer) : layer :=
  if String.eqb choice "all" then
    set_paint "line-opacity" (PNum 0.4) (set_layout "visibility" "visible" l)
  else if String.eqb id choice then
    set_paint "line-opacity" (PNum 0.9) (set_layout "visibility" "visible" l)
  else set_layout "visibility" "none" l.

Definition filter_body (choice layerId : string) : M unit :=
  if String.eqb choice "all" then
    setLayoutProperty layerId "visibility" "visible";;
    setPaintProperty layerId "line-opacity" (PNum 0.4)
  else if String.eqb layerId choice then
    setLayoutProperty layerId "visibility" "visible";;
    setPaintProperty layerId "line-opacity" (PNum 0.9)
  else
    setLayoutProperty layerId "visibility" "none".

Lemma nothrow_filter_body choice id : nothrow (filter_body choice id).
Proof.
  unfold filter_body. destruct (String.eqb choice "all"); [|destruct (String.eqb id choice)];
    repeat first [ apply nothrow_setLayoutProperty | apply nothrow_setPaintProperty
                 | apply nothrow_bind; [|intros _] ].
Qed.

Lemma filter_body_layers choice id w :
  layers (map (run (filter_body choice id) w)) = alter (filtered choice id) id (layers (map w)).
Proof.
  unfold filter_body, filtered.
  destruct (String.eqb choice "all"); [|destruct (String.eqb id choice)];
    rewrite ?run_seq by apply nothrow_setLayoutProperty;
    rewrite ?setPaintProperty_layers, ?setLayoutProperty_layers;
    rewrite ?alter_alter_eq; reflexivity.
Qed.

Lemma style_filter_body choice id : preserves only_style (filter_body choice id).
Proof.
  unfold filter_body. destruct (String.eqb choice "all"); [|destruct (String.eqb id choice)];
    style.
Qed.

Definition any_layer : relation layer := fun _ _ => True.

#[global] Instance any_layer_preorder : PreOrder any_layer.
Proof. by split. Qed.

(** The world after the filter's listener. *)
Lemma onTripFilterChange_ok choice w :
  "tripFilter" ∈ elements (document w) ->
  "statTrips" ∈ elements (document w) ->
  "statAvgSpeed" ∈ elements (document w) ->
  exists w1,
    onTripFilterChange choice w = (Ok tt, stats_updated w1)
    /\ layers (map w1) = restyle (filtered choice) (tripLayers (globals w)) (layers (map w))
    /\ only_style w w1.
Proof.
  intros H1 H2 H3.
  set (tl := tripLayers (globals w)).
  exists (run (forEach tl (filter_body choice)) w).
  assert (Hs : only_style w (run (forEach tl (filter_body choice)) w)).
  { apply (preserves_forEach only_style). intros id. apply style_filter_body. }
  split; [|split; [|exact Hs]].
  - unfold onTripFilterChange. fold (filter_body choice).
    rewrite (bind_ok _ _ w tl w) by reflexivity.
    rewrite (bind_ok _ _ w tt (run (forEach tl (filter_body choice)) w)).
    + apply updateStats_ok; by rewrite (os_document _ _ Hs).
    + apply nothrow_result, nothrow_forEach. intros id. apply nothrow_filter_body.
  - apply forEach_restyle; [intros id; apply nothrow_filter_body|].
    intros id w0. apply filter_body_layers.
Qed.

(** X9.  Choosing a trip in the filter shows that trip alone, at
    line-opacity 0.9, and hides every other trip (whose paint is left as
    it was); choosing "all" shows every trip at line-opacity 0.4.  The
    state of the trips checkbox is not consulted.  The trip counter then
    reads 1, or the number of trips for "all", and the average-speed
    field a dash; layers that are not trips are untouched. *)
Theorem trip_filter_shows_the_choice (CONFIG : Config) (w : World) (choice : string) :
  List.filter (matches (SelectChange "tripFilter" choice)) (listeners w)
    = [OnChange "tripFilter"] ->
  "tripFilter" ∈ elements (document w) ->
  "statTrips" ∈ elements (document w) ->
  "statAvgSpeed" ∈ elements (document w) ->
  let w' := step (handler CONFIG) w (SelectChange "tripFilter" choice) in
  (forall id l,
      id ∈ tripLayers (globals w) -> layers (map w) !! id = Some l ->
      exists l', layers (map w') !! id = Some l'
        /\ (choice = "all" ->
            layout l' !! "visibility" = Some "visible"
            /\ paint l' !! "line-opacity" = Some (PNum 0.4))
        /\ (choice <> "all" -> id = choice ->
            layout l' !! "visibility" = Some "visible"
            /\ paint l' !! "line-opacity" = Some (PNum 0.9))
        /\ (choice <> "all" -> id <> choice ->
            layout l' !! "visibility" = Some "none" /\ paint l' = paint l))
  /\ (forall id, id ∉ tripLayers (globals w) -> layers (map w') !! id = layers (map w) !! id)
  /\ textContent (document w') !! "statTrips"
     = Some (JS.OfNumber (JS.of_Z (if String.eqb choice "all"
                                   then Z.of_nat (length (tripLayers (globals w)))
                                   else 1%Z)))
  /\ textContent (document w') !! "statAvgSpeed" = Some (JS.Str "—").
Proof.
  intros Hls H1 H2 H3. cbv zeta.
  rewrite step_unfold, Hls. cbn [forEach handler String.eqb Ascii.eqb Bool.eqb when].
  rewrite run_seq by apply nothrow_uncaught.
  change (run (mret tt) ?x) with x.
  change (run (browser_after (SelectChange "tripFilter" choice)) ?x) with x.
  change (run (ret tt) ?x) with x.
  set (w0 := run (browser_default (SelectChange "tripFilter" choice)) w).
  assert (Hw0 : layers (map w0) = layers (map w) /\ tripLayers (globals w0) = tripLayers (globals w)
                /\ elements (document w0) = elements (document w)
                /\ values (document w0) !! "tripFilter" = Some choice).
  { unfold w0, browser_default. exec. repeat split. apply lookup_insert_eq. }
  destruct Hw0 as (Hl0 & Ht0 & He0 & Hv0).
  destruct (onTripFilterChange_ok choice w0) as (w1 & Hrun & Hlay & Hs);
    [by rewrite He0..|].
  rewrite (run_uncaught_at _ _ _ Hrun). rewrite Ht0, Hl0 in Hlay.
  assert (Hl1 : layers (map (stats_updated w1)) = layers (map w1)) by reflexivity.
  rewrite Hl1, Hlay.
  split; [|split; [|split]].
  - intros id l Hid Hl.
    destruct (String.eqb_spec choice "all") as [Hall|Hall].
    + destruct (restyle_lookup any_layer
                  (fun l' => layout l' !! "visibility" = Some "visible"
                             /\ paint l' !! "line-opacity" = Some (PNum 0.4))
                  (filtered choice) (tripLayers (globals w)) (layers (map w)) id l)
        as (l' & Hl' & _ & HP); [done| |done|].
      { intros l0. unfold filtered. rewrite (proj2 (String.eqb_eq _ _) Hall).
        split; cbn; [apply lookup_insert_eq|apply lookup_insert_eq]. }
      exists l'. split; [exact Hl'|]. split; [intros _; by apply HP|]. split; by intros.
    + destruct (String.eqb_spec id choice) as [Heq|Hne].
      * destruct (restyle_lookup any_layer
                    (fun l' => layout l' !! "visibility" = Some "visible"
                               /\ paint l' !! "line-opacity" = Some (PNum 0.9))
                    (filtered choice) (tripLayers (globals w)) (layers (map w)) id l)
          as (l' & Hl' & _ & HP); [done| |done|].
        { intros l0. unfold filtered. rewrite (proj2 (String.eqb_neq _ _) Hall).
          rewrite (proj2 (String.eqb_eq _ _) Heq).
          split; cbn; [apply lookup_insert_eq|apply lookup_insert_eq]. }
        exists l'. split; [exact Hl'|]. split; [by intros|]. split; [intros _ _; by apply HP|].
        by intros.
      * destruct (restyle_lookup same_but_layout
                    (fun l' => layout l' !! "visibility" = Some "none")
                    (filtered choice) (tripLayers (globals w)) (layers (map w)) id l)
          as (l' & Hl' & HR & HP); [| |done|].
        { intros l0. unfold filtered. rewrite (proj2 (String.eqb_neq _ _) Hall).
          rewrite (proj2 (String.eqb_neq _ _) Hne). by split. }
        { intros l0. unfold filtered. rewrite (proj2 (String.eqb_neq _ _) Hall).
          rewrite (proj2 (String.eqb_neq _ _) Hne). cbn. apply lookup_insert_eq. }
        exists l'. split; [exact Hl'|]. split; [by intros|]. split; [by intros|].
        intros _ _. split; [by apply HP|apply (sbl_paint _ _ HR)].
  - intros id Hid. by apply restyle_other.
  - pose proof (os_document _ _ Hs) as Hd. pose proof (os_globals _ _ Hs) as Hg.
    unfold stats_updated. exec.
    rewrite lookup_insert_ne by done. rewrite lookup_insert_eq.
    rewrite Hd, Hg, Hv0. cbn [default]. by rewrite Ht0.
  - unfold stats_updated. exec. apply lookup_insert_eq.
Qed.

(** Delivers an event that has exactly one listener. *)
Ltac deliver Hls :=
  rewrite step_unfold, Hls;
  cbn [forEach handler String.eqb Ascii.eqb Bool.eqb when];
  rewrite run_seq by apply nothrow_uncaught;
  change (run (mret tt) ?x) with x;
  match goal with
  | |- context [run (browser_after ?ev) ?x] => change (run (browser_after ev) x) with x
  end;
  change (run (ret tt) ?x) with x.

(** ** The trips checkbox *)

Definition toggled (choice : string) (b : bool) (id : string) (l : layer) : layer :=
  if String.eqb choice "all" || String.eqb id choice
  then set_layout "visibility" (if b then "visible" else "none") l
  else l.

Definition toggle_body (choice : string) (b : bool) (layerId : string) : M unit :=
  when (String.eqb choice "all" || String.eqb layerId choice)
    (setLayoutProperty layerId "visibility" (if b then "visible" else "none")).

Lemma nothrow_toggle_body choice b id : nothrow (toggle_body choice b id).
Proof. apply nothrow_when, nothrow_setLayoutProperty. Qed.

Lemma toggle_body_layers choice b id w :
  layers (map (run (toggle_body choice b id) w)) = alter (toggled choice b id) id (layers (map w)).
Proof.
  unfold toggle_body, toggled. destruct (_ || _); cbn [when].
  - apply setLayoutProperty_layers.
  - symmetry. apply alter_id. done.
Qed.

Lemma style_toggle_body choice b id : preserves only_style (toggle_body choice b id).
Proof. unfold toggle_body. style. Qed.

Lemma chosen_spec choice id :
  String.eqb choice "all" || String.eqb id choice = true <-> choice = "all" \/ id = choice.
Proof. rewrite orb_true_iff, !String.eqb_eq. done. Qed.

Lemma onTripsCheckboxChange_ok b w :
  "tripFilter" ∈ elements (document w) ->
  let choice := default "" (values (document w) !! "tripFilter") in
  exists w1,
    onTripsCheckboxChange b w = (Ok tt, w1)
    /\ layers (map w1) = restyle (toggled choice b) (tripLayers (globals w)) (layers (map w))
    /\ only_style w w1.
Proof.
  intros H1 choice.
  set (tl := tripLayers (globals w)).
  exists (run (forEach tl (toggle_body choice b)) w).
  split; [|split].
  - unfold onTripsCheckboxChange. fold (toggle_body choice b).
    rewrite (bind_ok _ _ w choice w).
    + rewrite (bind_ok _ _ w tl w) by reflexivity.
      apply nothrow_result, nothrow_forEach. intros id. apply nothrow_toggle_body.
    + unfold get_value, element. exec. by rewrite decide_True.
  - apply forEach_restyle; [intros id; apply nothrow_toggle_body|].
    intros id w0. apply toggle_body_layers.
  - apply (preserves_forEach only_style). intros id. apply style_toggle_body.
Qed.

(** X10.  The trips checkbox acts on the trips the filter selects: with
    "all" chosen every trip layer becomes visible or hidden with the
    checkbox, with one trip chosen only that trip does, and every other
    layer is left exactly as it was.  Paint and filter of the layers are
    untouched. *)
Theorem trips_checkbox_respects_the_filter (CONFIG : Config) (w : World) (b : bool) :
  List.filter (matches (CheckboxChange "tripsCheckbox" b)) (listeners w)
    = [OnChange "tripsCheckbox"] ->
  "tripFilter" ∈ elements (document w) ->
  let choice := default "" (values (document w) !! "tripFilter") in
  let w' := step (handler CONFIG) w (CheckboxChange "tripsCheckbox" b) in
  (forall id l,
      id ∈ tripLayers (globals w) -> layers (map w) !! id = Some l ->
      choice = "all" \/ id = choice ->
      exists l', layers (map w') !! id = Some l'
        /\ layout l' !! "visibility" = Some (if b then "visible" else "none")
        /\ paint l' = paint l /\ filter l' = filter l)
  /\ (forall id,
        ~ (id ∈ tripLayers (globals w) /\ (choice = "all" \/ id = choice)) ->
        layers (map w') !! id = layers (map w) !! id).
Proof.
  intros Hls H1. cbv zeta. deliver Hls.
  set (w0 := run (browser_default (CheckboxChange "tripsCheckbox" b)) w).
  assert (Hw0 : layers (map w0) = layers (map w)
                /\ tripLayers (globals w0) = tripLayers (globals w)
                /\ elements (document w0) = elements (document w)
                /\ values (document w0) = values (document w)).
  { unfold w0, browser_default. exec. by repeat split. }
  destruct Hw0 as (Hl0 & Ht0 & He0 & Hv0).
  destruct (onTripsCheckboxChange_ok b w0) as (w1 & Hrun & Hlay & _); [by rewrite He0|].
  rewrite (run_uncaught_at _ _ _ Hrun), Hlay, Ht0, Hl0, Hv0.
  set (choice := default "" (values (document w) !! "tripFilter")).
  split.
  - intros id l Hid Hl Hch.
    destruct (restyle_lookup same_but_layout
                (fun l' => layout l' !! "visibility" = Some (if b then "visible" else "none"))
                (toggled choice b) (tripLayers (globals w)) (layers (map w)) id l)
      as (l' & Hl' & HR & HP); [| |done|].
    { intros l0. unfold toggled. by destruct (_ || _). }
    { intros l0. unfold toggled. rewrite (proj2 (chosen_spec choice id) Hch).
      cbn. apply lookup_insert_eq. }
    exists l'. split; [exact Hl'|]. split; [by apply HP|].
    split; [apply (sbl_paint _ _ HR)|apply (sbl_filter _ _ HR)].
  - intros id Hno. destruct (decide (id ∈ tripLayers (globals w))) as [Hin|Hnin];
      [|by apply restyle_other].
    destruct (layers (map w) !! id) as [l|] eqn:Hl; [|by apply restyle_absent].
    destruct (restyle_lookup eq (fun _ => True)
                (toggled choice b) (tripLayers (globals w)) (layers (map w)) id l)
      as (l' & Hl' & <- & _); [|done|done|done].
    intros l0. unfold toggled.
    destruct (String.eqb choice "all" || String.eqb id choice) eqn:E; [|done].
    destruct Hno. split; [exact Hin|]. by apply chosen_spec.
Qed.

(** ** The speed segments checkbox *)

Definition default_colour : paint_value := PStr "#FF6600".

Definition segments (b : bool) (mode : string) (l : layer) : layer :=
  if b then
    set_paint "line-width" (PNum 3)
      (set_paint "line-color" (PExpr (getSpeedColorExpression mode)) l)
  else
    set_paint "line-width" (PNum 2) (set_paint "line-color" default_colour l).

Definition segments_body (b : bool) (mode : string) (layerId : string) : M unit :=
  if b then
    setPaintProperty layerId "line-color" (PExpr (getSpeedColorExpression mode));;
    setPaintProperty layerId "line-width" (PNum 3)
  else
    setPaintProperty layerId "line-color" default_colour;;
    setPaintProperty layerId "line-width" (PNum 2).

Lemma nothrow_segments_body b mode id : nothrow (segments_body b mode id).
Proof.
  unfold segments_body. destruct b;
    (apply nothrow_bind; [|intros _]; apply nothrow_setPaintProperty).
Qed.

Lemma segments_body_layers b mode id w :
  layers (map (run (segments_body b mode id) w)) = alter (segments b mode) id (layers (map w)).
Proof.
  unfold segments_body, segments. destruct b;
    rewrite run_seq by apply nothrow_setPaintProperty;
    rewrite !setPaintProperty_layers, alter_alter_eq; reflexivity.
Qed.

Lemma style_segments_body b mode id : preserves only_style (segments_body b mode id).
Proof. unfold segments_body. destruct b; style. Qed.

Definition legend (b : bool) (w : World) : World :=
  with_dom (dom_display <["speedLegend" := if b then "block" else "none"]>) w.

Lemma onSpeedSegmentsChange_ok b w :
  "speedLegend" ∈ elements (document w) ->
  exists w1,
    onSpeedSegmentsChange b w = (Ok tt, legend b w1)
    /\ layers (map w1)
       = restyle (fun _ => segments b (speedMode (globals w))) (tripLayers (globals w))
                 (layers (map w))
    /\ only_style w w1.
Proof.
  intros H1.
  set (tl := tripLayers (globals w)). set (mode := speedMode (globals w)).
  exists (run (forEach tl (segments_body b mode)) w).
  assert (Hs : only_style w (run (forEach tl (segments_body b mode)) w)).
  { apply (preserves_forEach only_style). intros id. apply style_segments_body. }
  assert (Hrun : forEach tl (segments_body b mode) w
                 = (Ok tt, run (forEach tl (segments_body b mode)) w)).
  { apply nothrow_result, nothrow_forEach. intros id. apply nothrow_segments_body. }
  pose proof (os_document _ _ Hs) as Hd.
  split; [|split; [|exact Hs]].
  - set (w1 := run (forEach tl (segments_body b mode)) w) in *. clearbody w1.
    rewrite <- Hd in H1. unfold onSpeedSegmentsChange.
    rewrite (bind_ok _ _ w tl w) by reflexivity.
    destruct b.
    + rewrite (bind_ok _ _ w mode w) by reflexivity.
      change (forEach tl _) with (forEach tl (segments_body true mode)).
      rewrite (bind_ok _ _ w tt _ Hrun).
      unfold set_display, element, legend. exec. by rewrite decide_True.
    + change (forEach tl _) with (forEach tl (segments_body false mode)).
      rewrite (bind_ok _ _ w tt _ Hrun).
      unfold set_display, element, legend. exec. by rewrite decide_True.
  - apply forEach_restyle; [intros id; apply nothrow_segments_body|].
    intros id w0. apply segments_body_layers.
Qed.

Definition colour_and_width : list string := ["line-color"; "line-width"].

Lemma segments_same_but_paint b mode l :
  same_but_paint colour_and_width l (segments b mode l).
Proof.
  unfold segments, colour_and_width. destruct b.
  - etrans; [apply (same_but_paint_set _ "line-color")|apply (same_but_paint_set _ "line-width")];
      set_solver.
  - etrans; [apply (same_but_paint_set _ "line-color")|apply (same_but_paint_set _ "line-width")];
      set_solver.
Qed.

Lemma segments_paint b mode l :
  paint (segments b mode l) !! "line-color"
    = Some (if b then PExpr (getSpeedColorExpression mode) else default_colour)
  /\ paint (segments b mode l) !! "line-width" = Some (PNum (if b then 3 else 2)).
Proof.
  unfold segments. destruct b; cbn; split;
    first [apply lookup_insert_eq | by rewrite lookup_insert_ne, lookup_insert_eq].
Qed.

(** One change of the speed segments checkbox. *)
Lemma speed_segments_step CONFIG w b :
  List.filter (matches (CheckboxChange "speedSegmentsCheckbox" b)) (listeners w)
    = [OnChange "speedSegmentsCheckbox"] ->
  "speedLegend" ∈ elements (document w) ->
  let w' := step (handler CONFIG) w (CheckboxChange "speedSegmentsCheckbox" b) in
  layers (map w')
    = restyle (fun _ => segments b (speedMode (globals w))) (tripLayers (globals w))
              (layers (map w))
  /\ display (document w') !! "speedLegend" = Some (if b then "block" else "none")
  /\ globals w' = globals w
  /\ elements (document w') = elements (document w)
  /\ listeners w' = listeners w.
Proof.
  intros Hls H1. cbv zeta. deliver Hls.
  set (w0 := run (browser_default (CheckboxChange "speedSegmentsCheckbox" b)) w).
  assert (Hw0 : layers (map w0) = layers (map w) /\ globals w0 = globals w
                /\ elements (document w0) = elements (document w)
                /\ listeners w0 = listeners w).
  { unfold w0, browser_default. exec. by repeat split. }
  destruct Hw0 as (Hl0 & Hg0 & He0 & Hli0).
  destruct (onSpeedSegmentsChange_ok b w0) as (w1 & Hrun & Hlay & Hs); [by rewrite He0|].
  rewrite (run_uncaught_at _ _ _ Hrun).
  pose proof (os_document _ _ Hs) as Hd. pose proof (os_globals _ _ Hs) as Hg.
  pose proof (os_listeners _ _ Hs) as Hli.
  split; [|split; [|split; [|split]]].
  - change (layers (map (legend b w1))) with (layers (map w1)).
    by rewrite Hlay, Hg0, Hl0.
  - unfold legend. exec. apply lookup_insert_eq.
  - change (globals (legend b w1)) with (globals w1). by rewrite Hg.
  - change (elements (document (legend b w1))) with (elements (document w1)).
    by rewrite Hd.
  - change (listeners (legend b w1)) with (listeners w1). by rewrite Hli.
Qed.

(** X11.  Checking the speed segments box colours every trip layer
    with the expression of the current speed mode, at line-width 3, and
    shows the legend; unchecking it afterwards gives every trip layer the
    colour #FF6600 and line-width 2 and hides the legend.  When the trip
    layers had that colour and width before (as they have after the
    load), checking and unchecking restores the style exactly. *)
Theorem speed_segments_round_trip (CONFIG : Config) (w : World) :
  List.filter (matches (CheckboxChange "speedSegmentsCheckbox" true)) (listeners w)
    = [OnChange "speedSegmentsCheckbox"] ->
  "speedLegend" ∈ elements (document w) ->
  let shown := step (handler CONFIG) w (CheckboxChange "speedSegmentsCheckbox" true) in
  let hidden := step (handler CONFIG) shown (CheckboxChange "speedSegmentsCheckbox" false) in
  (forall id, id ∈ tripLayers (globals w) -> is_Some (layers (map w) !! id) ->
      paint_of shown id "line-color"
        = Some (PExpr (getSpeedColorExpression (speedMode (globals w))))
      /\ paint_of shown id "line-width" = Some (PNum 3)
      /\ paint_of hidden id "line-color" = Some (PStr "#FF6600")
      /\ paint_of hidden id "line-width" = Some (PNum 2))
  /\ display (document shown) !! "speedLegend" = Some "block"
  /\ display (document hidden) !! "speedLegend" = Some "none"
  /\ ((forall id l, id ∈ tripLayers (globals w) -> layers (map w) !! id = Some l ->
         paint l !! "line-color" = Some (PStr "#FF6600")
         /\ paint l !! "line-width" = Some (PNum 2)) ->
      layers (map hidden) = layers (map w)).
Proof.
  intros Hls H1. cbv zeta.
  destruct (speed_segments_step CONFIG w true Hls H1) as (Hlay1 & Hdis1 & Hg1 & He1 & Hli1).
  set (shown := step (handler CONFIG) w (CheckboxChange "speedSegmentsCheckbox" true)) in *.
  destruct (speed_segments_step CONFIG shown false) as (Hlay2 & Hdis2 & _);
    [by rewrite Hli1|by rewrite He1|].
  set (hidden := step (handler CONFIG) shown (CheckboxChange "speedSegmentsCheckbox" false)) in *.
  rewrite Hg1 in Hlay2.
  set (mode := speedMode (globals w)) in *. set (tl := tripLayers (globals w)) in *.
  assert (Hboth : forall id l, layers (map w) !! id = Some l ->
            exists l1 l2, layers (map shown) !! id = Some l1
              /\ layers (map hidden) !! id = Some l2
              /\ same_but_paint colour_and_width l l2
              /\ (id ∈ tl ->
                  paint l1 !! "line-color" = Some (PExpr (getSpeedColorExpression mode))
                  /\ paint l1 !! "line-width" = Some (PNum 3)
                  /\ paint l2 !! "line-color" = Some (PStr "#FF6600")
                  /\ paint l2 !! "line-width" = Some (PNum 2))).
  { intros id l Hl.
    destruct (restyle_lookup (same_but_paint colour_and_width)
                (fun l' => paint l' !! "line-color" = Some (PExpr (getSpeedColorExpression mode))
                           /\ paint l' !! "line-width" = Some (PNum 3))
                (fun _ => segments true mode) tl (layers (map w)) id l)
      as (l1 & Hl1 & HR1 & HP1);
      [intros l0; apply segments_same_but_paint|intros l0; apply (segments_paint true)|done|].
    rewrite <- Hlay1 in Hl1.
    destruct (restyle_lookup (same_but_paint colour_and_width)
                (fun l' => paint l' !! "line-color" = Some (PStr "#FF6600")
                           /\ paint l' !! "line-width" = Some (PNum 2))
                (fun _ => segments false mode) tl (layers (map shown)) id l1)
      as (l2 & Hl2 & HR2 & HP2);
      [intros l0; apply segments_same_but_paint|intros l0; apply (segments_paint false)|done|].
    rewrite <- Hlay2 in Hl2.
    exists l1, l2. split; [exact Hl1|]. split; [exact Hl2|].
    split; [by etrans|]. intros Hid.
    destruct (HP1 Hid) as [? ?], (HP2 Hid) as [? ?]. by repeat split. }
  split; [|split; [exact Hdis1|split; [exact Hdis2|]]].
  - intros id Hid [l Hl]. destruct (Hboth id l Hl) as (l1 & l2 & Hl1 & Hl2 & _ & HP).
    destruct (HP Hid) as (? & ? & ? & ?).
    unfold paint_of. rewrite Hl1, Hl2. cbn. by repeat split.
  - intros Hdef. apply map_eq. intros id.
    destruct (layers (map w) !! id) as [l|] eqn:Hl.
    + destruct (Hboth id l Hl) as (l1 & l2 & Hl1 & Hl2 & HR & HP).
      rewrite Hl2. f_equal.
      destruct (decide (id ∈ tl)) as [Hin|Hnin].
      * apply (same_but_paint_eq colour_and_width); [exact HR|].
        destruct (HP Hin) as (_ & _ & Hc & Hw), (Hdef id l Hin Hl) as [Hc' Hw'].
        intros k Hk. unfold colour_and_width in Hk.
        apply elem_of_cons in Hk as [->|Hk]; [congruence|].
        apply list_elem_of_singleton in Hk as ->. congruence.
      * rewrite Hlay2, restyle_other in Hl2 by done.
        rewrite Hlay1, restyle_other in Hl2 by done. congruence.
    + rewrite Hlay2. apply restyle_absent. rewrite Hlay1. by apply restyle_absent.
Qed.

(** ** The speed mode radio buttons *)

Definition recolour (e : expr) (l : layer) : layer := set_paint "line-color" (PExpr e) l.

Definition recolour_body (e : expr) (layerId : string) : M unit :=
  setPaintProperty layerId "line-color" (PExpr e).

Lemma recolour_same_but_paint e l : same_but_paint ["line-color"] l (recolour e l).
Proof. apply same_but_paint_set. set_solver. Qed.

(** The layers after the radio listener. *)
Definition mode_layers (v : string) (segments_ aggregated : bool) (tl : list string)
    (m : gmap string layer) : gmap string layer :=
  let m1 := if segments_ then restyle (fun _ => recolour (getSpeedColorExpression v)) tl m
            else m in
  if aggregated
  then alter (recolour (getAggregatedSpeedColorExpression v)) aggregated_layer m1
  else m1.

Lemma onSpeedModeChange_ok v w :
  "speedSegmentsCheckbox" ∈ elements (document w) ->
  "aggregatedCheckbox" ∈ elements (document w) ->
  let segments_ := default false (checked (document w) !! "speedSegmentsCheckbox") in
  let aggregated := default false (checked (document w) !! "aggregatedCheckbox") in
  exists w',
    onSpeedModeChange v w = (Ok tt, w')
    /\ layers (map w')
       = mode_layers v segments_ aggregated (tripLayers (globals w)) (layers (map w))
    /\ speedMode (globals w') = v
    /\ (segments_ = false -> aggregated = false -> map w' = map w).
Proof.
  intros H1 H2 segments_ aggregated.
  set (tl := tripLayers (globals w)).
  set (w1 := with_globals (set_speedMode v) w).
  set (loop := forEach tl (recolour_body (getSpeedColorExpression v))).
  assert (Hn : nothrow loop).
  { apply nothrow_forEach. intros id. apply nothrow_setPaintProperty. }
  set (w2 := if segments_ then run loop w1 else w1).
  assert (Hs : only_style w1 w2).
  { unfold w2. destruct segments_; [|reflexivity].
    apply (preserves_forEach only_style). intros id. unfold recolour_body. style. }
  assert (Hl2 : layers (map w2)
                = if segments_ then restyle (fun _ => recolour (getSpeedColorExpression v)) tl
                                            (layers (map w))
                  else layers (map w)).
  { unfold w2. destruct segments_; [|reflexivity].
    change (layers (map w)) with (layers (map w1)).
    apply (forEach_restyle _ (fun _ => recolour (getSpeedColorExpression v)));
      [intros id; apply nothrow_setPaintProperty|].
    intros id w0. apply setPaintProperty_layers. }
  set (paint_aggregated :=
         setPaintProperty "aggregated-routes-layer" "line-color"
           (PExpr (getAggregatedSpeedColorExpression v))).
  set (w3 := if aggregated then run paint_aggregated w2 else w2).
  exists w3.
  assert (Hd : document w2 = document w) by exact (os_document _ _ Hs).
  pose proof (os_globals _ _ Hs) as Hg.
  split; [|split; [|split]].
  - unfold onSpeedModeChange.
    rewrite (bind_ok _ _ w tt w1) by reflexivity.
    rewrite (bind_ok _ _ w1 segments_ w1)
      by (unfold get_checked, element; exec; by rewrite decide_True).
    rewrite (bind_ok _ _ w1 tt w2).
    + rewrite (bind_ok _ _ w2 aggregated w2).
      * unfold w3. destruct aggregated; cbn [when]; [|reflexivity].
        apply nothrow_result, nothrow_setPaintProperty.
      * clearbody w2. rewrite <- Hd in H2. unfold get_checked, element, aggregated. exec.
        rewrite decide_True by done. by rewrite Hd.
    + unfold w2. destruct segments_; cbn [when]; [|reflexivity].
      rewrite (bind_ok _ _ w1 tl w1) by reflexivity. by apply nothrow_result.
  - unfold w3, mode_layers. destruct aggregated.
    + unfold paint_aggregated. by rewrite setPaintProperty_layers, Hl2.
    + exact Hl2.
  - unfold w3. destruct aggregated.
    + assert (H : only_style w2 (run paint_aggregated w2))
        by (unfold paint_aggregated; style).
      by rewrite (os_globals _ _ H), Hg.
    + by rewrite Hg.
  - intros Hseg Hagg. unfold w3, w2. by rewrite Hseg, Hagg.
Qed.

(** X12.  Choosing a speed mode records it and recolours what is
    currently shown with speed colours, and nothing else: the trip
    layers when the speed segments box is checked, the aggregated layer
    when its box is checked.  With both boxes unchecked the map is not
    touched at all.  Only the line-color of a layer ever changes. *)
Theorem speed_mode_recolours_what_is_shown (CONFIG : Config) (w : World) (v : string) :
  List.filter (matches (RadioChange "speedMode" v)) (listeners w)
    = [OnRadioChange "speedMode"] ->
  "speedSegmentsCheckbox" ∈ elements (document w) ->
  "aggregatedCheckbox" ∈ elements (document w) ->
  let segments_ := default false (checked (document w) !! "speedSegmentsCheckbox") in
  let aggregated := default false (checked (document w) !! "aggregatedCheckbox") in
  let w' := step (handler CONFIG) w (RadioChange "speedMode" v) in
  speedMode (globals w') = v
  /\ (segments_ = true ->
      forall id, id ∈ tripLayers (globals w) -> id <> aggregated_layer ->
        is_Some (layers (map w) !! id) ->
        paint_of w' id "line-color" = Some (PExpr (getSpeedColorExpression v)))
  /\ (aggregated = true ->
      is_Some (layers (map w) !! aggregated_layer) ->
      paint_of w' aggregated_layer "line-color"
        = Some (PExpr (getAggregatedSpeedColorExpression v)))
  /\ (segments_ = false -> aggregated = false -> map w' = map w)
  /\ (forall id l, layers (map w) !! id = Some l ->
        exists l', layers (map w') !! id = Some l' /\ same_but_paint ["line-color"] l l').
Proof.
  intros Hls H1 H2. cbv zeta. deliver Hls.
  set (w0 := run (browser_default (RadioChange "speedMode" v)) w).
  assert (Hw0 : map w0 = map w /\ tripLayers (globals w0) = tripLayers (globals w)
                /\ elements (document w0) = elements (document w)
                /\ checked (document w0) = checked (document w)).
  { unfold w0, browser_default. exec. by repeat split. }
  destruct Hw0 as (Hm0 & Ht0 & He0 & Hc0).
  destruct (onSpeedModeChange_ok v w0) as (w' & Hrun & Hlay & Hmode & Hnone);
    [by rewrite He0..|].
  rewrite (run_uncaught_at _ _ _ Hrun). rewrite Hc0, Ht0, Hm0 in Hlay. rewrite Hc0, Hm0 in Hnone.
  set (segments_ := default false (checked (document w) !! "speedSegmentsCheckbox")) in *.
  set (aggregated := default false (checked (document w) !! "aggregatedCheckbox")) in *.
  set (tl := tripLayers (globals w)) in *.
  assert (Hstep1 : forall id l, layers (map w) !! id = Some l ->
            exists l1,
              (if segments_
               then restyle (fun _ => recolour (getSpeedColorExpression v)) tl (layers (map w))
               else layers (map w)) !! id = Some l1
              /\ same_but_paint ["line-color"] l l1
              /\ (segments_ = true -> id ∈ tl ->
                  paint l1 !! "line-color" = Some (PExpr (getSpeedColorExpression v)))).
  { intros id l Hl. destruct segments_.
    - destruct (restyle_lookup (same_but_paint ["line-color"])
                  (fun l' => paint l' !! "line-color"
                             = Some (PExpr (getSpeedColorExpression v)))
                  (fun _ => recolour (getSpeedColorExpression v)) tl (layers (map w)) id l)
        as (l1 & Hl1 & HR & HP);
        [intros l0; apply recolour_same_but_paint
        |intros l0; apply lookup_insert_eq|done|].
      exists l1. split; [exact Hl1|]. split; [exact HR|]. intros _. exact HP.
    - exists l. split; [exact Hl|]. split; [reflexivity|]. discriminate. }
  split; [exact Hmode|]. split; [|split; [|split; [exact Hnone|]]].
  - intros Hseg id Hid Hne [l Hl]. destruct (Hstep1 id l Hl) as (l1 & Hl1 & _ & HP).
    unfold paint_of. rewrite Hlay. unfold mode_layers.
    destruct aggregated; [rewrite lookup_alter_ne by done|]; rewrite Hl1; cbn; by apply HP.
  - intros Hagg [l Hl]. destruct (Hstep1 _ l Hl) as (l1 & Hl1 & _ & _).
    unfold paint_of. rewrite Hlay. unfold mode_layers. rewrite Hagg.
    rewrite lookup_alter_eq, Hl1. cbn. apply lookup_insert_eq.
  - intros id l Hl. destruct (Hstep1 id l Hl) as (l1 & Hl1 & HR & _).
    rewrite Hlay. unfold mode_layers. destruct aggregated.
    + destruct (decide (aggregated_layer = id)) as [<-|Hne].
      * rewrite lookup_alter_eq, Hl1. cbn. eexists. split; [reflexivity|].
        etrans; [exact HR|apply recolour_same_but_paint].
      * rewrite lookup_alter_ne by done. by exists l1.
    + by exists l1.
Qed.

(** ** The aggregated controls do not interfere *)

Definition shown_as (b : bool) : string := if b then "visible" else "none".

(** X13.  The two aggregated controls are independent.  The checkbox
    sets the layer's visibility and never changes its filter, so a
    minimum-sample filter survives hiding and showing the layer; when the
    box is unchecked the paint and the legend are left alone as well.
    The slider sets the filter and changes neither paint nor layout. *)
Theorem aggregated_controls_are_independent (CONFIG : Config) (w : World) (l : layer) :
  layers (map w) !! aggregated_layer = Some l ->
  (forall b,
      List.filter (matches (CheckboxChange "aggregatedCheckbox" b)) (listeners w)
        = [OnChange "aggregatedCheckbox"] ->
      let w' := step (handler CONFIG) w (CheckboxChange "aggregatedCheckbox" b) in
      exists l', layers (map w') !! aggregated_layer = Some l'
        /\ layout l' !! "visibility" = Some (shown_as b)
        /\ filter l' = filter l
        /\ (forall k, k <> "line-color" -> paint l' !! k = paint l !! k)
        /\ (b = false -> paint l' = paint l /\ display (document w') = display (document w)))
  /\ (forall v,
        List.filter (matches (SliderInput "minSamplesSlider" v)) (listeners w)
          = [OnInput "minSamplesSlider"] ->
        "minSamplesValue" ∈ elements (document w) ->
        let w' := step (handler CONFIG) w (SliderInput "minSamplesSlider" v) in
        exists l', layers (map w') !! aggregated_layer = Some l'
          /\ filter l' = Some (EGe (EGet "sample_count") (ENum (JS.parseInt v)))
          /\ paint l' = paint l /\ layout l' = layout l).
Proof.
  intros Hl. split.
  - intros b Hls. cbv zeta. deliver Hls.
    unfold onAggregatedCheckboxChange, setLayoutProperty, setPaintProperty, update_layer,
      checked_radio_value, set_display, element, browser_default, aggregated_layer in *.
    destruct b; exec; rewrite Hl; exec.
    + destruct (radio (document w) !! "speedMode") as [m|] eqn:Hr; exec.
      * rewrite lookup_insert_eq. exec.
        case_decide; exec; rewrite lookup_insert_eq; eexists; (split; [reflexivity|]);
          cbn; (split; [apply lookup_insert_eq|]); (split; [reflexivity|]);
          (split; [|discriminate]); intros k Hk; by rewrite lookup_insert_ne.
      * rewrite lookup_insert_eq. eexists. split; [reflexivity|]. cbn.
        split; [apply lookup_insert_eq|]. split; [reflexivity|]. split; [done|discriminate].
    + rewrite lookup_insert_eq. eexists. split; [reflexivity|]. cbn.
      split; [apply lookup_insert_eq|]. split; [reflexivity|]. split; [done|done].
  - intros v Hls He. cbv zeta. deliver Hls.
    unfold onMinSamplesInput, set_textContent, element, setFilter, update_layer,
      browser_default, aggregated_layer in *.
    exec. rewrite decide_True by done. exec. rewrite Hl. exec.
    rewrite lookup_insert_eq. eexists. by repeat split.
Qed.

End ControlFacts.

(* ===================================================================== *)
(** * What a successful load establishes                                 *)
(* ===================================================================== *)

Module LoadingFacts.
Import LoopFacts ControlFacts.

(** The three listeners registered for a clickable layer. *)
Definition layer_listeners (layerId : string) : list listener :=
  [OnLayerClick layerId; OnLayerMouseEnter layerId; OnLayerMouseLeave layerId].

Definition register_layer (layerId : string) : M unit :=
  on (OnLayerClick layerId);;
  on (OnLayerMouseEnter layerId);;
  on (OnLayerMouseLeave layerId).

Lemma register_layers_ok (tl : list string) w :
  forEach tl register_layer w
  = (Ok tt, with_listeners (fun ls => ls ++ flat_map layer_listeners tl) w).
Proof.
  revert w. induction tl as [|id tl IH]; intros w.
  - cbn. unfold with_listeners. exec. by rewrite app_nil_r.
  - cbn [forEach flat_map].
    rewrite (bind_ok _ _ w tt (with_listeners (fun ls => ls ++ layer_listeners id) w)).
    + rewrite IH. unfold with_listeners, layer_listeners. exec. by rewrite <- !app_assoc.
    + unfold register_layer, layer_listeners. exec. by rewrite <- !app_assoc.
Qed.

(** Appending one option per trip to the filter. *)
Definition add_option (label : string -> string) (layerId : string) : M unit :=
  element "tripFilter";;
  modify (with_dom (dom_options (fun os => os ++ [(layerId, label layerId)]))).

Lemma add_options_ok (label : string -> string) (tl : list string) w :
  "tripFilter" ∈ elements (document w) ->
  forEach tl (add_option label) w
  = (Ok tt, with_dom (dom_options (fun os => os ++ ((fun id => (id, label id)) <$> tl))) w).
Proof.
  intros He. revert w He. induction tl as [|id tl IH]; intros w He.
  - cbn. unfold with_dom, dom_options. exec. by rewrite app_nil_r.
  - cbn [forEach fmap list_fmap].
    rewrite (bind_ok _ _ w tt (with_dom (dom_options (fun os => os ++ [(id, label id)])) w)).
    + rewrite IH by exact He. unfold with_dom, dom_options. exec. by rewrite <- !app_assoc.
    + unfold add_option, element. exec. by rewrite decide_True.
Qed.

(** Adding one layer per trip, all on the source [src]. *)
Lemma nothrow_addLayer id l : nothrow (addLayer id l).
Proof.
  unfold addLayer. apply nothrow_bind; [apply nothrow_called|intros _].
  apply nothrow_bind; [apply nothrow_gets|intros m].
  destruct (layers m !! id), (sources m !! layer_source l);
    first [apply nothrow_modify|apply nothrow_fire_error].
Qed.

Lemma style_addLayer id l : preserves only_style (addLayer id l).
Proof.
  unfold addLayer. apply preserves_bind; [apply _|style|intros _].
  apply preserves_bind; [apply _|style|intros m].
  destruct (layers m !! id), (sources m !! layer_source l); style.
Qed.

Lemma addLayer_layers id l w :
  is_Some (sources (map w) !! layer_source l) ->
  layers (map (run (addLayer id l) w))
  = match layers (map w) !! id with
    | None => <[id := l]> (layers (map w))
    | Some _ => layers (map w)
    end.
Proof.
  intros [s Hs]. unfold addLayer, fire_error. exec. rewrite Hs.
  destruct (layers (map w) !! id); exec; [|reflexivity].
  by destruct (existsb _ _).
Qed.

Lemma add_layers_layers (mk : string -> layer) (src : string) (tl : list string) w :
  (forall id, layer_source (mk id) = src) ->
  is_Some (sources (map w) !! src) ->
  (forall id, id ∈ tl -> layers (map w) !! id = None \/ layers (map w) !! id = Some (mk id)) ->
  let w' := run (forEach tl (fun id => addLayer id (mk id))) w in
  (forall id, id ∈ tl -> layers (map w') !! id = Some (mk id))
  /\ (forall id, id ∉ tl -> layers (map w') !! id = layers (map w) !! id).
Proof.
  intros Hsrc. revert w. induction tl as [|x tl IH]; intros w Hs Hfree; cbv zeta.
  - split; [intros id Hid; by apply elem_of_nil in Hid|done].
  - cbn [forEach]. rewrite run_seq by apply nothrow_addLayer.
    set (w1 := run (addLayer x (mk x)) w).
    assert (Hl1 : layers (map w1) = match layers (map w) !! x with
                                    | None => <[x := mk x]> (layers (map w))
                                    | Some _ => layers (map w)
                                    end).
    { apply addLayer_layers. by rewrite Hsrc. }
    assert (Hx : layers (map w1) !! x = Some (mk x)).
    { rewrite Hl1. destruct (Hfree x) as [Hn|Hsome]; [by left| |].
      - rewrite Hn. apply lookup_insert_eq.
      - by rewrite Hsome. }
    assert (Hother : forall id, id <> x -> layers (map w1) !! id = layers (map w) !! id).
    { intros id Hne. rewrite Hl1. destruct (layers (map w) !! x); [done|].
      by rewrite lookup_insert_ne. }
    destruct (IH w1) as [IH1 IH2].
    { unfold w1. rewrite (os_sources _ _ (style_addLayer x (mk x) w)). exact Hs. }
    { intros id Hid. destruct (decide (id = x)) as [->|Hne]; [by right|].
      rewrite Hother by done. apply Hfree. by right. }
    split.
    + intros id Hid. destruct (decide (id ∈ tl)) as [Hin|Hnin]; [by apply IH1|].
      apply elem_of_cons in Hid as [->|Hid]; [|done]. by rewrite IH2.
    + intros id Hid. apply not_elem_of_cons in Hid as [Hne Hnin].
      rewrite IH2 by done. by apply Hother.
Qed.

Lemma try_catch_ok {A} (m : M A) h w a w' :
  m w = (Ok a, w') -> try_catch m h w = (Ok a, w').
Proof. intros H. unfold try_catch. by rewrite H. Qed.

Lemma addSource_ok id src w :
  sources (map w) !! id = None ->
  addSource id src w
  = (Ok tt, with_map (map_sources <[id := src]>) (with_map (map_called (CallAddSource id)) w)).
Proof. intros H. unfold addSource. exec. by rewrite H. Qed.

(** ** [src/app.js] *)

(** The layer added for a trip. *)
Definition app_trip_layer (layerId : string) : layer :=
  line_layer "trips" (Some layerId) (PStr "#FF6600") 2 0.4 None.

Definition trip_controls : list listener :=
  [OnChange "tripFilter"; OnChange "tripsCheckbox"; OnChange "speedSegmentsCheckbox";
   OnRadioChange "speedMode"].

Lemma setupTripControls_ok w :
  "tripFilter" ∈ elements (document w) ->
  "tripsCheckbox" ∈ elements (document w) ->
  "speedSegmentsCheckbox" ∈ elements (document w) ->
  AppJs.setupTripControls w
  = (Ok tt, with_listeners
              (fun ls => ls ++ trip_controls ++ flat_map layer_listeners (tripLayers (globals w)))
              w).
Proof.
  intros H1 H2 H3. unfold AppJs.setupTripControls.
  rewrite (bind_ok _ _ w tt (with_listeners (fun ls => ls ++ [OnChange "tripFilter"]) w))
    by (unfold addEventListener, element; exec; by rewrite decide_True).
  rewrite (bind_ok _ _ _ tt
             (with_listeners (fun ls => ls ++ [OnChange "tripFilter"; OnChange "tripsCheckbox"])
                             w))
    by (unfold addEventListener, element; exec; rewrite decide_True by done;
        by rewrite <- app_assoc).
  rewrite (bind_ok _ _ _ tt
             (with_listeners (fun ls => ls ++ [OnChange "tripFilter"; OnChange "tripsCheckbox";
                                               OnChange "speedSegmentsCheckbox"]) w))
    by (unfold addEventListener, element; exec; rewrite decide_True by done;
        by rewrite <- !app_assoc).
  rewrite (bind_ok _ _ _ tt (with_listeners (fun ls => ls ++ trip_controls) w))
    by (unfold trip_controls; exec; by rewrite <- !app_assoc).
  rewrite (bind_ok _ _ _ (tripLayers (globals w)) (with_listeners (fun ls => ls ++ trip_controls) w))
    by reflexivity.
  change (forEach ?tl _) with (forEach tl register_layer).
  rewrite register_layers_ok. unfold with_listeners. exec. by rewrite <- !app_assoc.
Qed.

(** The world when the metadata has been read and the source added. *)
Definition app_metadata_read (CONFIG : Config) (ids : list string) (w : World) : World :=
  with_console (fun c => c ++ [ConsoleLog "Found trip layers:"])
    (with_globals (set_tripLayers ids)
       (with_console (fun c => c ++ [ConsoleLog "TileJSON response:"])
          (with_map (map_sources <["trips" := VectorSource (PMTILES_URL CONFIG)]>)
             (with_map (map_called (CallAddSource "trips"))
                (with_console
                   (fun c => c ++ [ConsoleLog ("Fetching PMTiles from: " +:+ PMTILES_URL CONFIG)])
                   w))))).

Definition app_layers_added (CONFIG : Config) (ids : list string) (w : World) : World :=
  run (forEach ids (fun id => addLayer id (app_trip_layer id))) (app_metadata_read CONFIG ids w).

Definition app_trips_loaded (CONFIG : Config) (ids : list string) (w : World) : World :=
  stats_updated
    (with_listeners (fun ls => ls ++ trip_controls ++ flat_map layer_listeners ids)
       (with_dom (dom_options (fun os => os ++ ((fun id => (id, NameFacts.app_label id)) <$> ids)))
          (with_console (fun c => c ++ [ConsoleLog "Loaded trip layers"])
             (app_layers_added CONFIG ids w)))).

Lemma app_layers_added_style CONFIG ids w :
  only_style (app_metadata_read CONFIG ids w) (app_layers_added CONFIG ids w).
Proof.
  apply (preserves_forEach only_style). intros id. apply style_addLayer.
Qed.

Lemma app_loadTrips_ok CONFIG net md declared w :
  trips_metadata net = Ok md ->
  vector_layers md = Some declared ->
  sources (map w) !! "trips" = None ->
  "tripFilter" ∈ elements (document w) ->
  "tripsCheckbox" ∈ elements (document w) ->
  "speedSegmentsCheckbox" ∈ elements (document w) ->
  "statTrips" ∈ elements (document w) ->
  "statAvgSpeed" ∈ elements (document w) ->
  AppJs.loadTrips CONFIG net w = (Ok tt, app_trips_loaded CONFIG (vl_id <$> declared) w).
Proof.
  intros Hmd Hvl Hsrc E1 E2 E3 E4 E5.
  set (ids := vl_id <$> declared).
  pose proof (app_layers_added_style CONFIG ids w) as Hs.
  assert (Hd : document (app_layers_added CONFIG ids w) = document w)
    by exact (os_document _ _ Hs).
  assert (Hg : globals (app_layers_added CONFIG ids w)
               = set_tripLayers ids (globals w))
    by exact (os_globals _ _ Hs).
  unfold AppJs.loadTrips.
  erewrite try_catch_bind_ok; [|reflexivity].
  erewrite try_catch_bind_ok; [|by apply addSource_ok].
  rewrite Hmd.
  erewrite try_catch_bind_ok; [|reflexivity].
  erewrite try_catch_bind_ok; [|reflexivity].
  rewrite Hvl.
  erewrite try_catch_bind_ok; [|reflexivity].
  erewrite try_catch_bind_ok; [|reflexivity].
  erewrite try_catch_bind_ok; [|reflexivity].
  erewrite try_catch_bind_ok; [|reflexivity].
  cbv beta.
  erewrite try_catch_bind_ok;
    [|apply nothrow_result, nothrow_forEach; intros id; apply nothrow_addLayer].
  match goal with
  | |- context [run (forEach ?tl ?body) ?w4] =>
      change (run (forEach tl body) w4) with (app_layers_added CONFIG ids w)
  end.
  unfold app_trips_loaded.
  set (w5 := app_layers_added CONFIG ids w) in *. clearbody w5.
  rewrite <- Hd in E1, E2, E3, E4, E5.
  erewrite try_catch_bind_ok; [|reflexivity].
  change (forEach ?tl (fun layerId => _))
    with (forEach tl (add_option NameFacts.app_label)).
  erewrite try_catch_bind_ok; [|by apply add_options_ok].
  erewrite try_catch_bind_ok; [|by apply setupTripControls_ok].
  apply try_catch_ok.
  etrans; [by apply updateStats_ok|].
  unfold stats_updated. exec. rewrite Hg. reflexivity.
Qed.

(** X14.  What a successful trip load in [src/app.js] leaves: the trip
    list is the list of declared layer ids; the source 'trips' is
    registered; every trip has a line layer on that source, drawn in
    #FF6600 at width 2 and opacity 0.4, and no other layer is touched; the
    filter has one more option per trip, labelled with the id without
    its first "_clean" and with spaces for underscores; the four trip
    controls and three map listeners per trip are registered. *)
Theorem app_load_registers_every_trip
    (CONFIG : Config) (net : Network) (md : Metadata) (declared : list VectorLayer)
    (w : World) :
  trips_metadata net = Ok md ->
  vector_layers md = Some declared ->
  sources (map w) !! "trips" = None ->
  (forall id, id ∈ vl_id <$> declared -> layers (map w) !! id = None) ->
  "tripFilter" ∈ elements (document w) ->
  "tripsCheckbox" ∈ elements (document w) ->
  "speedSegmentsCheckbox" ∈ elements (document w) ->
  "statTrips" ∈ elements (document w) ->
  "statAvgSpeed" ∈ elements (document w) ->
  let ids := vl_id <$> declared in
  let w' := run (AppJs.loadTrips CONFIG net) w in
  tripLayers (globals w') = ids
  /\ sources (map w') !! "trips" = Some (VectorSource (PMTILES_URL CONFIG))
  /\ (forall id, id ∈ ids -> layers (map w') !! id = Some (app_trip_layer id))
  /\ (forall id, id ∉ ids -> layers (map w') !! id = layers (map w) !! id)
  /\ options (document w')
     = options (document w) ++ ((fun id => (id, NameFacts.app_label id)) <$> ids)
  /\ listeners w' = listeners w ++ trip_controls ++ flat_map layer_listeners ids.
Proof.
  intros Hmd Hvl Hsrc Hfree E1 E2 E3 E4 E5. cbv zeta.
  unfold run. rewrite (app_loadTrips_ok CONFIG net md declared w) by done.
  cbn [snd]. set (ids := vl_id <$> declared) in *.
  pose proof (app_layers_added_style CONFIG ids w) as Hs.
  destruct (add_layers_layers app_trip_layer "trips" ids (app_metadata_read CONFIG ids w))
    as [Hin Hout].
  { done. }
  { unfold app_metadata_read. exec. rewrite lookup_insert_eq. by eexists. }
  { intros id Hid. left. by apply Hfree. }
  fold (app_layers_added CONFIG ids w) in Hin, Hout.
  assert (Hd : document (app_layers_added CONFIG ids w) = document w)
    by exact (os_document _ _ Hs).
  assert (Hg : globals (app_layers_added CONFIG ids w) = set_tripLayers ids (globals w))
    by exact (os_globals _ _ Hs).
  assert (Hli : listeners (app_layers_added CONFIG ids w) = listeners w)
    by exact (os_listeners _ _ Hs).
  assert (Hso : sources (map (app_layers_added CONFIG ids w))
                = <["trips" := VectorSource (PMTILES_URL CONFIG)]> (sources (map w)))
    by exact (os_sources _ _ Hs).
  unfold app_trips_loaded, stats_updated.
  set (w5 := app_layers_added CONFIG ids w) in *. clearbody w5.
  split; [exec; by rewrite Hg|].
  split; [exec; rewrite Hso; apply lookup_insert_eq|].
  split; [exact Hin|]. split; [exact Hout|].
  split; [exec; by rewrite Hd|].
  exec. by rewrite Hli.
Qed.

End LoadingFacts.

(* ===================================================================== *)
(** * Selecting a trip and resetting the selection                       *)
(* ===================================================================== *)

Module ResetFacts.
Import BikeApp LoopFacts ControlFacts.


(** What the click listener of [layerId] and the background listener do
    to a trip layer. *)
Definition highlighted (layerId id : string) (l : layer) : layer :=
  if String.eqb id layerId
  then set_paint "line-width" (PNum 4) (set_paint "line-opacity" (PNum 1.0) l)
  else set_paint "line-width" (PNum 2) (set_paint "line-opacity" (PNum 0.15) l).


Definition highlight_body (layerId id : string) : M unit :=
  try_catch
    (if String.eqb id layerId then
       setPaintProperty id "line-opacity" (PNum 1.0);;
       setPaintProperty id "line-width" (PNum 4);;
       console_log ("Highlighted: " +:+ id)
     else
       setPaintProperty id "line-opacity" (PNum 0.15);;
       setPaintProperty id "line-width" (PNum 2);;
       console_log ("Faded: " +:+ id))
    (fun _ => console_error ("Error updating layer: " +:+ id)).


Lemma nothrow_two_paints id k v k' v' (m : M unit) :
  nothrow m -> nothrow (setPaintProperty id k v;; setPaintProperty id k' v';; m).
Proof.
  intros Hm. apply nothrow_bind; [apply nothrow_setPaintProperty|intros _].
  apply nothrow_bind; [apply nothrow_setPaintProperty|intros _]. exact Hm.
Qed.

Lemma two_paints_layers id k v k' v' (m : M unit) w :
  nothrow m -> preserves only_style m ->
  (forall w, layers (map (run m w)) = layers (map w)) ->
  layers (map (run (setPaintProperty id k v;; setPaintProperty id k' v';; m) w))
  = alter (fun l => set_paint k' v' (set_paint k v l)) id (layers (map w)).
Proof.
  intros Hn _ Hm.
  rewrite run_seq by apply nothrow_setPaintProperty.
  rewrite run_seq by apply nothrow_setPaintProperty.
  rewrite Hm, !setPaintProperty_layers, alter_alter_eq. reflexivity.
Qed.

Lemma nothrow_highlight_body layerId id : nothrow (highlight_body layerId id).
Proof. apply nothrow_try_catch. intros e. apply nothrow_console_error. Qed.


Lemma run_try_catch_nothrow {A} (m : M A) h w :
  nothrow m -> run (try_catch m h) w = run m w.
Proof. intros H. unfold run. by rewrite try_catch_nothrow. Qed.

Lemma highlight_body_layers layerId id w :
  layers (map (run (highlight_body layerId id) w))
  = alter (highlighted layerId id) id (layers (map w)).
Proof.
  unfold highlight_body, highlighted.
  destruct (String.eqb id layerId);
    (rewrite run_try_catch_nothrow by (apply nothrow_two_paints, nothrow_console_log);
     apply two_paints_layers; [apply nothrow_console_log|style|done]).
Qed.


Lemma style_highlight_body layerId id : preserves only_style (highlight_body layerId id).
Proof. unfold highlight_body. style. Qed.





(** The statistics the popup of [layerId] shows. *)
Definition totals_for (layerId : string) (rendered : list properties) (w : World)
  : float * float :=
  default (trip_totals rendered) (cached_totals (allTripData (globals w)) layerId).

Definition trip_popup (layerId : string) (point : float * float) (props : properties)
    (totals : float * float) : popup :=
  let st := fst (popupStats (fst totals) (snd totals)) in
  Popup point
    [ JS.Str (trip_name layerId);
      line "Speed at point: " (or_text (prop props "Speed") (JS.OfNumber 0)) " km/h";
      line "Average speed: " (popup_avgSpeed st) " km/h";
      line "Total distance: " (popup_distanceKm st) " km";
      line "Duration: " (popup_duration st) "" ].

(** The world after the click listener of [layerId], from the world
    [w1] its restyling loop leaves. *)
Definition selection_shown (layerId : string) (point : float * float) (props : properties)
    (totals : float * float) (cached : bool) (w1 : World) : World :=
  with_map (map_popups (fun ps => ps ++ [trip_popup layerId point props totals]))
    (with_console
       (fun c => c ++ [ConsoleLog ((if cached then "Using cached data for "
                                    else "Queried features for ") +:+ layerId)])
       (with_dom (dom_textContent <["selectedTrip" := JS.Str (trip_name layerId)]>)
          (with_dom (dom_display <["selectedTripRow" := "flex"]>) w1))).

Definition click_started (layerId : string) (w : World) : World :=
  with_globals (set_selectedTrip (Some layerId))
    (set_defaultPrevented true
       (with_console (fun c => c ++ [ConsoleLog ("Layer clicked: " +:+ layerId)]) w)).

Lemma onTripClick_ok layerId point props rendered w :
  "selectedTripRow" ∈ elements (document w) ->
  "selectedTrip" ∈ elements (document w) ->
  exists w1,
    onTripClick layerId point props rendered w
    = (Ok tt, selection_shown layerId point props (totals_for layerId rendered w)
                (bool_decide (is_Some (cached_totals (allTripData (globals w)) layerId)))
                w1)
    /\ layers (map w1) = restyle (highlighted layerId) (tripLayers (globals w)) (layers (map w))
    /\ only_style (click_started layerId w) w1.
Proof.
  intros E1 E2.
  set (tl := tripLayers (globals w)).
  set (w0 := click_started layerId w).
  exists (run (forEach tl (highlight_body layerId)) w0).
  assert (Hs : only_style w0 (run (forEach tl (highlight_body layerId)) w0)).
  { apply (preserves_forEach only_style). intros id. apply style_highlight_body. }
  assert (Hd : document (run (forEach tl (highlight_body layerId)) w0) = document w)
    by exact (os_document _ _ Hs).
  assert (Hg : globals (run (forEach tl (highlight_body layerId)) w0)
               = set_selectedTrip (Some layerId) (globals w))
    by exact (os_globals _ _ Hs).
  split; [|split; [|exact Hs]].
  - unfold onTripClick.
    rewrite (bind_ok _ _ w tt _) by reflexivity.
    rewrite (bind_ok _ _ _ tt _) by reflexivity.
    rewrite (bind_ok _ _ _ tt w0) by reflexivity.
    rewrite (bind_ok _ _ w0 tl w0) by reflexivity.
    change (forEach tl _) with (forEach tl (highlight_body layerId)).
    rewrite (bind_ok _ _ w0 tt (run (forEach tl (highlight_body layerId)) w0))
      by (apply nothrow_result, nothrow_forEach; intros id; apply nothrow_highlight_body).
    set (w1 := run (forEach tl (highlight_body layerId)) w0) in *. clearbody w1.
    rewrite <- Hd in E1, E2.
    assert (Ha : allTripData (globals w) = allTripData (globals w1)) by (by rewrite Hg).
    unfold selection_shown, totals_for, set_display, set_textContent, element, addPopup,
      trip_popup.
    rewrite Ha. clear Hg Ha.
    exec. rewrite decide_True by done. exec. rewrite decide_True by done. exec.
    match goal with
    | |- context [match ?x with Some _ => _ | None => _ end] => destruct x eqn:Hc
    end; reflexivity.
  - change (layers (map w)) with (layers (map w0)).
    apply forEach_restyle; [intros id; apply nothrow_highlight_body|].
    intros id w2. apply highlight_body_layers.
Qed.







(** A click that reaches the click listener of trip [B] and the
    background listener. *)
Lemma trip_click_step CONFIG w B point hit props rendered :
  hit !! B = Some props ->
  List.filter (matches (MapClick point hit rendered)) (listeners w)
    = [OnLayerClick B; OnMapClick] ->
  "selectedTripRow" ∈ elements (document w) ->
  "selectedTrip" ∈ elements (document w) ->
  let w' := step (handler CONFIG) w (MapClick point hit rendered) in
  layers (map w') = restyle (highlighted B) (tripLayers (globals w)) (layers (map w))
  /\ globals w' = set_selectedTrip (Some B) (globals w)
  /\ display (document w') !! "selectedTripRow" = Some "flex"
  /\ textContent (document w') !! "selectedTrip" = Some (JS.Str (trip_name B))
  /\ popups (map w')
     = popups (map w) ++ [trip_popup B point props (totals_for B (rendered B) w)]
  /\ elements (document w') = elements (document w)
  /\ listeners w' = listeners w.
Proof.
  intros Hhit Hls E1 E2. cbv zeta. rewrite step_unfold, Hls.
  cbn [forEach handler]. rewrite Hhit.
  rewrite run_seq by apply nothrow_uncaught.
  rewrite run_seq by apply nothrow_uncaught.
  change (run (mret tt) ?x) with x.
  change (run (browser_after (MapClick point hit rendered)) ?x) with x.
  set (w0 := run (browser_default (MapClick point hit rendered)) w).
  assert (Hw0 : map w0 = map w /\ globals w0 = globals w /\ document w0 = document w
                /\ listeners w0 = listeners w).
  { unfold w0, browser_default. exec. by repeat split. }
  destruct Hw0 as (Hm0 & Hg0 & Hd0 & Hli0).
  destruct (onTripClick_ok B point props (rendered B) w0) as (w1 & Hrun & Hlay & Hs);
    [by rewrite Hd0..|].
  rewrite (run_uncaught_at _ _ _ Hrun).
  set (w2 := selection_shown _ _ _ _ _ w1).
  assert (Hp : defaultPrevented w2 = true) by exact (os_prevented _ _ Hs).
  rewrite (run_uncaught_at _ _ _ (SelectionFacts.onMapClick_prevented w2 Hp)).
  assert (Hg : globals w1 = set_selectedTrip (Some B) (globals w))
    by (rewrite (os_globals _ _ Hs); unfold click_started; exec; by rewrite Hg0).
  assert (Hd : document w1 = document w) by (rewrite (os_document _ _ Hs); exact Hd0).
  assert (Hpop : popups (map w1) = popups (map w))
    by (rewrite (os_popups _ _ Hs); unfold click_started; exec; by rewrite Hm0).
  assert (Hli : listeners w1 = listeners w) by (rewrite (os_listeners _ _ Hs); exact Hli0).
  rewrite Hg0, Hm0 in Hlay.
  assert (Htot : totals_for B (rendered B) w0 = totals_for B (rendered B) w)
    by (unfold totals_for; by rewrite Hg0).
  unfold w2, selection_shown. rewrite Htot. clear Hp. clear w2.
  split; [exec; exact Hlay|]. split; [exec; exact Hg|].
  split; [exec; apply lookup_insert_eq|]. split; [exec; apply lookup_insert_eq|].
  split; [exec; by rewrite Hpop|]. split; [exec; by rewrite Hd|].
  exec. exact Hli.
Qed.




End ResetFacts.

(* ===================================================================== *)
(** * The statistics timer and the cached trip totals                    *)
(* ===================================================================== *)

Module TimerFacts.
Import BikeApp LoopFacts ControlFacts ResetFacts.

(** The trip totals stored by the timer's callback. *)
Definition cache_all (rendered : string -> list properties) (tl : list string)
    (g : Globals) : Globals :=
  fold_left (fun g id => set_allTripData id (trip_totals (rendered id)) g) tl g.

Definition cache_body (rendered : string -> list properties) (layerId : string) : M unit :=
  modify (with_globals (set_allTripData layerId (trip_totals (rendered layerId))));;
  console_log ("Trip totals: " +:+ layerId).

Lemma cache_loop_ok rendered tl w :
  forEach tl (cache_body rendered) w
  = (Ok tt, with_console (fun c => c ++ ((fun id => ConsoleLog ("Trip totals: " +:+ id)) <$> tl))
              (with_globals (cache_all rendered tl) w)).
Proof.
  revert w. induction tl as [|id tl IH]; intros w.
  - cbn. unfold with_console, with_globals. exec. by rewrite app_nil_r.
  - cbn [forEach fmap list_fmap cache_all fold_left].
    rewrite (bind_ok _ _ w tt
               (with_console (fun c => c ++ [ConsoleLog ("Trip totals: " +:+ id)])
                  (with_globals (set_allTripData id (trip_totals (rendered id))) w)))
      by reflexivity.
    rewrite IH. unfold with_console, with_globals. exec. by rewrite <- app_assoc.
Qed.

Lemma cache_all_fields rendered tl g :
  tripLayers (cache_all rendered tl g) = tripLayers g
  /\ speedMode (cache_all rendered tl g) = speedMode g
  /\ showSpeedColors (cache_all rendered tl g) = showSpeedColors g
  /\ selectedTrip (cache_all rendered tl g) = selectedTrip g.
Proof.
  revert g. induction tl as [|id tl IH]; intros g; [done|].
  exact (IH (set_allTripData id (trip_totals (rendered id)) g)).
Qed.

Lemma cache_all_other rendered tl g id :
  id ∉ tl -> allTripData (cache_all rendered tl g) !! id = allTripData g !! id.
Proof.
  revert g. induction tl as [|x tl IH]; intros g Hid; [done|].
  apply not_elem_of_cons in Hid as [Hne Hid].
  change (cache_all rendered (x :: tl) g)
    with (cache_all rendered tl (set_allTripData x (trip_totals (rendered x)) g)).
  rewrite IH by done.
  unfold set_allTripData. exec. by rewrite lookup_insert_ne.
Qed.

Lemma cache_all_stored rendered tl g id :
  id ∈ tl -> allTripData (cache_all rendered tl g) !! id = Some (trip_totals (rendered id)).
Proof.
  revert g. induction tl as [|x tl IH]; intros g Hid; [by apply elem_of_nil in Hid|].
  change (cache_all rendered (x :: tl) g)
    with (cache_all rendered tl (set_allTripData x (trip_totals (rendered x)) g)).
  destruct (decide (id ∈ tl)) as [Hin|Hnin]; [by apply IH|].
  apply elem_of_cons in Hid as [->|Hid]; [|done].
  rewrite cache_all_other by done. unfold set_allTripData. exec. apply lookup_insert_eq.
Qed.

(** The totals over all trips, as the callback adds them up. *)
Definition grand_totals (rendered : string -> list properties) (tl : list string)
  : float * float :=
  (fold_left (fun acc layerId => acc + fst (trip_totals (rendered layerId))) tl 0,
   fold_left (fun acc layerId => acc + snd (trip_totals (rendered layerId))) tl 0).

Definition summary_of (totals : float * float) : SummaryStats :=
  fst (summaryStats (fst totals) (snd totals)).

Definition summary_shown (st : SummaryStats) (w : World) : World :=
  with_dom (dom_textContent (fun t =>
    <["statTotalTime" := summary_totalTime st]>
      (<["statAvgSpeed" := JS.Cat (summary_avgSpeed st) (JS.Str " km/h")]>
         (<["statDistance" := JS.Cat (summary_distanceKm st) (JS.Str " km")]> t)))) w.

Lemma show_summary_ok st w :
  "statDistance" ∈ elements (document w) ->
  "statAvgSpeed" ∈ elements (document w) ->
  "statTotalTime" ∈ elements (document w) ->
  show_summary st w = (Ok tt, summary_shown st w).
Proof.
  intros E1 E2 E3. unfold show_summary, summary_shown, set_textContent, element.
  exec. rewrite !decide_True by done. exec. reflexivity.
Qed.

(** The world after the timer's callback. *)
Definition stats_calculated (c : float * float) (z : float)
    (rendered : string -> list properties) (w : World) : World :=
  let tl := tripLayers (globals w) in
  with_map (fun m => map_zoom z (map_center c (map_called (CallJumpTo c z) m)))
    (summary_shown (summary_of (grand_totals rendered tl))
       (with_console
          (fun cs => cs ++ [ConsoleLog "Calculating stats from zoomed out view..."]
                        ++ ((fun id => ConsoleLog ("Trip totals: " +:+ id)) <$> tl)
                        ++ [ConsoleLog "Total:"])
          (with_globals (cache_all rendered tl) w))).

Lemma onStatsTimeout_ok c z rendered w :
  "statDistance" ∈ elements (document w) ->
  "statAvgSpeed" ∈ elements (document w) ->
  "statTotalTime" ∈ elements (document w) ->
  onStatsTimeout c z rendered w = (Ok tt, stats_calculated c z rendered w).
Proof.
  intros E1 E2 E3. unfold onStatsTimeout.
  rewrite (bind_ok _ _ w tt _) by reflexivity.
  rewrite (bind_ok _ _ _ (tripLayers (globals w)) _) by reflexivity.
  change (forEach ?tl _) with (forEach tl (cache_body rendered)).
  rewrite (bind_ok _ _ _ tt _ (cache_loop_ok _ _ _)).
  rewrite (bind_ok _ _ _ tt _) by reflexivity.
  erewrite bind_ok; [|apply show_summary_ok; [exact E1|exact E2|exact E3]].
  unfold stats_calculated, summary_shown, summary_of, grand_totals, jumpTo.
  exec. by rewrite <- !app_assoc.
Qed.

(** A timer does not match a click, nor a click a timer. *)
Lemma click_listeners_after_timer point hit rendered (ls : list listener) :
  List.filter (matches (MapClick point hit rendered))
              (List.filter (fun l => negb (is_timeout l)) ls)
  = List.filter (matches (MapClick point hit rendered)) ls.
Proof.
  induction ls as [|l ls IH]; [done|]. cbn [List.filter].
  destruct l; cbn [is_timeout negb List.filter]; rewrite ?IH; reflexivity.
Qed.

Lemma no_timer_left rendered (ls : list listener) :
  List.filter (matches (TimerFired rendered)) (List.filter (fun l => negb (is_timeout l)) ls)
  = [].
Proof.
  induction ls as [|l ls IH]; [done|]. cbn [List.filter].
  destruct l; cbn [is_timeout negb List.filter matches]; exact IH.
Qed.

(** The step taken when the one pending timer fires. *)
Lemma timer_step (CONFIG : Config) (w : World) (c : float * float) (z : float)
    (rendered : string -> list properties) :
  List.filter (matches (TimerFired rendered)) (listeners w) = [OnTimeout c z] ->
  "statDistance" ∈ elements (document w) ->
  "statAvgSpeed" ∈ elements (document w) ->
  "statTotalTime" ∈ elements (document w) ->
  step (handler CONFIG) w (TimerFired rendered)
  = run (browser_after (TimerFired rendered))
      (stats_calculated c z rendered (run (browser_default (TimerFired rendered)) w)).
Proof.
  intros Hls E1 E2 E3. rewrite step_unfold, Hls.
  cbn [forEach handler].
  rewrite run_seq by apply nothrow_uncaught.
  change (run (mret tt) ?x) with x. change (run (ret tt) ?x) with x.
  set (w0 := run (browser_default (TimerFired rendered)) w).
  assert (Hd0 : document w0 = document w) by (unfold w0, browser_default; by exec).
  by rewrite (run_uncaught_at _ _ _ (onStatsTimeout_ok c z rendered w0
                ltac:(by rewrite Hd0) ltac:(by rewrite Hd0) ltac:(by rewrite Hd0))).
Qed.

Lemma timer_step_elements (CONFIG : Config) (w : World) (c : float * float) (z : float)
    (rendered : string -> list properties) :
  List.filter (matches (TimerFired rendered)) (listeners w) = [OnTimeout c z] ->
  "statDistance" ∈ elements (document w) ->
  "statAvgSpeed" ∈ elements (document w) ->
  "statTotalTime" ∈ elements (document w) ->
  elements (document (step (handler CONFIG) w (TimerFired rendered))) = elements (document w).
Proof.
  intros Hls E1 E2 E3. rewrite (timer_step CONFIG w c z rendered Hls E1 E2 E3).
  set (w0 := run (browser_default (TimerFired rendered)) w).
  assert (Hd0 : document w0 = document w) by (unfold w0, browser_default; by exec).
  clearbody w0. unfold stats_calculated, summary_shown, browser_after. exec. by rewrite Hd0.
Qed.

Lemma timer_step_cache (CONFIG : Config) (w : World) (c : float * float) (z : float)
    (rendered : string -> list properties) :
  List.filter (matches (TimerFired rendered)) (listeners w) = [OnTimeout c z] ->
  "statDistance" ∈ elements (document w) ->
  "statAvgSpeed" ∈ elements (document w) ->
  "statTotalTime" ∈ elements (document w) ->
  let w' := step (handler CONFIG) w (TimerFired rendered) in
  allTripData (globals w') = allTripData (cache_all rendered (tripLayers (globals w)) (globals w))
  /\ listeners w' = List.filter (fun l => negb (is_timeout l)) (listeners w)
  /\ layers (map w') = layers (map w)
  /\ center (map w') = c /\ zoom (map w') = z.
Proof.
  intros Hls E1 E2 E3. cbv zeta. rewrite (timer_step CONFIG w c z rendered Hls E1 E2 E3).
  set (w0 := run (browser_default (TimerFired rendered)) w).
  assert (Hw0 : map w0 = map w /\ globals w0 = globals w /\ listeners w0 = listeners w).
  { unfold w0, browser_default. exec. by repeat split. }
  destruct Hw0 as (Hm0 & Hg0 & Hli0). clearbody w0.
  unfold stats_calculated, summary_shown, browser_after. exec.
  by rewrite Hg0, Hli0, Hm0.
Qed.

(** X16.  When the statistics timer fires, the callback stores for
    every trip the totals of the features rendered for it at that moment,
    leaves the totals of other keys alone, shows the summary of the grand
    totals, and returns the camera to the centre and zoom recorded when
    the timer was set.  The timer is then gone: it fires once.  Style,
    trip list and selection are untouched. *)
Theorem stats_timer_fills_the_cache
    (CONFIG : Config) (w : World) (c : float * float) (z : float)
    (rendered : string -> list properties) :
  List.filter (matches (TimerFired rendered)) (listeners w) = [OnTimeout c z] ->
  "statDistance" ∈ elements (document w) ->
  "statAvgSpeed" ∈ elements (document w) ->
  "statTotalTime" ∈ elements (document w) ->
  let w' := step (handler CONFIG) w (TimerFired rendered) in
  let st := summary_of (grand_totals rendered (tripLayers (globals w))) in
  (forall id, id ∈ tripLayers (globals w) ->
      allTripData (globals w') !! id = Some (trip_totals (rendered id)))
  /\ (forall id, id ∉ tripLayers (globals w) ->
        allTripData (globals w') !! id = allTripData (globals w) !! id)
  /\ center (map w') = c /\ zoom (map w') = z
  /\ listeners w' = List.filter (fun l => negb (is_timeout l)) (listeners w)
  /\ List.filter (matches (TimerFired rendered)) (listeners w') = []
  /\ layers (map w') = layers (map w)
  /\ tripLayers (globals w') = tripLayers (globals w)
  /\ selectedTrip (globals w') = selectedTrip (globals w)
  /\ textContent (document w') !! "statDistance"
     = Some (JS.Cat (summary_distanceKm st) (JS.Str " km"))
  /\ textContent (document w') !! "statAvgSpeed"
     = Some (JS.Cat (summary_avgSpeed st) (JS.Str " km/h"))
  /\ textContent (document w') !! "statTotalTime" = Some (summary_totalTime st).
Proof.
  intros Hls E1 E2 E3. cbv zeta. rewrite (timer_step CONFIG w c z rendered Hls E1 E2 E3).
  set (w0 := run (browser_default (TimerFired rendered)) w).
  assert (Hw0 : map w0 = map w /\ globals w0 = globals w /\ document w0 = document w
                /\ listeners w0 = listeners w).
  { unfold w0, browser_default. exec. by repeat split. }
  destruct Hw0 as (Hm0 & Hg0 & Hd0 & Hli0).
  unfold stats_calculated, summary_shown, browser_after. rewrite Hg0.
  set (tl := tripLayers (globals w)).
  destruct (cache_all_fields rendered tl (globals w)) as (Htl & _ & _ & Hsel).
  clearbody w0.
  split; [intros id Hid; exec; rewrite Hg0; by apply cache_all_stored|].
  split; [intros id Hid; exec; rewrite Hg0; by apply cache_all_other|].
  split; [reflexivity|]. split; [reflexivity|].
  split; [exec; by rewrite Hli0|].
  split.
  { exec. rewrite Hli0. apply no_timer_left. }
  split; [exec; by rewrite Hm0|].
  split; [exec; by rewrite Hg0|]. split; [exec; by rewrite Hg0|].
  split; [exec; rewrite !lookup_insert_ne by done; apply lookup_insert_eq|].
  split; [exec; rewrite lookup_insert_ne by done; apply lookup_insert_eq|].
  exec. apply lookup_insert_eq.
Qed.

(** X17.  A click after the timer shows the cached statistics.  For
    a click that reaches the click listener of trip [B] alone among the
    trips: once the timer has stored the totals of [B], the popup is
    built from those totals, whatever features are rendered at the
    moment of the click.  Before anything is stored for [B], the popup
    is built from the features rendered for [B] at the click, provided
    the id of [B] names no property that the cache, a plain object,
    inherits ([constructor], [toString], ...; no entry under "__proto__"
    either); when the id does name a property of [Object.prototype], the
    listener takes that property for the cached entry and the popup is
    built from undefined totals (NaN). *)
Theorem popup_uses_the_cached_totals
    (CONFIG : Config) (w : World) (c : float * float) (z : float)
    (rendered : string -> list properties)
    (B : string) (point : float * float) (hit : gmap string properties)
    (props : properties) (at_click : string -> list properties) :
  List.filter (matches (TimerFired rendered)) (listeners w) = [OnTimeout c z] ->
  hit !! B = Some props ->
  List.filter (matches (MapClick point hit at_click)) (listeners w)
    = [OnLayerClick B; OnMapClick] ->
  "statDistance" ∈ elements (document w) ->
  "statAvgSpeed" ∈ elements (document w) ->
  "statTotalTime" ∈ elements (document w) ->
  "selectedTripRow" ∈ elements (document w) ->
  "selectedTrip" ∈ elements (document w) ->
  B ∈ tripLayers (globals w) ->
  let timed := step (handler CONFIG) w (TimerFired rendered) in
  let click w0 := step (handler CONFIG) w0 (MapClick point hit at_click) in
  last (popups (map (click timed)))
    = Some (trip_popup B point props (trip_totals (rendered B)))
  /\ (allTripData (globals w) !! B = None ->
      B ∉ Object_prototype_keys ->
      allTripData (globals w) !! "__proto__" = None ->
      last (popups (map (click w)))
        = Some (trip_popup B point props (trip_totals (at_click B))))
  /\ (allTripData (globals w) !! B = None ->
      B ∈ Object_prototype_keys ->
      last (popups (map (click w))) = Some (trip_popup B point props (nan, nan))).
Proof.
  intros Hlt Hhit Hlc E1 E2 E3 E4 E5 HB. cbv zeta. split; [|split].
  - destruct (timer_step_cache CONFIG w c z rendered Hlt E1 E2 E3) as (Hin & Hli & _).
    pose proof (timer_step_elements CONFIG w c z rendered Hlt E1 E2 E3) as Hel.
    set (timed := step (handler CONFIG) w (TimerFired rendered)) in *.
    destruct (trip_click_step CONFIG timed B point hit props at_click Hhit)
      as (_ & _ & _ & _ & Hpop & _).
    { by rewrite Hli, click_listeners_after_timer. }
    { by rewrite Hel. }
    { by rewrite Hel. }
    rewrite Hpop, last_snoc. do 2 f_equal. unfold totals_for, cached_totals.
    by rewrite Hin, (cache_all_stored rendered _ _ B HB).
  - intros Hnone Hown Hproto.
    destruct (trip_click_step CONFIG w B point hit props at_click Hhit Hlc E4 E5)
      as (_ & _ & _ & _ & Hpop & _).
    rewrite Hpop, last_snoc. do 2 f_equal. unfold totals_for, cached_totals.
    by rewrite Hnone, Hproto, (bool_decide_eq_false_2 _ Hown).
  - intros Hnone Hown.
    destruct (trip_click_step CONFIG w B point hit props at_click Hhit Hlc E4 E5)
      as (_ & _ & _ & _ & Hpop & _).
    rewrite Hpop, last_snoc. do 2 f_equal. unfold totals_for, cached_totals.
    by rewrite Hnone, (bool_decide_eq_true_2 _ Hown).
Qed.

End TimerFacts.

(* ===================================================================== *)
(** * The speed colours of the revision with highlighting                *)
(* ===================================================================== *)

Module SpeedColourFacts.
Import BikeApp LoopFacts ControlFacts.

(** Delivers an event that has exactly one listener. *)
Ltac arrive Hls :=
  rewrite step_unfold, Hls;
  cbn [forEach handler];
  rewrite run_seq by apply nothrow_uncaught;
  change (run (mret tt) ?x) with x;
  match goal with
  | |- context [run (browser_after ?ev) ?x] => change (run (browser_after ev) x) with x
  end;
  change (run (ret tt) ?x) with x.

Definition paint_all (v : paint_value) (layerId : string) : M unit :=
  setPaintProperty layerId "line-color" v.

Definition coloured_with (v : paint_value) (l : layer) : layer := set_paint "line-color" v l.

Lemma coloured_same_but_paint v l : same_but_paint ["line-color"] l (coloured_with v l).
Proof. apply same_but_paint_set. set_solver. Qed.

Lemma restyle_all_ok v w :
  exists w1,
    restyle_all "line-color" v w = (Ok tt, w1)
    /\ layers (map w1) = restyle (fun _ => coloured_with v) (tripLayers (globals w)) (layers (map w))
    /\ only_style w w1.
Proof.
  set (tl := tripLayers (globals w)).
  exists (run (forEach tl (paint_all v)) w). split; [|split].
  - unfold restyle_all. rewrite (bind_ok _ _ w tl w) by reflexivity.
    apply nothrow_result, nothrow_forEach. intros id. apply nothrow_setPaintProperty.
  - apply (forEach_restyle _ (fun _ => coloured_with v));
      [intros id; apply nothrow_setPaintProperty|].
    intros id w0. apply setPaintProperty_layers.
  - apply (preserves_forEach only_style). intros id. unfold paint_all. style.
Qed.

Definition colour_for (b : bool) (mode : string) : paint_value :=
  if b then PExpr (getSpeedColorExpression mode) else PStr DEFAULT_COLOR.

Definition shown_or_not (b : bool) : string := if b then "block" else "none".

(** One change of the speed colours checkbox. *)
Lemma speed_colours_step CONFIG w b :
  List.filter (matches (CheckboxChange "speedColorsCheckbox" b)) (listeners w)
    = [OnChange "speedColorsCheckbox"] ->
  "speedLegend" ∈ elements (document w) ->
  "speedModeGroup" ∈ elements (document w) ->
  let w' := step (handler CONFIG) w (CheckboxChange "speedColorsCheckbox" b) in
  layers (map w')
    = restyle (fun _ => coloured_with (colour_for b (speedMode (globals w))))
              (tripLayers (globals w)) (layers (map w))
  /\ globals w' = set_showSpeedColors b (globals w)
  /\ display (document w') !! "speedLegend" = Some (shown_or_not b)
  /\ display (document w') !! "speedModeGroup" = Some (shown_or_not b)
  /\ elements (document w') = elements (document w)
  /\ listeners w' = listeners w.
Proof.
  intros Hls E1 E2. cbv zeta. arrive Hls.
  set (w0 := run (browser_default (CheckboxChange "speedColorsCheckbox" b)) w).
  assert (Hw0 : map w0 = map w /\ globals w0 = globals w
                /\ elements (document w0) = elements (document w)
                /\ listeners w0 = listeners w).
  { unfold w0, browser_default. exec. by repeat split. }
  destruct Hw0 as (Hm0 & Hg0 & He0 & Hli0).
  set (wa := with_console (fun c => c ++ [ConsoleLog "Speed colors toggled:"])
               (with_globals (set_showSpeedColors b) w0)).
  set (wb := if b then with_console (fun c => c ++ [ConsoleLog "Applying color expression:"]) wa
             else wa).
  destruct (restyle_all_ok (colour_for b (speedMode (globals w))) wb)
    as (w1 & Hrun & Hlay & Hs).
  assert (Hd : document w1 = document w0).
  { rewrite (os_document _ _ Hs). unfold wb, wa. by destruct b. }
  assert (Hg : globals w1 = set_showSpeedColors b (globals w)).
  { rewrite (os_globals _ _ Hs). unfold wb, wa. destruct b; exec; by rewrite Hg0. }
  assert (Hli : listeners w1 = listeners w).
  { rewrite (os_listeners _ _ Hs). unfold wb, wa. by destruct b. }
  assert (Hlay' : layers (map w1)
                  = restyle (fun _ => coloured_with (colour_for b (speedMode (globals w))))
                            (tripLayers (globals w)) (layers (map w))).
  { rewrite Hlay. unfold wb, wa. destruct b; exec; by rewrite Hg0, Hm0. }
  assert (Hrun' : onSpeedColorsChange b w0
                  = (Ok tt, with_dom (dom_display (fun d =>
                       <["speedModeGroup" := shown_or_not b]>
                         (<["speedLegend" := shown_or_not b]> d))) w1)).
  { unfold onSpeedColorsChange.
    rewrite (bind_ok _ _ w0 tt _) by reflexivity.
    rewrite (bind_ok _ _ _ tt wa) by reflexivity.
    rewrite <- He0, <- Hd in E1, E2. clear Hd Hg Hli Hlay Hlay' Hs.
    destruct b.
    - rewrite (bind_ok _ _ wa (speedMode (globals w)) wa)
        by (unfold wa; exec; by rewrite Hg0).
      rewrite (bind_ok _ _ wa tt wb) by reflexivity.
      rewrite (bind_ok _ _ wb tt w1 Hrun).
      unfold set_display, element, shown_or_not. exec.
      rewrite decide_True by done. exec. by rewrite decide_True.
    - rewrite (bind_ok _ _ wa tt w1 Hrun).
      unfold set_display, element, shown_or_not. exec.
      rewrite decide_True by done. exec. by rewrite decide_True. }
  rewrite (run_uncaught_at _ _ _ Hrun').
  split; [exec; exact Hlay'|]. split; [exec; exact Hg|].
  split; [exec; by rewrite lookup_insert_ne, lookup_insert_eq|].
  split; [exec; apply lookup_insert_eq|].
  split; [exec; by rewrite Hd, He0|]. exec. exact Hli.
Qed.

(** A change of mode while the speed colours are off. *)
Lemma speed_mode_step_hidden CONFIG w v :
  List.filter (matches (RadioChange "speedMode" v)) (listeners w)
    = [OnRadioChange "speedMode"] ->
  showSpeedColors (globals w) = false ->
  let w' := step (handler CONFIG) w (RadioChange "speedMode" v) in
  map w' = map w
  /\ globals w' = set_speedMode v (globals w)
  /\ elements (document w') = elements (document w)
  /\ listeners w' = listeners w.
Proof.
  intros Hls Hoff. cbv zeta. arrive Hls.
  unfold onSpeedModeChange, browser_default. exec. rewrite Hoff. exec. by repeat split.
Qed.

(** A change of mode while the speed colours are on. *)
Lemma speed_mode_step_shown CONFIG w v :
  List.filter (matches (RadioChange "speedMode" v)) (listeners w)
    = [OnRadioChange "speedMode"] ->
  showSpeedColors (globals w) = true ->
  let w' := step (handler CONFIG) w (RadioChange "speedMode" v) in
  layers (map w')
    = restyle (fun _ => coloured_with (PExpr (getSpeedColorExpression v)))
              (tripLayers (globals w)) (layers (map w))
  /\ globals w' = set_speedMode v (globals w).
Proof.
  intros Hls Hon. cbv zeta. arrive Hls.
  set (w0 := run (browser_default (RadioChange "speedMode" v)) w).
  assert (Hw0 : map w0 = map w /\ globals w0 = globals w).
  { unfold w0, browser_default. exec. by repeat split. }
  destruct Hw0 as (Hm0 & Hg0).
  set (wa := with_globals (set_speedMode v) w0).
  destruct (restyle_all_ok (PExpr (getSpeedColorExpression v)) wa) as (w1 & Hrun & Hlay & Hs).
  assert (Hrun' : onSpeedModeChange v w0 = (Ok tt, w1)).
  { unfold onSpeedModeChange.
    rewrite (bind_ok _ _ w0 tt wa) by reflexivity.
    rewrite (bind_ok _ _ wa true wa) by (unfold wa; exec; by rewrite Hg0, Hon).
    exact Hrun. }
  rewrite (run_uncaught_at _ _ _ Hrun').
  split.
  - rewrite Hlay. unfold wa. exec. by rewrite Hg0, Hm0.
  - rewrite (os_globals _ _ Hs). unfold wa. exec. by rewrite Hg0.
Qed.

(** X18.  Speed colours in the revision with highlighting.  A mode
    chosen while the colours are off is only recorded: the map is not
    touched.  Turning the colours on then paints every trip layer with
    the expression of that mode and shows the legend and the mode group;
    turning them off paints every trip layer #FF6600 and hides both.
    Through all three events a layer changes in its line-color only
    (opacity and width, hence the highlight of a selected trip, stay),
    and when the trips were #FF6600 before, the style ends as it
    began. *)
Theorem speed_colours_follow_the_mode (CONFIG : Config) (w : World) (v : string) :
  List.filter (matches (RadioChange "speedMode" v)) (listeners w)
    = [OnRadioChange "speedMode"] ->
  List.filter (matches (CheckboxChange "speedColorsCheckbox" true)) (listeners w)
    = [OnChange "speedColorsCheckbox"] ->
  "speedLegend" ∈ elements (document w) ->
  "speedModeGroup" ∈ elements (document w) ->
  showSpeedColors (globals w) = false ->
  let chosen := step (handler CONFIG) w (RadioChange "speedMode" v) in
  let shown := step (handler CONFIG) chosen (CheckboxChange "speedColorsCheckbox" true) in
  let hidden := step (handler CONFIG) shown (CheckboxChange "speedColorsCheckbox" false) in
  map chosen = map w
  /\ speedMode (globals chosen) = v
  /\ (forall id, id ∈ tripLayers (globals w) -> is_Some (layers (map w) !! id) ->
        paint_of shown id "line-color" = Some (PExpr (getSpeedColorExpression v))
        /\ paint_of hidden id "line-color" = Some (PStr DEFAULT_COLOR))
  /\ display (document shown) !! "speedLegend" = Some "block"
  /\ display (document shown) !! "speedModeGroup" = Some "block"
  /\ display (document hidden) !! "speedLegend" = Some "none"
  /\ display (document hidden) !! "speedModeGroup" = Some "none"
  /\ (forall id l, layers (map w) !! id = Some l ->
        exists l1 l2, layers (map shown) !! id = Some l1
                      /\ layers (map hidden) !! id = Some l2
                      /\ same_but_paint ["line-color"] l l1
                      /\ same_but_paint ["line-color"] l l2)
  /\ ((forall id l, id ∈ tripLayers (globals w) -> layers (map w) !! id = Some l ->
         paint l !! "line-color" = Some (PStr DEFAULT_COLOR)) ->
      layers (map hidden) = layers (map w))
  /\ (forall v' id, id ∈ tripLayers (globals w) -> is_Some (layers (map w) !! id) ->
        paint_of (step (handler CONFIG) shown (RadioChange "speedMode" v')) id "line-color"
        = Some (PExpr (getSpeedColorExpression v'))).
Proof.
  intros Hlr Hlc E1 E2 Hoff. cbv zeta.
  destruct (speed_mode_step_hidden CONFIG w v Hlr Hoff) as (Hm0 & Hg0 & He0 & Hli0).
  set (chosen := step (handler CONFIG) w (RadioChange "speedMode" v)) in *.
  destruct (speed_colours_step CONFIG chosen true)
    as (Hlay1 & Hg1 & Hd1 & Hd1' & He1 & Hli1); [by rewrite Hli0|by rewrite He0..|].
  set (shown := step (handler CONFIG) chosen (CheckboxChange "speedColorsCheckbox" true)) in *.
  destruct (speed_colours_step CONFIG shown false)
    as (Hlay2 & Hg2 & Hd2 & Hd2' & _); [by rewrite Hli1, Hli0|by rewrite He1, He0..|].
  set (hidden := step (handler CONFIG) shown (CheckboxChange "speedColorsCheckbox" false)) in *.
  rewrite Hg0, Hm0 in Hlay1. rewrite Hg1, Hg0 in Hlay2.
  change (speedMode (set_speedMode v (globals w))) with v in Hlay1.
  change (tripLayers (set_speedMode v (globals w))) with (tripLayers (globals w)) in Hlay1.
  change (tripLayers (set_showSpeedColors true (set_speedMode v (globals w))))
    with (tripLayers (globals w)) in Hlay2.
  set (tl := tripLayers (globals w)) in *.
  assert (Hboth : forall id l, layers (map w) !! id = Some l ->
            exists l1 l2, layers (map shown) !! id = Some l1
              /\ layers (map hidden) !! id = Some l2
              /\ same_but_paint ["line-color"] l l1
              /\ same_but_paint ["line-color"] l l2
              /\ (id ∈ tl ->
                  paint l1 !! "line-color" = Some (PExpr (getSpeedColorExpression v))
                  /\ paint l2 !! "line-color" = Some (PStr DEFAULT_COLOR))).
  { intros id l Hl.
    destruct (restyle_lookup (same_but_paint ["line-color"])
                (fun l' => paint l' !! "line-color" = Some (PExpr (getSpeedColorExpression v)))
                (fun _ => coloured_with (colour_for true v)) tl (layers (map w)) id l)
      as (l1 & Hl1 & HR1 & HP1);
      [intros l0; apply coloured_same_but_paint|intros l0; apply lookup_insert_eq|done|].
    rewrite <- Hlay1 in Hl1.
    destruct (restyle_lookup (same_but_paint ["line-color"])
                (fun l' => paint l' !! "line-color" = Some (PStr DEFAULT_COLOR))
                (fun _ => coloured_with
                            (colour_for false
                               (speedMode (set_showSpeedColors true
                                             (set_speedMode v (globals w))))))
                tl (layers (map shown)) id l1)
      as (l2 & Hl2 & HR2 & HP2);
      [intros l0; apply coloured_same_but_paint|intros l0; apply lookup_insert_eq|done|].
    rewrite <- Hlay2 in Hl2.
    exists l1, l2. split; [exact Hl1|]. split; [exact Hl2|]. split; [exact HR1|].
    split; [by etrans|]. intros Hid. split; [by apply HP1|by apply HP2]. }
  split; [exact Hm0|]. split; [by rewrite Hg0|]. split; [|split; [exact Hd1|]].
  - intros id Hid [l Hl]. destruct (Hboth id l Hl) as (l1 & l2 & Hl1 & Hl2 & _ & _ & HP).
    destruct (HP Hid) as [? ?]. unfold paint_of. rewrite Hl1, Hl2. by split.
  - split; [exact Hd1'|]. split; [exact Hd2|]. split; [exact Hd2'|]. split; [|split].
    3:{ intros v' id Hid [l Hl].
        destruct (Hboth id l Hl) as (l1 & _ & Hl1 & _).
        destruct (speed_mode_step_shown CONFIG shown v') as (Hlay3 & _);
          [by rewrite Hli1, Hli0|by rewrite Hg1|].
        rewrite Hg1, Hg0 in Hlay3.
        change (tripLayers (set_showSpeedColors true (set_speedMode v (globals w))))
          with tl in Hlay3.
        destruct (restyle_lookup (same_but_paint ["line-color"])
                    (fun l' => paint l' !! "line-color"
                               = Some (PExpr (getSpeedColorExpression v')))
                    (fun _ => coloured_with (PExpr (getSpeedColorExpression v')))
                    tl (layers (map shown)) id l1)
          as (l3 & Hl3 & _ & HP3);
          [intros l0; apply coloured_same_but_paint|intros l0; apply lookup_insert_eq|done|].
        unfold paint_of. rewrite Hlay3, Hl3. cbn. by apply HP3. }
    + intros id l Hl. destruct (Hboth id l Hl) as (l1 & l2 & Hl1 & Hl2 & HR1 & HR2 & _).
      by exists l1, l2.
    + intros Hdef. apply map_eq. intros id.
      destruct (layers (map w) !! id) as [l|] eqn:Hl.
      * destruct (Hboth id l Hl) as (l1 & l2 & Hl1 & Hl2 & _ & HR & HP).
        rewrite Hl2. f_equal.
        destruct (decide (id ∈ tl)) as [Hin|Hnin].
        -- apply (same_but_paint_eq ["line-color"]); [exact HR|].
           destruct (HP Hin) as (_ & Hc). pose proof (Hdef id l Hin Hl) as Hc'.
           intros k Hk. apply list_elem_of_singleton in Hk as ->. congruence.
        -- rewrite Hlay2, restyle_other in Hl2 by done.
           rewrite Hlay1, restyle_other in Hl2 by done. congruence.
      * rewrite Hlay2. apply restyle_absent. rewrite Hlay1. by apply restyle_absent.
Qed.

End SpeedColourFacts.

(* ===================================================================== *)
(** * Loading in the revision with highlighting                          *)
(* ===================================================================== *)

Module BikeLoadFacts.
Import BikeApp LoopFacts ControlFacts LoadingFacts.

(** The layer added for a trip. *)
Definition bike_trip_layer (layerId : string) : layer :=
  line_layer "trips" (Some layerId) (PStr DEFAULT_COLOR) 3 0.7 None.

(** The initial view set by the load listener. *)
Definition amsterdam : float * float := (4.9041, 52.3676).

Definition bike_metadata_read (CONFIG : Config) (ids : list string) (w : World) : World :=
  with_map (map_sources <["trips" := VectorSource ("pmtiles://" +:+ PMTILES_URL CONFIG)]>)
    (with_map (map_called (CallAddSource "trips"))
       (with_console (fun c => c ++ [ConsoleLog "Found trips"])
          (with_globals (set_tripLayers ids)
             (with_console (fun c => c ++ [ConsoleLog "PMTiles loaded:"])
                (with_console
                   (fun c => c ++ [ConsoleLog ("Loading bike trips from: " +:+ PMTILES_URL CONFIG)])
                   (with_console (fun c => c ++ [ConsoleLog "Map loaded"]) w)))))).

Definition bike_layers_added (CONFIG : Config) (ids : list string) (w : World) : World :=
  run (forEach ids (fun id => addLayer id (bike_trip_layer id))) (bike_metadata_read CONFIG ids w).

Definition view_set (w : World) : World :=
  with_map (fun m => map_zoom 13 (map_called (CallSetZoom 13)
                        (map_center amsterdam (map_called (CallSetCenter amsterdam) m))))
    (with_console (fun c => c ++ [ConsoleLog "All trips loaded and visible"]) w).

Definition control_listeners (present : bool) : list listener :=
  if present then [OnChange "speedColorsCheckbox"; OnRadioChange "speedMode"] else [].

Definition controls_set_up (w : World) : World :=
  if bool_decide ("speedColorsCheckbox" ∈ elements (document w))
  then with_listeners (fun ls => ls ++ control_listeners true) w
  else with_console (fun c => c ++ [ConsoleError "Missing speedColorsCheckbox element"]) w.

Lemma setupControls_ok w : setupControls w = (Ok tt, controls_set_up w).
Proof.
  unfold setupControls, controls_set_up. exec.
  destruct (bool_decide _); exec; [by rewrite <- app_assoc|reflexivity].
Qed.

Definition click_handlers_set_up (w : World) : World :=
  with_listeners
    (fun ls => ls ++ flat_map layer_listeners (tripLayers (globals w)) ++ [OnMapClick]) w.

Lemma setupClickHandlers_ok w : setupClickHandlers w = (Ok tt, click_handlers_set_up w).
Proof.
  unfold setupClickHandlers.
  rewrite (bind_ok _ _ w (tripLayers (globals w)) w) by reflexivity.
  change (forEach ?tl _) with (forEach tl register_layer).
  rewrite (bind_ok _ _ w tt _ (register_layers_ok _ _)).
  unfold click_handlers_set_up. exec. by rewrite <- app_assoc.
Qed.

(** [loadAllTripData], by the outcome of the header request. *)
Definition header_centre (h : Header) : float * float :=
  ((minLon h + maxLon h) / 2, (minLat h + maxLat h) / 2).

Definition trip_count_shown (w : World) : World :=
  with_dom (dom_textContent
              <["statTrips" := JS.OfNumber (JS.of_Z (Z.of_nat (length (tripLayers (globals w)))))]>)
    (with_console (fun c => c ++ [ConsoleLog "Loading all trip data from PMTiles..."]) w).

Definition trip_data_requested (header_ : outcome Header) (w : World) : World :=
  match header_ with
  | Ok h =>
      with_listeners (fun ls => ls ++ [OnTimeout (center (map w)) (zoom (map w))])
        (with_map (fun m => map_zoom 10 (map_center (header_centre h)
                               (map_called (CallJumpTo (header_centre h) 10) m)))
           (trip_count_shown w))
  | Thrown _ =>
      with_console (fun c => c ++ [ConsoleError "Error loading trip data:"]) (trip_count_shown w)
  end.

Lemma loadAllTripData_ok header_ w :
  "statTrips" ∈ elements (document w) ->
  loadAllTripData header_ w = (Ok tt, trip_data_requested header_ w).
Proof.
  intros E1. unfold loadAllTripData, trip_data_requested, trip_count_shown, trip_count,
    set_textContent, element, jumpTo, header_centre.
  destruct header_ as [h|e]; exec; rewrite !decide_True by done; exec; try reflexivity.
  rewrite insert_insert_eq. reflexivity.
Qed.

(** The whole load listener, when the metadata arrives. *)
Definition bike_trips_loaded (CONFIG : Config) (ids : list string) (header_ : outcome Header)
    (w : World) : World :=
  trip_data_requested header_
    (click_handlers_set_up (controls_set_up (view_set (bike_layers_added CONFIG ids w)))).

Lemma bike_layers_added_style CONFIG ids w :
  only_style (bike_metadata_read CONFIG ids w) (bike_layers_added CONFIG ids w).
Proof. apply (preserves_forEach only_style). intros id. apply style_addLayer. Qed.

Lemma bike_onLoad_ok CONFIG net md w :
  trips_metadata net = Ok md ->
  sources (map w) !! "trips" = None ->
  "statTrips" ∈ elements (document w) ->
  onLoad CONFIG net w
  = (Ok tt, bike_trips_loaded CONFIG (vl_id <$> default [] (vector_layers md))
              (trips_header net) w).
Proof.
  intros Hmd Hsrc E1.
  set (ids := vl_id <$> default [] (vector_layers md)).
  pose proof (bike_layers_added_style CONFIG ids w) as Hs.
  assert (Hd : document (bike_layers_added CONFIG ids w) = document w)
    by exact (os_document _ _ Hs).
  unfold onLoad.
  rewrite (bind_ok _ _ w tt _) by reflexivity.
  erewrite try_catch_bind_ok; [|reflexivity].
  rewrite Hmd.
  erewrite try_catch_bind_ok; [|reflexivity].
  erewrite try_catch_bind_ok; [|reflexivity].
  erewrite try_catch_bind_ok; [|reflexivity].
  erewrite try_catch_bind_ok; [|reflexivity].
  erewrite try_catch_bind_ok; [|by apply addSource_ok].
  erewrite try_catch_bind_ok; [|reflexivity].
  cbv beta.
  erewrite try_catch_bind_ok;
    [|apply nothrow_result, nothrow_forEach; intros id; apply nothrow_addLayer].
  match goal with
  | |- context [run (forEach ?tl ?body) ?w4] =>
      change (run (forEach tl body) w4) with (bike_layers_added CONFIG ids w)
  end.
  unfold bike_trips_loaded.
  set (w5 := bike_layers_added CONFIG ids w) in *. clearbody w5.
  erewrite try_catch_bind_ok; [|reflexivity].
  erewrite try_catch_bind_ok; [|reflexivity].
  erewrite try_catch_bind_ok; [|reflexivity].
  erewrite try_catch_bind_ok; [|apply setupControls_ok].
  erewrite try_catch_bind_ok; [|apply setupClickHandlers_ok].
  apply try_catch_ok.
  match goal with
  | |- uncaught _ ?W = (_, trip_data_requested _ ?W') =>
      change W with W'; unfold uncaught; apply try_catch_ok; apply loadAllTripData_ok
  end.
  unfold click_handlers_set_up, controls_set_up, view_set.
  destruct (bool_decide _); exec; by rewrite Hd.
Qed.

Definition timer_for (header_ : outcome Header) : list listener :=
  match header_ with
  | Ok _ => [OnTimeout amsterdam 13]
  | Thrown _ => []
  end.

Definition view_for (header_ : outcome Header) : (float * float) * float :=
  match header_ with
  | Ok h => (header_centre h, 10)
  | Thrown _ => (amsterdam, 13)
  end.

(** What is left in the world [bike_trips_loaded]. *)
Lemma bike_trips_loaded_fields (CONFIG : Config) (ids : list string)
    (header_ : outcome Header) (w : World) :
  (forall id, id ∈ ids -> layers (map w) !! id = None) ->
  let present := bool_decide ("speedColorsCheckbox" ∈ elements (document w)) in
  let w' := bike_trips_loaded CONFIG ids header_ w in
  tripLayers (globals w') = ids
  /\ sources (map w') !! "trips" = Some (VectorSource ("pmtiles://" +:+ PMTILES_URL CONFIG))
  /\ (forall id, id ∈ ids -> layers (map w') !! id = Some (bike_trip_layer id))
  /\ (forall id, id ∉ ids -> layers (map w') !! id = layers (map w) !! id)
  /\ listeners w'
     = listeners w ++ control_listeners present ++ flat_map layer_listeners ids
         ++ [OnMapClick] ++ timer_for header_
  /\ textContent (document w') !! "statTrips"
     = Some (JS.OfNumber (JS.of_Z (Z.of_nat (length ids))))
  /\ (center (map w'), zoom (map w')) = view_for header_
  /\ (forall e, header_ = Thrown e -> ConsoleError "Error loading trip data:" ∈ console w')
  /\ elements (document w') = elements (document w).
Proof.
  intros Hfree. cbv zeta.
  pose proof (bike_layers_added_style CONFIG ids w) as Hs.
  destruct (add_layers_layers bike_trip_layer "trips" ids (bike_metadata_read CONFIG ids w))
    as [Hin Hout].
  { done. }
  { unfold bike_metadata_read. exec. rewrite lookup_insert_eq. by eexists. }
  { intros id Hid. left. by apply Hfree. }
  fold (bike_layers_added CONFIG ids w) in Hin, Hout.
  assert (Hd : document (bike_layers_added CONFIG ids w) = document w)
    by exact (os_document _ _ Hs).
  assert (Hg : globals (bike_layers_added CONFIG ids w) = set_tripLayers ids (globals w))
    by exact (os_globals _ _ Hs).
  assert (Hli : listeners (bike_layers_added CONFIG ids w) = listeners w)
    by exact (os_listeners _ _ Hs).
  assert (Hso : sources (map (bike_layers_added CONFIG ids w))
                = <["trips" := VectorSource ("pmtiles://" +:+ PMTILES_URL CONFIG)]>
                    (sources (map w)))
    by exact (os_sources _ _ Hs).
  unfold bike_trips_loaded, trip_data_requested, trip_count_shown, click_handlers_set_up,
    controls_set_up, view_set, timer_for, view_for, control_listeners.
  set (w5 := bike_layers_added CONFIG ids w) in *. clearbody w5.
  change (document (with_map ?f (with_console ?g w5))) with (document w5). rewrite Hd.
  destruct header_ as [h|e], (bool_decide _); exec;
    rewrite ?Hg, ?Hso, ?Hli, ?Hd; exec.
  all: split; [reflexivity|]; split; [apply lookup_insert_eq|];
    split; [exact Hin|]; split; [exact Hout|];
    split; [by rewrite <- ?app_assoc, ?app_nil_r|];
    split; [apply lookup_insert_eq|]; split; [reflexivity|]; split; [|reflexivity].
  all: intros e' He'; try discriminate He'.
  all: apply elem_of_app; right; apply list_elem_of_here.
Qed.

(** X19.  What the load listener of the revision with highlighting
    leaves when the archive's metadata arrives.  The trip list is the
    list of declared layer ids (empty when the metadata has no
    [vector_layers]); the source 'trips' is registered; every trip has a
    line layer drawn in #FF6600 at width 3 and opacity 0.7; the speed
    controls are registered when the page has the checkbox, three map
    listeners per trip and the background listener always; the trip
    counter shows the number of trips.  When the header arrives the
    camera jumps to the centre of its bounds at zoom 10 and one timer
    that remembers Amsterdam at zoom 13 is set; when it fails the error
    is logged, no timer is set and the camera stays on Amsterdam at
    zoom 13. *)
Theorem bike_load_registers_every_trip
    (CONFIG : Config) (net : Network) (md : Metadata) (w : World) :
  trips_metadata net = Ok md ->
  sources (map w) !! "trips" = None ->
  (forall id, id ∈ vl_id <$> default [] (vector_layers md) -> layers (map w) !! id = None) ->
  "statTrips" ∈ elements (document w) ->
  let ids := vl_id <$> default [] (vector_layers md) in
  let present := bool_decide ("speedColorsCheckbox" ∈ elements (document w)) in
  let w' := run (onLoad CONFIG net) w in
  tripLayers (globals w') = ids
  /\ is_Some (sources (map w') !! "trips")
  /\ (forall id, id ∈ ids -> layers (map w') !! id = Some (bike_trip_layer id))
  /\ (forall id, id ∉ ids -> layers (map w') !! id = layers (map w) !! id)
  /\ listeners w'
     = listeners w ++ control_listeners present ++ flat_map layer_listeners ids
         ++ [OnMapClick] ++ timer_for (trips_header net)
  /\ textContent (document w') !! "statTrips"
     = Some (JS.OfNumber (JS.of_Z (Z.of_nat (length ids))))
  /\ (center (map w'), zoom (map w')) = view_for (trips_header net)
  /\ (forall e, trips_header net = Thrown e ->
        ConsoleError "Error loading trip data:" ∈ console w').
Proof.
  intros Hmd Hsrc Hfree E1. cbv zeta.
  unfold run. rewrite (bike_onLoad_ok CONFIG net md w) by done. cbn [snd].
  destruct (bike_trips_loaded_fields CONFIG _ (trips_header net) w Hfree)
    as (H1 & H2 & H3 & H4 & H5 & H6 & H7 & H8 & _).
  split; [exact H1|]. split; [rewrite H2; by eexists|]. by repeat split.
Qed.

End BikeLoadFacts.

(* ===================================================================== *)
(** * The camera during the statistics pass                              *)
(* ===================================================================== *)

Module CameraFacts.
Import BikeApp LoadingFacts BikeLoadFacts TimerFacts.

Lemma no_timer_among_layer_listeners rendered (ids : list string) :
  List.filter (matches (TimerFired rendered)) (flat_map layer_listeners ids) = [].
Proof. induction ids as [|id ids IH]; [done|]. cbn [flat_map layer_listeners app List.filter matches]. exact IH. Qed.

Lemma no_timer_among_controls rendered present :
  List.filter (matches (TimerFired rendered)) (control_listeners present) = [].
Proof. by destruct present. Qed.

(** X20.  The statistics pass leaves the view where it was.  On a
    freshly started page whose archive delivers metadata and header, the
    load leaves the camera on the centre of the archive's bounds at zoom
    10 with one timer pending; when the timer fires the totals of every
    trip are stored, the camera is back on Amsterdam (4.9041, 52.3676) at
    zoom 13, the view the load listener had set, and no timer is left. *)
Theorem camera_returns_after_the_statistics
    (CONFIG : Config) (d : Dom) (net : Network) (md : Metadata) (h : Header)
    (rendered : string -> list properties) :
  trips_metadata net = Ok md ->
  trips_header net = Ok h ->
  "statTrips" ∈ elements d ->
  "statDistance" ∈ elements d ->
  "statAvgSpeed" ∈ elements d ->
  "statTotalTime" ∈ elements d ->
  let loaded := LoadedFacts.bike_loaded CONFIG d net in
  let summarised := step (handler CONFIG) loaded (TimerFired rendered) in
  center (map loaded) = header_centre h /\ zoom (map loaded) = 10
  /\ List.filter (matches (TimerFired rendered)) (listeners loaded) = [OnTimeout amsterdam 13]
  /\ center (map summarised) = amsterdam /\ zoom (map summarised) = 13
  /\ List.filter (matches (TimerFired rendered)) (listeners summarised) = []
  /\ (forall id, id ∈ vl_id <$> default [] (vector_layers md) ->
        allTripData (globals summarised) !! id = Some (trip_totals (rendered id)))
  /\ layers (map summarised) = layers (map loaded).
Proof.
  intros Hmd Hh E1 E2 E3 E4. cbv zeta.
  rewrite LoadedFacts.bike_loaded_run.
  set (w := set_defaultPrevented false (LoadedFacts.bike_started CONFIG d)).
  assert (Hw : listeners w = [OnMapError; OnMapLoad 0] /\ document w = d
               /\ sources (map w) = ∅ /\ layers (map w) = ∅) by done.
  destruct Hw as (Hli & Hd & Hso & Hla).
  unfold run. rewrite (bike_onLoad_ok CONFIG net md w Hmd);
    [|rewrite Hso; apply lookup_empty|by rewrite Hd]. cbn [snd].
  destruct (bike_trips_loaded_fields CONFIG (vl_id <$> default [] (vector_layers md))
              (trips_header net) w)
    as (Htl & _ & _ & _ & Hlis & _ & Hview & _ & Hel).
  { intros id _. rewrite Hla. apply lookup_empty. }
  set (loaded := bike_trips_loaded CONFIG _ (trips_header net) w) in *.
  rewrite Hh in Hview, Hlis. cbn [view_for timer_for] in Hview, Hlis.
  injection Hview as Hc Hz. rewrite Hd in Hel.
  assert (Hft : List.filter (matches (TimerFired rendered)) (listeners loaded)
                = [OnTimeout amsterdam 13]).
  { rewrite Hlis, Hli, !List.filter_app, no_timer_among_controls, no_timer_among_layer_listeners.
    reflexivity. }
  destruct (timer_step_cache CONFIG loaded amsterdam 13 rendered Hft)
    as (Hin & Hli' & Hlay & Hc' & Hz'); [by rewrite Hel..|].
  assert (Hnone : List.filter (matches (TimerFired rendered))
                    (listeners (step (handler CONFIG) loaded (TimerFired rendered))) = [])
    by (rewrite Hli'; apply no_timer_left).
  split; [exact Hc|]. split; [exact Hz|]. split; [exact Hft|].
  split; [exact Hc'|]. split; [exact Hz'|]. split; [exact Hnone|].
  split; [|exact Hlay].
  intros id Hid. rewrite Hin. apply cache_all_stored. by rewrite Htl.
Qed.

End CameraFacts.

(* ===================================================================== *)
(** * Loading in the PMTiles revision                                    *)
(* ===================================================================== *)

Module PmtilesLoadFacts.
Import PmtilesHandlers LoopFacts ControlFacts LoadingFacts.

(** The label of a trip in the filter: underscores become spaces, the
    suffix "_clean" is not removed in this revision. *)
Definition pmtiles_label (layerId : string) : string := JS.underscores_to_spaces layerId.

Definition pmtiles_url (origin : string) (CONFIG : Config) : string :=
  "pmtiles://" +:+ origin +:+ PMTILES_URL CONFIG.

(** The world when header and metadata have been read and the source
    added. *)
Definition pmtiles_metadata_read (origin : string) (CONFIG : Config) (ids : list string)
    (w : World) : World :=
  with_map (map_sources <["trips" := VectorSource (pmtiles_url origin CONFIG)]>)
    (with_map (map_called (CallAddSource "trips"))
       (with_console (fun c => c ++ [ConsoleLog "Found trip layers:"])
          (with_globals (set_tripLayers ids)
             (with_console (fun c => c ++ [ConsoleLog "PMTiles metadata:"])
                (with_console
                   (fun c => c ++ [ConsoleLog ("Loading PMTiles from: " +:+ PMTILES_URL CONFIG)])
                   w))))).

Definition pmtiles_layers_added (origin : string) (CONFIG : Config) (ids : list string)
    (w : World) : World :=
  run (forEach ids (fun id => addLayer id (app_trip_layer id)))
      (pmtiles_metadata_read origin CONFIG ids w).

Definition pmtiles_trips_loaded (origin : string) (CONFIG : Config) (ids : list string)
    (w : World) : World :=
  stats_updated
    (with_listeners (fun ls => ls ++ trip_controls ++ flat_map layer_listeners ids)
       (with_dom (dom_options (fun os => os ++ ((fun id => (id, pmtiles_label id)) <$> ids)))
          (with_console (fun c => c ++ [ConsoleLog "Loaded trip layers"])
             (pmtiles_layers_added origin CONFIG ids w)))).

Lemma pmtiles_layers_added_style origin CONFIG ids w :
  only_style (pmtiles_metadata_read origin CONFIG ids w)
             (pmtiles_layers_added origin CONFIG ids w).
Proof. apply (preserves_forEach only_style). intros id. apply style_addLayer. Qed.

Lemma pmtiles_loadTrips_ok origin CONFIG net h md w :
  trips_header net = Ok h ->
  trips_metadata net = Ok md ->
  sources (map w) !! "trips" = None ->
  "tripFilter" ∈ elements (document w) ->
  "tripsCheckbox" ∈ elements (document w) ->
  "speedSegmentsCheckbox" ∈ elements (document w) ->
  "statTrips" ∈ elements (document w) ->
  "statAvgSpeed" ∈ elements (document w) ->
  loadTrips origin CONFIG net w
  = (Ok tt, pmtiles_trips_loaded origin CONFIG (vl_id <$> default [] (vector_layers md)) w).
Proof.
  intros Hh Hmd Hsrc E1 E2 E3 E4 E5.
  set (ids := vl_id <$> default [] (vector_layers md)).
  pose proof (pmtiles_layers_added_style origin CONFIG ids w) as Hs.
  assert (Hd : document (pmtiles_layers_added origin CONFIG ids w) = document w)
    by exact (os_document _ _ Hs).
  assert (Hg : globals (pmtiles_layers_added origin CONFIG ids w)
               = set_tripLayers ids (globals w))
    by exact (os_globals _ _ Hs).
  unfold loadTrips.
  erewrite try_catch_bind_ok; [|reflexivity].
  cbv zeta. rewrite Hh.
  erewrite try_catch_bind_ok; [|reflexivity].
  rewrite Hmd.
  erewrite try_catch_bind_ok; [|reflexivity].
  erewrite try_catch_bind_ok; [|reflexivity].
  erewrite try_catch_bind_ok; [|reflexivity].
  erewrite try_catch_bind_ok; [|reflexivity].
  erewrite try_catch_bind_ok; [|by apply addSource_ok].
  erewrite try_catch_bind_ok; [|reflexivity].
  cbv beta.
  erewrite try_catch_bind_ok;
    [|apply nothrow_result, nothrow_forEach; intros id; apply nothrow_addLayer].
  match goal with
  | |- context [run (forEach ?tl ?body) ?w4] =>
      change (run (forEach tl body) w4) with (pmtiles_layers_added origin CONFIG ids w)
  end.
  unfold pmtiles_trips_loaded.
  set (w5 := pmtiles_layers_added origin CONFIG ids w) in *. clearbody w5.
  rewrite <- Hd in E1, E2, E3, E4, E5.
  erewrite try_catch_bind_ok; [|reflexivity].
  change (forEach ?tl (fun layerId => _)) with (forEach tl (add_option pmtiles_label)).
  erewrite try_catch_bind_ok; [|by apply add_options_ok].
  erewrite try_catch_bind_ok; [|by apply setupTripControls_ok].
  apply try_catch_ok.
  etrans; [by apply updateStats_ok|].
  unfold stats_updated. exec. rewrite Hg. reflexivity.
Qed.

(** X21.  In the PMTiles revision a trip archive that cannot be opened
    leaves no trace in the style.  When the header or the metadata
    request fails, the failure is caught; the map (sources, layers,
    recorded calls), the page, the variables and the listeners are as
    before, and the console has the announcement and the two error
    lines.  No 'trips' source is registered, since this revision adds the
    source only after both requests. *)
Theorem pmtiles_failure_registers_nothing
    (origin : string) (CONFIG : Config) (net : Network) (w : World) :
  (exists e, trips_header net = Thrown e) \/ (exists e, trips_metadata net = Thrown e) ->
  let w' := run (loadTrips origin CONFIG net) w in
  fst (loadTrips origin CONFIG net w) = Ok tt
  /\ map w' = map w
  /\ globals w' = globals w
  /\ document w' = document w
  /\ listeners w' = listeners w
  /\ alerts w' = alerts w
  /\ console w'
     = console w ++ [ConsoleLog ("Loading PMTiles from: " +:+ PMTILES_URL CONFIG);
                     ConsoleError "Error loading trips:"; ConsoleError "Full error:"].
Proof.
  intros H. cbv zeta. unfold run, loadTrips.
  destruct H as [[e0 He]|[e0 He]]; rewrite He.
  - exec. repeat split. by rewrite <- !app_assoc.
  - destruct (trips_header net) as [h|e']; exec; repeat split; by rewrite <- !app_assoc.
Qed.

(** X22.  What a successful load in the PMTiles revision leaves.  The
    trip list is the list of layer ids declared by the metadata, the
    empty list when the metadata declares none; the source 'trips' is
    registered under "pmtiles://" followed by the page origin and the
    configured path; every trip has a line layer drawn in #FF6600 at
    width 2 and opacity 0.4 and no other layer is touched; the filter has
    one more option per trip, labelled with the id with spaces for
    underscores; the four trip controls and three map listeners per trip
    are registered. *)
Theorem pmtiles_load_registers_every_trip
    (origin : string) (CONFIG : Config) (net : Network) (h : Header) (md : Metadata)
    (w : World) :
  trips_header net = Ok h ->
  trips_metadata net = Ok md ->
  sources (map w) !! "trips" = None ->
  (forall id, id ∈ vl_id <$> default [] (vector_layers md) -> layers (map w) !! id = None) ->
  "tripFilter" ∈ elements (document w) ->
  "tripsCheckbox" ∈ elements (document w) ->
  "speedSegmentsCheckbox" ∈ elements (document w) ->
  "statTrips" ∈ elements (document w) ->
  "statAvgSpeed" ∈ elements (document w) ->
  let ids := vl_id <$> default [] (vector_layers md) in
  let w' := run (loadTrips origin CONFIG net) w in
  tripLayers (globals w') = ids
  /\ (vector_layers md = None -> tripLayers (globals w') = [])
  /\ sources (map w') !! "trips"
     = Some (VectorSource ("pmtiles://" +:+ origin +:+ PMTILES_URL CONFIG))
  /\ (forall id, id ∈ ids -> layers (map w') !! id = Some (app_trip_layer id))
  /\ (forall id, id ∉ ids -> layers (map w') !! id = layers (map w) !! id)
  /\ options (document w')
     = options (document w) ++ ((fun id => (id, JS.underscores_to_spaces id)) <$> ids)
  /\ listeners w' = listeners w ++ trip_controls ++ flat_map layer_listeners ids.
Proof.
  intros Hh Hmd Hsrc Hfree E1 E2 E3 E4 E5. cbv zeta.
  unfold run. rewrite (pmtiles_loadTrips_ok origin CONFIG net h md w) by done.
  cbn [snd]. set (ids := vl_id <$> default [] (vector_layers md)) in *.
  pose proof (pmtiles_layers_added_style origin CONFIG ids w) as Hs.
  destruct (add_layers_layers app_trip_layer "trips" ids
              (pmtiles_metadata_read origin CONFIG ids w)) as [Hin Hout].
  { done. }
  { unfold pmtiles_metadata_read. exec. rewrite lookup_insert_eq. by eexists. }
  { intros id Hid. left. by apply Hfree. }
  fold (pmtiles_layers_added origin CONFIG ids w) in Hin, Hout.
  assert (Hd : document (pmtiles_layers_added origin CONFIG ids w) = document w)
    by exact (os_document _ _ Hs).
  assert (Hg : globals (pmtiles_layers_added origin CONFIG ids w)
               = set_tripLayers ids (globals w))
    by exact (os_globals _ _ Hs).
  assert (Hli : listeners (pmtiles_layers_added origin CONFIG ids w) = listeners w)
    by exact (os_listeners _ _ Hs).
  assert (Hso : sources (map (pmtiles_layers_added origin CONFIG ids w))
                = <["trips" := VectorSource (pmtiles_url origin CONFIG)]> (sources (map w)))
    by exact (os_sources _ _ Hs).
  unfold pmtiles_trips_loaded, stats_updated.
  set (w5 := pmtiles_layers_added origin CONFIG ids w) in *. clearbody w5.
  split; [exec; by rewrite Hg|].
  split.
  { intros Hnone. exec. rewrite Hg. unfold ids. by rewrite Hnone. }
  split; [exec; rewrite Hso; apply lookup_insert_eq|].
  split; [exact Hin|]. split; [exact Hout|].
  split; [exec; by rewrite Hd|].
  exec. by rewrite Hli.
Qed.

End PmtilesLoadFacts.

(* ===================================================================== *)
(** * How durations are displayed                                        *)
(* ===================================================================== *)

Module DurationFacts.
Import BikeApp.

(** [p] holds of the [n] integers from [t] on. *)
Fixpoint all_from (p : Z -> bool) (t : Z) (n : nat) : bool :=
  match n with
  | O => true
  | S k => p t && all_from p (t + 1) k
  end.

Lemma all_from_spec (p : Z -> bool) (n : nat) (t0 : Z) :
  all_from p t0 n = true -> forall t : Z, (t0 <= t < t0 + Z.of_nat n)%Z -> p t = true.
Proof.
  revert t0. induction n as [|k IH]; intros t0 Hall t Ht; [lia|].
  cbn [all_from] in Hall. apply andb_true_iff in Hall as [Hk Hall].
  destruct (decide (t = t0)) as [->|Hne]; [exact Hk|].
  apply (IH (t0 + 1)%Z); [exact Hall|lia].
Qed.

Definition renders (t : JS.text) (s : string) : bool :=
  match JS.render t with
  | Some s' => String.eqb s' s
  | None => false
  end.

Lemma renders_spec t s : renders t s = true -> JS.render t = Some s.
Proof.
  unfold renders. destruct (JS.render t) as [s'|]; [|discriminate].
  intros H. apply String.eqb_eq in H. by subst.
Qed.

(** The duration of the popup and the total time of the summary depend
    on the time only. *)
Definition duration_of (totalTime : float) : JS.text :=
  popup_duration (fst (popupStats 0 totalTime)).

Definition total_time_of (totalTime : float) : JS.text :=
  summary_totalTime (fst (summaryStats 0 totalTime)).

Lemma popup_duration_of d t : popup_duration (fst (popupStats d t)) = duration_of t.
Proof. unfold duration_of, popupStats, avgSpeed. destruct (0 <? t); reflexivity. Qed.

Lemma summary_total_time_of d t : summary_totalTime (fst (summaryStats d t)) = total_time_of t.
Proof. unfold total_time_of, summaryStats, avgSpeed. destruct (0 <? t); reflexivity. Qed.

(** Minutes and seconds of a whole number of seconds. *)
Definition clock (t : Z) : string :=
  JS.digits (Z.to_N (t / 60)) +:+ ":" +:+ JS.padStart0 2 (JS.digits (Z.to_N (t mod 60))).

Definition hours_minutes (t : Z) : string :=
  if (t <? 3600)%Z then JS.digits (Z.to_N (t / 60)) +:+ "m"
  else JS.digits (Z.to_N (t / 3600)) +:+ "h "
         +:+ JS.digits (Z.to_N (t mod 3600 / 60)) +:+ "m".

Lemma whole_seconds_checked :
  all_from (fun t => let x := JS.of_Z t in
                     renders (duration_of x) (clock t)
                     && renders (total_time_of x) (hours_minutes t))
           0 (Z.to_nat 21600) = true.
Proof. vm_cast_no_check (eq_refl true). Qed.

Lemma half_seconds_checked :
  all_from (fun k => renders (duration_of (JS.of_Z (60 * k) + 59.5))
                             (JS.digits (Z.to_N k) +:+ ":60"))
           0 (Z.to_nat 360) = true.
Proof. vm_cast_no_check (eq_refl true). Qed.

(** X23.  The duration in a trip's popup.  For a total time of a whole
    number of seconds below six hours, the popup shows the minutes, a
    colon and the seconds on two digits, whatever the distance. *)
Theorem popup_duration_is_minutes_and_seconds (totalDistance : float) (t : Z) :
  (0 <= t < 21600)%Z ->
  JS.render (popup_duration (fst (popupStats totalDistance (JS.of_Z t))))
  = Some (JS.digits (Z.to_N (t / 60)) +:+ ":"
            +:+ JS.padStart0 2 (JS.digits (Z.to_N (t mod 60)))).
Proof.
  intros Ht. rewrite popup_duration_of.
  pose proof (all_from_spec _ _ _ whole_seconds_checked t) as H.
  rewrite Z2Nat.id in H by lia. specialize (H ltac:(lia)). cbv zeta in H.
  apply andb_true_iff in H as [H _]. exact (renders_spec _ _ H).
Qed.

(** X24.  The seconds of the popup's duration are rounded without a
    carry into the minutes: a total time of [k] minutes and 59.5 seconds
    (k below 360) is shown as "k:60". *)
Theorem popup_duration_can_show_sixty_seconds (totalDistance : float) (k : Z) :
  (0 <= k < 360)%Z ->
  JS.render (popup_duration (fst (popupStats totalDistance (JS.of_Z (60 * k) + 59.5))))
  = Some (JS.digits (Z.to_N k) +:+ ":60").
Proof.
  intros Hk. rewrite popup_duration_of.
  pose proof (all_from_spec _ _ _ half_seconds_checked k) as H.
  rewrite Z2Nat.id in H by lia. specialize (H ltac:(lia)).
  exact (renders_spec _ _ H).
Qed.

(** X25.  The total time of the summary drops the seconds.  For a whole
    number of seconds below six hours it shows the whole minutes followed
    by "m" when the time is under an hour, and otherwise the whole hours,
    "h", and the whole minutes of the rest, "m"; so 59 seconds read
    "0m". *)
Theorem summary_time_drops_the_seconds (totalDistance : float) (t : Z) :
  (0 <= t < 21600)%Z ->
  JS.render (summary_totalTime (fst (summaryStats totalDistance (JS.of_Z t))))
  = Some (if (t <? 3600)%Z then JS.digits (Z.to_N (t / 60)) +:+ "m"
          else JS.digits (Z.to_N (t / 3600)) +:+ "h "
                 +:+ JS.digits (Z.to_N (t mod 3600 / 60)) +:+ "m").
Proof.
  intros Ht. rewrite summary_total_time_of.
  pose proof (all_from_spec _ _ _ whole_seconds_checked t) as H.
  rewrite Z2Nat.id in H by lia. specialize (H ltac:(lia)). cbv zeta in H.
  apply andb_true_iff in H as [_ H]. exact (renders_spec _ _ H).
Qed.

Lemma popup_duration_is_minutes_and_seconds_1830 :
  JS.render (popup_duration (fst (popupStats 12345 (JS.of_Z 1830)))) = Some "30:30".
Proof. apply (popup_duration_is_minutes_and_seconds 12345 1830). lia. Defined.

Lemma popup_duration_can_show_sixty_seconds_first_minute :
  JS.render (popup_duration (fst (popupStats 250 (JS.of_Z (60 * 0) + 59.5)))) = Some "0:60".
Proof. apply (popup_duration_can_show_sixty_seconds 250 0). lia. Defined.

Lemma summary_time_drops_the_seconds_59 :
  JS.render (summary_totalTime (fst (summaryStats 250 (JS.of_Z 59)))) = Some "0m".
Proof. apply (summary_time_drops_the_seconds 250 59). lia. Defined.

End DurationFacts.

(* ===================================================================== *)
(** * The properties on the sample pages                                 *)
(* ===================================================================== *)

Module Scenarios.
Import Examples.

Ltac present := apply (bool_decide_unpack _); vm_compute; exact I.

Lemma trip_filter_shows_the_choice_first_trip :
  textContent (document (step (AppJs.handler configured) app_ready
                           (SelectChange "tripFilter" "trip_01_clean")))
    !! "statTrips" = Some (JS.OfNumber (JS.of_Z 1)).
Proof.
  refine (proj1 (proj2 (proj2 (ControlFacts.trip_filter_shows_the_choice
                                 configured app_ready "trip_01_clean" _ _ _ _)))).
  - vm_compute. reflexivity.
  - present.
  - present.
  - present.
Defined.

Lemma trips_checkbox_respects_the_filter_aggregated_stays :
  layers (map (step (AppJs.handler configured) app_ready
                 (CheckboxChange "tripsCheckbox" false))) !! aggregated_layer
  = layers (map app_ready) !! aggregated_layer.
Proof.
  refine (proj2 (ControlFacts.trips_checkbox_respects_the_filter
                   configured app_ready false _ _) aggregated_layer _).
  - vm_compute. reflexivity.
  - present.
  - intros [H _]. revert H.
    apply (bool_decide_unpack (aggregated_layer ∉ tripLayers (globals app_ready))).
    vm_compute. exact I.
Defined.

Lemma speed_segments_round_trip_legend :
  display (document (steps (AppJs.handler configured) app_ready
                       [CheckboxChange "speedSegmentsCheckbox" true])) !! "speedLegend"
    = Some "block"
  /\ display (document (steps (AppJs.handler configured) app_ready
                          [CheckboxChange "speedSegmentsCheckbox" true;
                           CheckboxChange "speedSegmentsCheckbox" false])) !! "speedLegend"
     = Some "none".
Proof.
  destruct (ControlFacts.speed_segments_round_trip configured app_ready)
    as (_ & H1 & H2 & _).
  - vm_compute. reflexivity.
  - present.
  - split; [exact H1|exact H2].
Defined.

Lemma speed_mode_recolours_what_is_shown_nothing_shown :
  speedMode (globals (step (AppJs.handler configured) app_ready
                        (RadioChange "speedMode" "step"))) = "step"
  /\ map (step (AppJs.handler configured) app_ready (RadioChange "speedMode" "step"))
     = map app_ready.
Proof.
  destruct (ControlFacts.speed_mode_recolours_what_is_shown configured app_ready "step")
    as (H1 & _ & _ & H2 & _).
  - vm_compute. reflexivity.
  - present.
  - present.
  - split; [exact H1|apply H2; reflexivity].
Defined.

Lemma aggregated_controls_are_independent_slider :
  exists l', layers (map (step (AppJs.handler configured) app_ready
                            (SliderInput "minSamplesSlider" "3"))) !! aggregated_layer
             = Some l'
    /\ filter l' = Some (EGe (EGet "sample_count") (ENum (JS.parseInt "3")))
    /\ paint l' = paint IsolationFacts.aggregated_line_layer
    /\ layout l' = layout IsolationFacts.aggregated_line_layer.
Proof.
  refine (proj2 (ControlFacts.aggregated_controls_are_independent
                   configured app_ready IsolationFacts.aggregated_line_layer _) "3" _ _).
  - vm_compute. reflexivity.
  - vm_compute. reflexivity.
  - present.
Defined.

Lemma app_load_registers_every_trip_two_trips :
  options (document (run (AppJs.loadTrips configured all_reachable)
                       (LoadedFacts.app_started configured LoadFacts.app_page)))
  = [("trip_01_clean", "trip 01"); ("trip_02_clean", "trip 02")].
Proof.
  refine (proj1 (proj2 (proj2 (proj2 (proj2
            (LoadingFacts.app_load_registers_every_trip configured all_reachable two_trips
               [Build_VectorLayer "trip_01_clean"; Build_VectorLayer "trip_02_clean"]
               (LoadedFacts.app_started configured LoadFacts.app_page)
               eq_refl eq_refl _ _ _ _ _ _ _)))))).
  - vm_compute. reflexivity.
  - intros id _. vm_compute. reflexivity.
  - present.
  - present.
  - present.
  - present.
  - present.
Defined.


Definition ride_a_rendered (layerId : string) : list properties :=
  if String.eqb layerId "ride_a"
  then [ {[ "distance_m" := VNum 1200; "time_diff_s" := VNum 300 ]};
         {[ "distance_m" := VNum 800; "time_diff_s" := VNum 200 ]} ]
  else [].

Lemma stats_timer_fills_the_cache_two_rides :
  allTripData (globals (step (BikeApp.handler StatsFacts.sample_config)
                          SelectionFacts.two_rides_loaded (TimerFired ride_a_rendered)))
    !! "ride_a" = Some (BikeApp.trip_totals (ride_a_rendered "ride_a")).
Proof.
  refine (proj1 (TimerFacts.stats_timer_fills_the_cache
                   StatsFacts.sample_config SelectionFacts.two_rides_loaded
                   BikeLoadFacts.amsterdam 13 ride_a_rendered _ _ _ _) "ride_a" _).
  - vm_compute. reflexivity.
  - present.
  - present.
  - present.
  - present.
Defined.

(** A page whose one trip is named like a property of plain objects. *)
Definition constructor_ride_loaded : World :=
  LoadedFacts.bike_loaded StatsFacts.sample_config StatsFacts.stats_page
    (Build_Network (Ok (Build_Metadata (Some [Build_VectorLayer "constructor"])))
                   (Ok (Build_Header 4.8 5.0 52.3 52.4))
                   (Thrown (NetworkError "not requested"))).

Lemma popup_uses_the_cached_totals_ride_a :
  last (popups (map (step (BikeApp.handler StatsFacts.sample_config)
                       (step (BikeApp.handler StatsFacts.sample_config)
                          SelectionFacts.two_rides_loaded (TimerFired ride_a_rendered))
                       (MapClick (4.9, 52.37) {["ride_a" := ∅]} (fun _ => [])))))
    = Some (ResetFacts.trip_popup "ride_a" (4.9, 52.37) ∅
              (BikeApp.trip_totals (ride_a_rendered "ride_a")))
  /\ StatsFacts.popup_lines
       (step (BikeApp.handler StatsFacts.sample_config) constructor_ride_loaded
          (MapClick (4.9, 52.37) {["constructor" := ∅]} ride_a_rendered))
     = [Some "constructor"; Some "Speed at point: 0 km/h"; Some "Average speed: 0 km/h";
        Some "Total distance: NaN km"; Some "Duration: NaN:NaN"].
Proof.
  split.
  - refine (proj1 (TimerFacts.popup_uses_the_cached_totals
                     StatsFacts.sample_config SelectionFacts.two_rides_loaded
                     BikeLoadFacts.amsterdam 13 ride_a_rendered "ride_a" (4.9, 52.37)
                     {["ride_a" := ∅]} ∅ (fun _ => []) _ _ _ _ _ _ _ _ _)).
    + vm_compute. reflexivity.
    + reflexivity.
    + vm_compute. reflexivity.
    + present.
    + present.
    + present.
    + present.
    + present.
    + present.
  - unfold StatsFacts.popup_lines.
    rewrite (proj2 (proj2 (TimerFacts.popup_uses_the_cached_totals
                     StatsFacts.sample_config constructor_ride_loaded
                     BikeLoadFacts.amsterdam 13 ride_a_rendered "constructor" (4.9, 52.37)
                     {["constructor" := ∅]} ∅ ride_a_rendered
                     ltac:(vm_compute; reflexivity) eq_refl ltac:(vm_compute; reflexivity)
                     ltac:(present) ltac:(present) ltac:(present) ltac:(present)
                     ltac:(present) ltac:(present)))
               ltac:(vm_compute; reflexivity) ltac:(present)).
    vm_compute. reflexivity.
Defined.

Lemma speed_colours_follow_the_mode_step :
  let chosen := step (BikeApp.handler StatsFacts.sample_config)
                  SelectionFacts.two_rides_loaded (RadioChange "speedMode" "step") in
  let shown := step (BikeApp.handler StatsFacts.sample_config) chosen
                 (CheckboxChange "speedColorsCheckbox" true) in
  map chosen = map SelectionFacts.two_rides_loaded
  /\ paint_of shown "ride_b" "line-color"
     = Some (PExpr (BikeApp.getSpeedColorExpression "step")).
Proof.
  destruct (SpeedColourFacts.speed_colours_follow_the_mode
              StatsFacts.sample_config SelectionFacts.two_rides_loaded "step")
    as (H1 & _ & H3 & _).
  - vm_compute. reflexivity.
  - vm_compute. reflexivity.
  - present.
  - present.
  - vm_compute. reflexivity.
  - cbv zeta. split; [exact H1|].
    destruct (H3 "ride_b") as [Hs _]; [present| |exact Hs].
    vm_compute. eexists. reflexivity.
Defined.

Lemma bike_load_registers_every_trip_two_rides :
  listeners (run (BikeApp.onLoad StatsFacts.sample_config SelectionFacts.two_rides)
               (LoadedFacts.bike_started StatsFacts.sample_config StatsFacts.stats_page))
  = [OnMapError; OnMapLoad 0; OnChange "speedColorsCheckbox"; OnRadioChange "speedMode"]
      ++ LoadingFacts.layer_listeners "ride_a" ++ LoadingFacts.layer_listeners "ride_b"
      ++ [OnMapClick; OnTimeout BikeLoadFacts.amsterdam 13].
Proof.
  refine (proj1 (proj2 (proj2 (proj2 (proj2
            (BikeLoadFacts.bike_load_registers_every_trip
               StatsFacts.sample_config SelectionFacts.two_rides
               (Build_Metadata (Some [Build_VectorLayer "ride_a"; Build_VectorLayer "ride_b"]))
               (LoadedFacts.bike_started StatsFacts.sample_config StatsFacts.stats_page)
               eq_refl _ _ _)))))).
  - vm_compute. reflexivity.
  - intros id _. vm_compute. reflexivity.
  - present.
Defined.

Lemma camera_returns_after_the_statistics_two_rides :
  center (map SelectionFacts.two_rides_loaded)
    = BikeLoadFacts.header_centre (Build_Header 4.8 5.0 52.3 52.4)
  /\ center (map (step (BikeApp.handler StatsFacts.sample_config)
                    SelectionFacts.two_rides_loaded (TimerFired ride_a_rendered)))
     = BikeLoadFacts.amsterdam.
Proof.
  destruct (CameraFacts.camera_returns_after_the_statistics
              StatsFacts.sample_config StatsFacts.stats_page SelectionFacts.two_rides
              (Build_Metadata (Some [Build_VectorLayer "ride_a"; Build_VectorLayer "ride_b"]))
              (Build_Header 4.8 5.0 52.3 52.4) ride_a_rendered eq_refl eq_refl)
    as (H1 & _ & _ & H4 & _).
  - present.
  - present.
  - present.
  - present.
  - split; [exact H1|exact H4].
Defined.

Lemma pmtiles_failure_registers_nothing_unreachable :
  map (run (PmtilesHandlers.loadTrips "http://localhost:5173" configured
              IsolationFacts.trips_unreachable)
           (LoadedFacts.app_started configured LoadFacts.app_page))
  = map (LoadedFacts.app_started configured LoadFacts.app_page).
Proof.
  refine (proj1 (proj2 (PmtilesLoadFacts.pmtiles_failure_registers_nothing
                          "http://localhost:5173" configured
                          IsolationFacts.trips_unreachable
                          (LoadedFacts.app_started configured LoadFacts.app_page) _))).
  right. eexists. reflexivity.
Defined.

Lemma pmtiles_load_registers_every_trip_two_trips :
  options (document (run (PmtilesHandlers.loadTrips "http://localhost:5173" configured
                            all_reachable)
                         (LoadedFacts.app_started configured LoadFacts.app_page)))
  = [("trip_01_clean", "trip 01 clean"); ("trip_02_clean", "trip 02 clean")].
Proof.
  refine (proj1 (proj2 (proj2 (proj2 (proj2 (proj2
            (PmtilesLoadFacts.pmtiles_load_registers_every_trip
               "http://localhost:5173" configured all_reachable
               (Build_Header 4.8 5.0 52.3 52.4) two_trips
               (LoadedFacts.app_started configured LoadFacts.app_page)
               eq_refl eq_refl _ _ _ _ _ _ _))))))).
  - vm_compute. reflexivity.
  - intros id _. vm_compute. reflexivity.
  - present.
  - present.
  - present.
  - present.
  - present.
Defined.

End Scenarios.
